(** * menu_online: a shallow embedding of [app.py]

    The application is a Streamlit script: every user interaction re-runs
    [main], which dispatches to one page handler.  The handlers talk to a
    relational store through one SQLAlchemy session each and keep the cart
    and the admin flag in [st.session_state].

    The embedding follows the code:
    - prices and totals are Python floats; the handlers use [0.0], [+],
      [float * int] and a lower bound on them, so the model is generic in
      an [Amount] structure with these operations, instantiated with IEEE
      binary64 ([float64], what CPython computes) and with exact
      rationals ([exact], the arithmetic the totals approximate);
    - the cart is a Python dict: an association list in insertion order
      with unique keys, since iteration order decides both the order of
      the order lines and the order of the float additions;
    - a handler is a computation in a state-and-exception monad over a
      [World]: the session state, what was shown, the clock and the
      storage session (committed rows, the open transaction's rows and a
      fault countdown that makes a chosen round trip raise);
    - strings are byte strings; timestamps are wall-clock readings of the
      configured zone, compared field by field.

    Taken as given, not modelled: that the storage engine commits a
    transaction as a whole or not at all; the widgets' own bounds on what
    they return; the rendering of tables, images and downloads (the CSV
    export of the listing is a download of what the listing shows). *)

From Stdlib Require Import ZArith QArith Qpower List String Ascii Bool Lia Lqa.
From Stdlib Require Import Permutation Sorted DecimalString DecimalPos DecimalZ FinFun.
From Stdlib Require Import Floats Uint63.
Import ListNotations.

Local Open Scope string_scope.
Local Open Scope list_scope.
Local Open Scope Z_scope.

(* ------------------------------------------------------------------ *)
(** ** Amounts: the float operations the handlers use *)

Class Amount (F : Type) : Type := {
  (** the literal [0.0] *)
  amt_zero : F;
  (** [x + y] on floats *)
  amt_add : F -> F -> F;
  (** [x * y] on floats *)
  amt_mul : F -> F -> F;
  (** [float(n)], the conversion an int operand goes through *)
  amt_of_int : Z -> F;
  (** [x < y] *)
  amt_ltb : F -> F -> bool
}.

(** [price * qty] with [qty] a Python int. *)
Definition amt_times {F : Type} {A : Amount F} (price : F) (qty : Z) : F :=
  amt_mul price (amt_of_int qty).

(** A Python int converted to binary64, for [|q| < 2^63] (exact below
    [2^53]); the cart only ever holds quantities from a number input
    bounded by 50. *)
Definition float_of_int (q : Z) : float :=
  if q <? 0 then PrimFloat.opp (PrimFloat.of_uint63 (Uint63.of_Z (- q)))
  else PrimFloat.of_uint63 (Uint63.of_Z q).

#[export] Instance float64 : Amount float := {
  amt_zero := PrimFloat.zero;
  amt_add := PrimFloat.add;
  amt_mul := PrimFloat.mul;
  amt_of_int := float_of_int;
  amt_ltb := PrimFloat.ltb
}.

#[export] Instance exact : Amount Q := {
  amt_zero := 0%Q;
  amt_add := Qplus;
  amt_mul := Qmult;
  amt_of_int := inject_Z;
  amt_ltb := fun x y => negb (Qle_bool y x)
}.



Definition exact_val (x : Q) : option Q := Some x.

(* ------------------------------------------------------------------ *)
(** ** Strings *)

Module Str.

(** [s.rstrip(chars)] for a one-character set. *)
Fixpoint rstrip (c : ascii) (s : string) : string :=
  match s with
  | EmptyString => EmptyString
  | String a s' =>
      match rstrip c s' with
      | EmptyString => if Ascii.eqb a c then EmptyString else String a EmptyString
      | r => String a r
      end
  end.

(** ASCII whitespace, as [str.strip()] sees it on ASCII text. *)
Definition is_space (a : ascii) : bool :=
  let n := nat_of_ascii a in
  ((9 <=? n) && (n <=? 13) || (28 <=? n) && (n <=? 32))%nat.

Fixpoint lstrip_space (s : string) : string :=
  match s with
  | EmptyString => EmptyString
  | String a s' => if is_space a then lstrip_space s' else s
  end.

Fixpoint rstrip_space (s : string) : string :=
  match s with
  | EmptyString => EmptyString
  | String a s' =>
      match rstrip_space s' with
      | EmptyString => if is_space a then EmptyString else String a EmptyString
      | r => String a r
      end
  end.

(** [s.strip()] *)
Definition strip (s : string) : string := rstrip_space (lstrip_space s).

(** [str(i)] / [f"{i}"] for a Python int. *)
Definition of_int (i : Z) : string := NilZero.string_of_int (Z.to_int i).

(** ASCII lower-casing, as SQL [lower()] does it. *)
Definition lower (a : ascii) : ascii :=
  let n := nat_of_ascii a in
  if ((65 <=? n) && (n <=? 90))%nat then ascii_of_nat (n + 32) else a.

(** SQL [LIKE] after both sides went through [lower()]: [%] matches any
    run of characters, [_] any single one. *)
Fixpoint like (p s : string) {struct p} : bool :=
  match p with
  | EmptyString => match s with EmptyString => true | _ => false end
  | String c p' =>
      if Ascii.eqb c "%" then
        (fix any (s : string) : bool :=
           like p' s || match s with
                        | EmptyString => false
                        | String _ s' => any s'
                        end) s
      else
        match s with
        | EmptyString => false
        | String d s' =>
            (Ascii.eqb c "_" || Ascii.eqb (lower c) (lower d)) && like p' s'
        end
  end.

(** [column.ilike(f"%{kw}%")] *)
Definition ilike_contains (column kw : string) : bool :=
  like ("%" ++ kw ++ "%") column.

End Str.

(* ------------------------------------------------------------------ *)
(** ** Wall-clock timestamps in the configured timezone

    [created_at] is filled from [datetime.now(TZ)] and the filter bounds
    are [datetime(y, m, d, ..., tzinfo=TZ)]: every timestamp the listing
    compares is a wall-clock reading of the same zone, and both Python and
    the store order them field by field. *)

Record date : Type := mk_date { d_year : Z; d_month : Z; d_day : Z }.

Record datetime : Type := mk_datetime {
  year : Z; month : Z; day : Z;
  hour : Z; minute : Z; second : Z; microsecond : Z
}.

Module DT.

Definition key (t : datetime) : list Z :=
  [year t; month t; day t; hour t; minute t; second t; microsecond t].

Fixpoint lex_leb (a b : list Z) : bool :=
  match a, b with
  | [], _ => true
  | _ :: _, [] => false
  | x :: a', y :: b' => (x <? y) || ((x =? y) && lex_leb a' b')
  end.

(** [t <= u] *)
Definition leb (t u : datetime) : bool := lex_leb (key t) (key u).

(** [datetime(d.year, d.month, d.day, 0, 0, tzinfo=TZ)] *)
Definition day_start (d : date) : datetime :=
  mk_datetime (d_year d) (d_month d) (d_day d) 0 0 0 0.

(** [datetime(d.year, d.month, d.day, 23, 59, 59, tzinfo=TZ)] *)
Definition day_end (d : date) : datetime :=
  mk_datetime (d_year d) (d_month d) (d_day d) 23 59 59 0.

End DT.

(* ------------------------------------------------------------------ *)
(** ** The three mapped classes *)

(** [Order.status]: NEW, CONFIRMED, PREPARING, SERVED, CANCELLED *)
Inductive Status : Type := NEW | CONFIRMED | PREPARING | SERVED | CANCELLED.

Definition statuses : list Status := [NEW; CONFIRMED; PREPARING; SERVED; CANCELLED].

Definition status_eqb (a b : Status) : bool :=
  match a, b with
  | NEW, NEW | CONFIRMED, CONFIRMED | PREPARING, PREPARING
  | SERVED, SERVED | CANCELLED, CANCELLED => true
  | _, _ => false
  end.

Module MenuItem.
Record t {F : Type} : Type := mk {
  id : Z;
  name : string;
  price : F;
  category : string;
  description : string;
  image_url : string;
  is_available : bool
}.
Arguments t : clear implicits.
End MenuItem.

Module Order.
Record t {F : Type} : Type := mk {
  id : Z;
  customer_name : string;
  table_no : string;
  contact : string;
  note : string;
  status : Status;
  total_price : F;
  channel : string;
  source_ip : string;
  created_at : datetime;
  updated_at : datetime
}.
Arguments t : clear implicits.
End Order.

Module OrderItem.
Record t {F : Type} : Type := mk {
  id : Z;
  order_id : Z;
  (** nullable foreign key to [menu_items.id] *)
  item_id : option Z;
  item_name : string;
  unit_price : F;
  quantity : Z
}.
Arguments t : clear implicits.
End OrderItem.

(** The rows of the three tables. *)
Record Store {F : Type} : Type := mk_store {
  menu_items : list (MenuItem.t F);
  orders : list (Order.t F);
  order_items : list (OrderItem.t F)
}.
Arguments Store : clear implicits.

(** The next integer primary key: one past the largest in use. *)
Definition next_id (ids : list Z) : Z := 1 + fold_right Z.max 0 ids.

(* ------------------------------------------------------------------ *)
(** ** [st.session_state] *)

(** [st.session_state.cart]: [{menu_id: qty}], in insertion order. *)
Definition Cart : Type := list (Z * Z).

Module CartOps.

(** [cart.get(mid, 0)] *)
Fixpoint get (c : Cart) (mid : Z) : Z :=
  match c with
  | [] => 0
  | (k, q) :: c' => if k =? mid then q else get c' mid
  end.

(** [cart[mid] = qty]: an existing key keeps its place, a new one goes
    last. *)
Fixpoint set (c : Cart) (mid qty : Z) : Cart :=
  match c with
  | [] => [(mid, qty)]
  | (k, q) :: c' => if k =? mid then (k, qty) :: c' else (k, q) :: set c' mid qty
  end.

End CartOps.

Record SessionState : Type := mk_session {
  (** absent until [ensure_cart] ran *)
  cart : option Cart;
  (** [session_state["_admin_ok"]], absent until the login button was
      pressed once *)
  _admin_ok : option bool
}.

(* ------------------------------------------------------------------ *)
(** ** Exceptions *)

(** What can leave a handler other than by returning. *)
Inductive exn : Type :=
  (** the storage layer raised (connection lost, constraint, disk) *)
| StorageError
  (** [st.rerun()]: stop this run, start the script again *)
| RerunException.

(* ------------------------------------------------------------------ *)
(** ** What a run shows to the user *)

Inductive Output {F : Type} : Type :=
  (** [st.warning("数量需要大于 0")] *)
| warn_quantity
  (** [st.success(f"已加入：{m.name} × {qty}")] *)
| added_to_cart (item_name : string) (qty : Z)
  (** the cart table, one row per entry that resolves *)
| cart_table (rows : list (string * F * Z))
  (** [st.markdown(f"**合计：{format_currency(cart_total(db))}**")] *)
| cart_total_shown (total : F)
  (** [st.info("购物车为空，先选择菜品加入吧！")] *)
| info_cart_empty
  (** [st.warning("购物车为空！")] *)
| warn_cart_empty
  (** [st.success(f"下单成功！订单号 #{order.id}，金额 ...")] and the balloons *)
| order_placed (order_no : Z) (total : F)
  (** the admin listing's summary table *)
| orders_table (rows : list (Order.t F))
  (** [st.info("没有订单。")] *)
| info_no_orders
  (** the detail panel of the selected order *)
| order_detail (o : Order.t F) (lines : list (OrderItem.t F))
  (** [st.success("已更新订单状态")] *)
| status_saved
  (** [st.warning("订单已删除")] *)
| order_deleted
  (** the menu table of the menu page *)
| menu_table (rows : list (MenuItem.t F))
  (** [st.warning("名称必填")] *)
| warn_name_required
  (** [st.success("已添加")], [st.success("已更新")], [st.warning("已删除")] *)
| item_added
| item_updated
| item_deleted
  (** [st.info("暂无菜品，请先新增。")] *)
| info_no_items
  (** [st.error("CSV 至少包含 name, price, category 列")] *)
| import_bad_columns
  (** [st.success(f"已导入 {n} 条")] *)
| import_done (n : Z)
  (** [st.error(f"导入失败：{e}")] *)
| import_failed
  (** [st.error("未安装 qrcode 库 ...")] *)
| qrcode_missing
  (** the traceback Streamlit renders for an exception nobody caught *)
| exception_shown (e : exn)
  (** one QR image with its caption, and the archive of a batch *)
| qr_image (url : string) (file_name : string)
| qr_archive (entries : list (string * string))
  (** [st.warning("请输入正确的管理员密码以进入后台 ...")] *)
| warn_need_password.
Arguments Output : clear implicits.

(* ------------------------------------------------------------------ *)
(** ** The world a handler runs in *)

Record World {F : Type} : Type := mk_world {
  (** [st.session_state] *)
  session : SessionState;
  (** what the store holds durably *)
  committed : Store F;
  (** the rows as the open session sees them: committed rows plus its own
      uncommitted writes *)
  pending : Store F;
  (** [Some n]: the round trip after [n] more succeeds no longer *)
  faults : option nat;
  (** readings [datetime.now(TZ)] returns, and how many were taken *)
  clock : nat -> datetime;
  reads : nat;
  (** what was shown, oldest first *)
  ui : list (Output F)
}.
Arguments World : clear implicits.

Inductive Result {F : Type} (A : Type) : Type :=
| Ok (a : A) (w : World F)
| Raised (e : exn) (w : World F).
Arguments Ok {F A} a w.
Arguments Raised {F A} e w.

Definition M (F A : Type) : Type := World F -> Result (F := F) A.

Definition ret {F A : Type} (a : A) : M F A := fun w => Ok a w.

Definition bind {F A B : Type} (m : M F A) (k : A -> M F B) : M F B :=
  fun w =>
    match m w with
    | Ok a w' => k a w'
    | Raised e w' => Raised e w'
    end.

Definition raise {F A : Type} (e : exn) : M F A := fun w => Raised e w.

Declare Scope handler_scope.
Delimit Scope handler_scope with handler.
Notation "x <- m ;; k" := (bind m (fun x => k))
  (at level 100, m at next level, right associativity) : handler_scope.
Notation "m ;; k" := (bind m (fun _ => k))
  (at level 100, right associativity) : handler_scope.
Local Open Scope handler_scope.

(** [for x in xs: acc = body(acc, x)] *)
Fixpoint for_each {F A X : Type} (xs : list X) (body : A -> X -> M F A) (acc : A) : M F A :=
  match xs with
  | [] => ret acc
  | x :: xs' => acc' <- body acc x ;; for_each xs' body acc'
  end.

(** The world after a result, however the handler ended. *)
Definition world_of {F A : Type} (r : Result (F := F) A) : World F :=
  match r with Ok _ w => w | Raised _ w => w end.

(* ------------------------------------------------------------------ *)
(** ** Session state, clock, output and the storage session *)

Section Primitives.
Context {F : Type}.

Definition set_session (w : World F) (s : SessionState) : World F :=
  mk_world F s (committed w) (pending w) (faults w) (clock w) (reads w) (ui w).

Definition set_committed (w : World F) (s : Store F) : World F :=
  mk_world F (session w) s (pending w) (faults w) (clock w) (reads w) (ui w).

Definition set_pending (w : World F) (s : Store F) : World F :=
  mk_world F (session w) (committed w) s (faults w) (clock w) (reads w) (ui w).

Definition set_faults (w : World F) (f : option nat) : World F :=
  mk_world F (session w) (committed w) (pending w) f (clock w) (reads w) (ui w).

Definition set_reads (w : World F) (n : nat) : World F :=
  mk_world F (session w) (committed w) (pending w) (faults w) (clock w) n (ui w).

Definition set_ui (w : World F) (o : list (Output F)) : World F :=
  mk_world F (session w) (committed w) (pending w) (faults w) (clock w) (reads w) o.

(** [st.warning], [st.success], [st.info], [st.dataframe], ... *)
Definition show (o : Output F) : M F unit :=
  fun w => Ok tt (set_ui w (ui w ++ [o])).

(** [st.rerun()] *)
Definition st_rerun {A : Type} : M F A := raise RerunException.

(** [datetime.now(TZ)] *)
Definition now : M F datetime :=
  fun w => Ok (clock w (reads w)) (set_reads w (S (reads w))).

(** [ensure_cart()] *)
Definition ensure_cart : M F unit :=
  fun w =>
    match cart (session w) with
    | Some _ => Ok tt w
    | None => Ok tt (set_session w (mk_session (Some []) (_admin_ok (session w))))
    end.

(** The cart's entries in iteration order; none while the key is absent. *)
Definition cart_entries (w : World F) : Cart :=
  match cart (session w) with Some c => c | None => [] end.

(** [st.session_state.cart], once [ensure_cart] ran *)
Definition get_cart : M F Cart :=
  fun w => Ok (cart_entries w) w.

(** [st.session_state.cart[mid] = qty] *)
Definition cart_assign (mid qty : Z) : M F unit :=
  fun w =>
    Ok tt (set_session w (mk_session (Some (CartOps.set (cart_entries w) mid qty))
                            (_admin_ok (session w)))).

(** [reset_cart()] *)
Definition reset_cart : M F unit :=
  fun w => Ok tt (set_session w (mk_session (Some []) (_admin_ok (session w)))).

(** One statement sent to the store: it raises when the countdown is up. *)
Definition round_trip : M F unit :=
  fun w =>
    match faults w with
    | None => Ok tt w
    | Some O => Raised StorageError w
    | Some (S n) => Ok tt (set_faults w (Some n))
    end.

(** [db = get_db()]: a new session; its first statement opens a
    transaction on the committed rows. *)
Definition get_db : M F unit :=
  fun w => Ok tt (set_pending w (committed w)).

(** [db.close()]: whatever was not committed is rolled back. *)
Definition db_close : M F unit :=
  fun w => Ok tt (set_pending w (committed w)).

(** [db.commit()]: the transaction's rows become the durable ones, or the
    statement raises and nothing does. *)
Definition db_commit : M F unit :=
  round_trip ;;
  fun w => Ok tt (set_committed w (pending w)).

(** Rows of the open transaction. *)
Definition rows : M F (Store F) := fun w => Ok (pending w) w.

Definition write (s : Store F) : M F unit := fun w => Ok tt (set_pending w s).

Fixpoint find_menu_item (l : list (MenuItem.t F)) (mid : Z) : option (MenuItem.t F) :=
  match l with
  | [] => None
  | m :: l' => if MenuItem.id m =? mid then Some m else find_menu_item l' mid
  end.

(** [db.query(MenuItem).get(mid)] *)
Definition query_menu_item (mid : Z) : M F (option (MenuItem.t F)) :=
  round_trip ;;
  s <- rows ;;
  ret (find_menu_item (menu_items s) mid).

(** [db.query(MenuItem).all()] and its filtered forms *)
Definition query_menu_items : M F (list (MenuItem.t F)) :=
  round_trip ;;
  s <- rows ;;
  ret (menu_items s).

(** [db.query(Order).all()] before filters and ordering *)
Definition query_orders : M F (list (Order.t F)) :=
  round_trip ;;
  s <- rows ;;
  ret (orders s).

(** [order.items]: the lines whose [order_id] is the order's *)
Definition query_order_items (oid : Z) : M F (list (OrderItem.t F)) :=
  round_trip ;;
  s <- rows ;;
  ret (filter (fun it => OrderItem.order_id it =? oid) (order_items s)).

(** [db.add(order); db.flush()]: the row is inserted in the transaction
    and its generated key read back. *)
Definition add_order_flush (mk_row : Z -> Order.t F) : M F (Order.t F) :=
  round_trip ;;
  s <- rows ;;
  let o := mk_row (next_id (map Order.id (orders s))) in
  write (mk_store F (menu_items s) (orders s ++ [o]) (order_items s)) ;;
  ret o.

(** [db.add(OrderItem(...))] *)
Definition add_order_item (mk_row : Z -> OrderItem.t F) : M F unit :=
  s <- rows ;;
  let it := mk_row (next_id (map OrderItem.id (order_items s))) in
  write (mk_store F (menu_items s) (orders s) (order_items s ++ [it])).

(** [db.add(MenuItem(...))] *)
Definition add_menu_item (mk_row : Z -> MenuItem.t F) : M F unit :=
  s <- rows ;;
  let m := mk_row (next_id (map MenuItem.id (menu_items s))) in
  write (mk_store F (menu_items s ++ [m]) (orders s) (order_items s)).

(** Attribute assignments on a loaded [Order], written at the next flush. *)
Definition update_order (oid : Z) (f : Order.t F -> Order.t F) : M F unit :=
  s <- rows ;;
  write (mk_store F (menu_items s)
           (map (fun o => if Order.id o =? oid then f o else o) (orders s))
           (order_items s)).

(** Attribute assignments on a loaded [MenuItem]. *)
Definition update_menu_item (mid : Z) (f : MenuItem.t F -> MenuItem.t F) : M F unit :=
  s <- rows ;;
  write (mk_store F
           (map (fun m => if MenuItem.id m =? mid then f m else m) (menu_items s))
           (orders s) (order_items s)).

(** [db.delete(order)]: [items] is mapped with [cascade="all,
    delete-orphan"], so the order's lines go with it. *)
Definition delete_order (oid : Z) : M F unit :=
  s <- rows ;;
  write (mk_store F (menu_items s)
           (filter (fun o => negb (Order.id o =? oid)) (orders s))
           (filter (fun it => negb (OrderItem.order_id it =? oid)) (order_items s))).

(** What the unit of work does to a line when the menu item it points to
    is deleted: [MenuItem.order_items] has no delete cascade, so the
    line stays and its nullable [item_id] is set to NULL. *)
Definition detach (mid : Z) (it : OrderItem.t F) : OrderItem.t F :=
  match OrderItem.item_id it with
  | Some k =>
      if k =? mid then
        OrderItem.mk F (OrderItem.id it) (OrderItem.order_id it) None
          (OrderItem.item_name it) (OrderItem.unit_price it) (OrderItem.quantity it)
      else it
  | None => it
  end.

(** [db.delete(menu_item)] *)
Definition delete_menu_item (mid : Z) : M F unit :=
  s <- rows ;;
  write (mk_store F
           (filter (fun m => negb (MenuItem.id m =? mid)) (menu_items s))
           (orders s)
           (map (detach mid) (order_items s))).

End Primitives.

(* ------------------------------------------------------------------ *)
(** ** [page_order]: the customer's page *)

(** The widgets' values in one run of the page. *)
Record OrderPageInput : Type := mk_order_input {
  (** the category control; [None] when nothing is selected *)
  selected_cat : option string;
  search_kw : string;
  (** what each item's number input holds *)
  qty_input : Z -> Z;
  (** the item whose add button was pressed, if one was *)
  add_clicked : option Z;
  (** the clear-cart button *)
  clear_clicked : bool;
  customer_name_input : string;
  table_no_input : string;
  contact_input : string;
  note_input : string;
  (** the form's submit button *)
  submitted : bool;
  (** the [X-Forwarded-For] header, empty when absent *)
  forwarded_for : string
}.

(** [st.number_input(min_value=lo, max_value=hi, ...)] never returns a
    value outside its bounds. *)
Definition number_input (lo hi v : Z) : Z := Z.max lo (Z.min hi v).

Section PageOrder.
Context {F : Type} {A : Amount F}.

(** The body of the loop of [cart_total]. *)
Definition cart_total_step (total : F) (entry : Z * Z) : M F F :=
  let '(mid, qty) := entry in
  item <- query_menu_item mid ;;
  match item with
  | Some it =>
      if MenuItem.is_available it
      then ret (amt_add total (amt_times (MenuItem.price it) qty))
      else ret total
  | None => ret total
  end.

(** [cart_total(db)] *)
Definition cart_total : M F F :=
  c <- get_cart ;;
  for_each c cart_total_step amt_zero.

(** The query behind the item cards: available items, narrowed by the
    category control and the search box.  Its [order_by(category, name)]
    decides where a card is drawn; at most one card's button is pressed in
    a run, so the sequence of the cards makes no difference to the state
    and the rows are taken as stored. *)
Definition shown_items (inp : OrderPageInput) (l : list (MenuItem.t F)) : list (MenuItem.t F) :=
  filter
    (fun m =>
       MenuItem.is_available m
       && match selected_cat inp with
          | Some c =>
              (c =? EmptyString)%string || (c =? "全部")%string
              || (MenuItem.category m =? c)%string
          | None => true
          end
       && match search_kw inp with
          | EmptyString => true
          | kw =>
              Str.ilike_contains (MenuItem.name m) kw
              || Str.ilike_contains (MenuItem.description m) kw
              || Str.ilike_contains (MenuItem.category m) kw
          end)
    l.

(** One item card: its number input and its add button.  The grid and
    the list layout run the same statements. *)
Definition item_card (inp : OrderPageInput) (m : MenuItem.t F) : M F unit :=
  let qty := number_input 0 50 (qty_input inp (MenuItem.id m)) in
  match add_clicked inp with
  | Some k =>
      if k =? MenuItem.id m then
        if qty <=? 0 then show warn_quantity
        else
          cart_assign (MenuItem.id m) qty ;;
          show (added_to_cart (MenuItem.name m) qty)
      else ret tt
  | None => ret tt
  end.

(** The body of the loop that fills [cart_rows]. *)
Definition cart_row_step (acc : list (string * F * Z)) (entry : Z * Z)
  : M F (list (string * F * Z)) :=
  let '(mid, qty) := entry in
  item <- query_menu_item mid ;;
  match item with
  | None => ret acc
  | Some it => ret (acc ++ [(MenuItem.name it, MenuItem.price it, qty)])
  end.

(** The cart section: a row per entry that still resolves, the total and
    the clear button. *)
Definition cart_section (inp : OrderPageInput) : M F unit :=
  c <- get_cart ;;
  cart_rows <- for_each c cart_row_step [] ;;
  match cart_rows with
  | _ :: _ =>
      show (cart_table cart_rows) ;;
      total <- cart_total ;;
      show (cart_total_shown total) ;;
      if clear_clicked inp then reset_cart ;; st_rerun else ret tt
  | [] => show info_cart_empty
  end.

(** The body of the loop over the cart in the submission: a missing
    item is skipped, a found one adds to the total and becomes a line. *)
Definition line_step (order : Order.t F) (total : F) (entry : Z * Z) : M F F :=
  let '(mid, qty) := entry in
  item <- query_menu_item mid ;;
  match item with
  | None => ret total
  | Some it =>
      let total' := amt_add total (amt_times (MenuItem.price it) qty) in
      add_order_item
        (fun lid =>
           OrderItem.mk F lid (Order.id order) (Some (MenuItem.id it))
             (MenuItem.name it) (MenuItem.price it) qty) ;;
      ret total'
  end.

(** [order.total_price = total; order.updated_at = t] *)
Definition with_total (total : F) (t : datetime) (o : Order.t F) : Order.t F :=
  Order.mk F (Order.id o) (Order.customer_name o) (Order.table_no o)
    (Order.contact o) (Order.note o) (Order.status o) total
    (Order.channel o) (Order.source_ip o) (Order.created_at o) t.

(** The [Order(...)] the submission constructs, before its key is known. *)
Definition new_order (inp : OrderPageInput) (t_created t_updated : datetime) (oid : Z)
  : Order.t F :=
  Order.mk F oid
    (Str.strip (customer_name_input inp))
    (Str.strip (table_no_input inp))
    (Str.strip (contact_input inp))
    (Str.strip (note_input inp))
    NEW amt_zero "onsite" (forwarded_for inp) t_created t_updated.

(** The body of [if submitted:]. *)
Definition place_order (inp : OrderPageInput) : M F unit :=
  c <- get_cart ;;
  match c with
  | [] => show warn_cart_empty
  | _ :: _ =>
      t_created <- now ;;
      t_updated <- now ;;
      order <- add_order_flush (new_order inp t_created t_updated) ;;
      total <- for_each c (line_step order) amt_zero ;;
      t_final <- now ;;
      update_order (Order.id order) (with_total total t_final) ;;
      db_commit ;;
      reset_cart ;;
      show (order_placed (Order.id order) total)
  end.

(** The page down to the cart section: everything above the form. *)
Definition order_page_top (inp : OrderPageInput) : M F unit :=
  get_db ;;
  ensure_cart ;;
  (* the category list *)
  round_trip ;;
  all_items <- query_menu_items ;;
  for_each (shown_items inp all_items) (fun _ m => item_card inp m) tt ;;
  cart_section inp.

Definition page_order (inp : OrderPageInput) : M F unit :=
  order_page_top inp ;;
  (if submitted inp then place_order inp else ret tt) ;;
  db_close.

End PageOrder.

(* ------------------------------------------------------------------ *)
(** ** [page_orders_admin]: the order listing and its detail panel *)

Record OrdersAdminInput : Type := mk_orders_input {
  (** the status multiselect *)
  status_sel : list Status;
  d_from : date;
  d_to : date;
  keyword : string;
  (** the order select box; [None] before the user touched it *)
  selected_order : option Z;
  (** the status select box of the detail panel *)
  new_status : Status;
  save_clicked : bool;
  delete_clicked : bool
}.

Section PageOrdersAdmin.
Context {F : Type}.

(** The [filter(...)] calls of the listing query, as one row predicate. *)
Definition listed (inp : OrdersAdminInput) (o : Order.t F) : bool :=
  DT.leb (DT.day_start (d_from inp)) (Order.created_at o)
  && DT.leb (Order.created_at o) (DT.day_end (d_to inp))
  && match status_sel inp with
     | [] => true
     | sel => existsb (status_eqb (Order.status o)) sel
     end
  && match keyword inp with
     | EmptyString => true
     | kw =>
         Str.ilike_contains (Order.customer_name o) kw
         || Str.ilike_contains (Order.table_no o) kw
         || Str.ilike_contains (Order.contact o) kw
     end.

Fixpoint insert_desc (o : Order.t F) (l : list (Order.t F)) : list (Order.t F) :=
  match l with
  | [] => [o]
  | x :: l' =>
      if DT.leb (Order.created_at x) (Order.created_at o) then o :: l
      else x :: insert_desc o l'
  end.

(** [order_by(Order.created_at.desc())] *)
Definition order_by_created_desc (l : list (Order.t F)) : list (Order.t F) :=
  fold_right insert_desc [] l.

(** [q.all()] for the listing query over the rows [l]. *)
Definition listing (inp : OrdersAdminInput) (l : list (Order.t F)) : list (Order.t F) :=
  order_by_created_desc (filter (listed inp) l).

(** [st.selectbox] over the listed ids: the chosen option, or the first
    one while the choice is not among the options. *)
Definition selectbox (options : list Z) (choice : option Z) (first : Z) : Z :=
  match choice with
  | Some k => if existsb (Z.eqb k) options then k else first
  | None => first
  end.

(** The filter widgets and the listing query: what [orders] holds. *)
Definition query_listing (inp : OrdersAdminInput) : M F (list (Order.t F)) :=
  get_db ;;
  (* the two date inputs default to today *)
  now ;; now ;;
  all_orders <- query_orders ;;
  ret (listing inp all_orders).

Definition page_orders_admin (inp : OrdersAdminInput) : M F unit :=
  found <- query_listing inp ;;
  match found with
  | [] => show info_no_orders
  | first :: _ =>
      show (orders_table found) ;;
      let oid := selectbox (map Order.id found) (selected_order inp) (Order.id first) in
      match find (fun o => Order.id o =? oid) found with
      | None => ret tt
      | Some order =>
          lines <- query_order_items (Order.id order) ;;
          show (order_detail order lines) ;;
          (if save_clicked inp then
             t <- now ;;
             update_order (Order.id order)
               (fun o =>
                  Order.mk F (Order.id o) (Order.customer_name o) (Order.table_no o)
                    (Order.contact o) (Order.note o) (new_status inp)
                    (Order.total_price o) (Order.channel o) (Order.source_ip o)
                    (Order.created_at o) t) ;;
             db_commit ;;
             show status_saved ;;
             st_rerun
           else ret tt) ;;
          (if delete_clicked inp then
             delete_order (Order.id order) ;;
             db_commit ;;
             show order_deleted ;;
             st_rerun
           else ret tt)
      end
  end ;;
  db_close.

End PageOrdersAdmin.

(* ------------------------------------------------------------------ *)
(** ** [page_menu_admin]: the catalog page *)

(** The fields of the add form and of the edit form. *)
Record MenuForm {F : Type} : Type := mk_menu_form {
  name_input : string;
  category_input : string;
  price_input : F;
  description_input : string;
  image_url_input : string;
  avail_input : bool
}.
Arguments MenuForm : clear implicits.

(** One row of an uploaded table after [pd.read_csv] and the coercions
    of the import loop ([str], [float], [bool]); parsing the file is the
    data-frame library's business. *)
Record CsvRow {F : Type} : Type := mk_csv_row {
  r_name : string;
  r_price : F;
  r_category : string;
  r_description : string;
  r_image_url : string;
  r_is_available : bool
}.
Arguments CsvRow : clear implicits.

Record MenuAdminInput {F : Type} : Type := mk_menu_input {
  add_form : MenuForm F;
  add_ok : bool;
  (** the item select box; [None] before the user touched it *)
  selected_item : option Z;
  edit_form : MenuForm F;
  save_ok : bool;
  del_ok : bool;
  (** the uploaded file: its column names and its rows *)
  upload : option (list string * list (CsvRow F))
}.
Arguments MenuAdminInput : clear implicits.

Section PageMenuAdmin.
Context {F : Type} {A : Amount F}.

(** [st.number_input(min_value=0.0, ...)] *)
Definition price_input_min0 (v : F) : F :=
  if amt_ltb v amt_zero then amt_zero else v.

Fixpoint lower_string (s : string) : string :=
  match s with
  | EmptyString => EmptyString
  | String a s' => String (Str.lower a) (lower_string s')
  end.

(** [required.issubset(set(map(str.lower, dfu.columns)))] *)
Definition has_required_columns (columns : list string) : bool :=
  forallb
    (fun r => existsb (fun c => (lower_string c =? r)%string) columns)
    ["name"; "price"; "category"].

(** [try: ... except Exception]: a storage error is caught, the rerun
    request is not an [Exception] and passes through. *)
Definition try_except (body handler : M F unit) : M F unit :=
  fun w =>
    match body w with
    | Raised StorageError w' => handler w'
    | r => r
    end.

Definition page_menu_admin (inp : MenuAdminInput F) : M F unit :=
  get_db ;;
  current <- query_menu_items ;;
  show (menu_table current) ;;
  (if add_ok inp then
     let f := add_form inp in
     match name_input f with
     | EmptyString => show warn_name_required
     | _ =>
         add_menu_item
           (fun mid =>
              MenuItem.mk F mid (name_input f)
                (price_input_min0 (price_input f))
                (match category_input f with EmptyString => "主食" | c => c end)
                (description_input f) (image_url_input f) (avail_input f)) ;;
         db_commit ;;
         show item_added ;;
         st_rerun
     end
   else ret tt) ;;
  all_items <- query_menu_items ;;
  match all_items with
  | [] => show info_no_items
  | first :: _ =>
      let mid := selectbox (map MenuItem.id all_items) (selected_item inp) (MenuItem.id first) in
      match find_menu_item all_items mid with
      | None => ret tt
      | Some selected =>
          let f := edit_form inp in
          (if save_ok inp then
             update_menu_item (MenuItem.id selected)
               (fun m =>
                  MenuItem.mk F (MenuItem.id m) (name_input f)
                    (price_input_min0 (price_input f)) (category_input f)
                    (description_input f)
                    (image_url_input f) (avail_input f)) ;;
             db_commit ;;
             show item_updated ;;
             st_rerun
           else ret tt) ;;
          (if del_ok inp then
             delete_menu_item (MenuItem.id selected) ;;
             db_commit ;;
             show item_deleted ;;
             st_rerun
           else ret tt)
      end
  end ;;
  match upload inp with
  | None => ret tt
  | Some (columns, csv_rows) =>
      try_except
        (if has_required_columns columns then
           n <-
             for_each csv_rows
               (fun n r =>
                  add_menu_item
                    (fun mid =>
                       MenuItem.mk F mid (Str.strip (r_name r)) (r_price r)
                         (r_category r) (r_description r) (r_image_url r)
                         (r_is_available r)) ;;
                  ret (n + 1))
               0 ;;
           db_commit ;;
           show (import_done n) ;;
           st_rerun
         else show import_bad_columns)
        (show import_failed)
  end ;;
  db_close.

End PageMenuAdmin.

(* ------------------------------------------------------------------ *)
(** ** [page_qr]: table links *)

Record QrInput : Type := mk_qr_input {
  (** whether [import qrcode] succeeded *)
  qrcode_installed : bool;
  base_url : string;
  param_key : string;
  mobile_mode : bool;
  single_table : string;
  single_clicked : bool;
  prefix : string;
  start_no : Z;
  count : Z;
  batch_clicked : bool
}.

(** [base_url.rstrip("/") + f"/?{param_key}={table}" + ("&mode=list" if
    mobile_mode else ...)] with the empty string for the other branch. *)
Definition make_url (base param table : string) (mobile : bool) : string :=
  (Str.rstrip "/" base ++ "/?" ++ param ++ "=" ++ table
   ++ (if mobile then "&mode=list" else EmptyString))%string.

(** [range(a, b)] *)
Definition range (a b : Z) : list Z :=
  map (fun k => a + Z.of_nat k) (seq 0 (Z.to_nat (b - a))).

(** [f"{prefix}{i}"] *)
Definition table_id (pre : string) (i : Z) : string := (pre ++ Str.of_int i)%string.

(** The URLs of the batch loop, in loop order. *)
Definition batch_urls (base param pre : string) (mobile : bool) (start cnt : Z) : list string :=
  map (fun i => make_url base param (table_id pre i) mobile) (range start (start + cnt)).

Section PageQr.
Context {F : Type}.

Definition page_qr (inp : QrInput) : M F unit :=
  if negb (qrcode_installed inp) then show qrcode_missing
  else
    (if single_clicked inp then
       let url := make_url (base_url inp) (param_key inp) (single_table inp) (mobile_mode inp) in
       show (qr_image url ("qr_" ++ single_table inp ++ ".png")%string)
     else ret tt) ;;
    (if batch_clicked inp then
       let start := Z.max 1 (start_no inp) in
       let cnt := Z.max 1 (count inp) in
       entries <-
         for_each (range start (start + cnt))
           (fun acc i =>
              let tid := table_id (prefix inp) i in
              let url := make_url (base_url inp) (param_key inp) tid (mobile_mode inp) in
              ret (acc ++ [(("qr_" ++ tid ++ ".png")%string, url)]))
           [] ;;
       show (qr_archive entries)
     else ret tt).

End PageQr.

(* ------------------------------------------------------------------ *)
(** ** [require_admin], [init_db] and [main] *)

Inductive Page : Type :=
| PageOrder          (* 客户点单 *)
| PageOrdersAdmin    (* 查看订单（后台） *)
| PageMenuAdmin      (* 菜单管理（后台） *)
| PageQr.            (* 桌贴二维码（后台） *)

(** Everything the user did in one run of the script. *)
Record Request {F : Type} : Type := mk_request {
  page : Page;
  (** the sidebar's password box and its button *)
  pw : string;
  login_clicked : bool;
  order_input : OrderPageInput;
  orders_input : OrdersAdminInput;
  menu_input : MenuAdminInput F;
  qr_input : QrInput
}.
Arguments Request : clear implicits.

Section Main.
Context {F : Type} {A : Amount F}.

(** The configured secret, [_env("ADMIN_PASSWORD", "changeme")]. *)
Variable ADMIN_PASSWORD : string.

(** [st.session_state["_admin_ok"] = v] *)
Definition set_admin_ok (v : bool) : M F unit :=
  fun w => Ok tt (set_session w (mk_session (cart (session w)) (Some v))).

(** [st.session_state.get("_admin_ok", False)] *)
Definition get_admin_ok : M F bool :=
  fun w => Ok (match _admin_ok (session w) with Some b => b | None => false end) w.

Definition require_admin (pw : string) (ok : bool) : M F bool :=
  (if ok then set_admin_ok (pw =? ADMIN_PASSWORD)%string else ret tt) ;;
  get_admin_ok.

Definition DEFAULT_MENU : list (Z -> MenuItem.t F) :=
  [ fun i => MenuItem.mk F i "招牌牛肉饭" (amt_of_int 28) "主食" "精选牛肉+米饭" EmptyString true;
    fun i => MenuItem.mk F i "鸡腿套餐" (amt_of_int 26) "主食" "炸鸡腿+小菜" EmptyString true;
    fun i => MenuItem.mk F i "青柠苏打" (amt_of_int 10) "饮品" "清爽解腻" EmptyString true;
    fun i => MenuItem.mk F i "美式咖啡" (amt_of_int 12) "饮品" "热/冰" EmptyString true;
    fun i => MenuItem.mk F i "薯条" (amt_of_int 9) "小食" "黄金脆薯" EmptyString true ].

(** [try: ... finally: db.close()] *)
Definition try_finally {X : Type} (body : M F X) (final : M F unit) : M F X :=
  fun w =>
    match body w with
    | Ok x w' => match final w' with Ok _ w'' => Ok x w'' | Raised e w'' => Raised e w'' end
    | Raised e w' => match final w' with Ok _ w'' => Raised e w'' | Raised e' w'' => Raised e' w'' end
    end.

Definition init_db : M F unit :=
  get_db ;;
  try_finally
    (existing <- query_menu_items ;;
     match existing with
     | [] =>
         for_each DEFAULT_MENU (fun _ row => add_menu_item row) tt ;;
         db_commit
     | _ :: _ => ret tt
     end)
    db_close.

Definition main (req : Request F) : M F unit :=
  init_db ;;
  match page req with
  | PageOrder => page_order (order_input req)
  | p =>
      ok <- require_admin (pw req) (login_clicked req) ;;
      if negb ok then show warn_need_password
      else
        match p with
        | PageOrdersAdmin => page_orders_admin (orders_input req)
        | PageMenuAdmin => page_menu_admin (menu_input req)
        | _ => page_qr (qr_input req)
        end
  end.

(** One run of the script as Streamlit drives it: an exception that
    leaves [main] is rendered (a rerun request is not), and the storage
    session the handler left open is dropped with its uncommitted rows. *)
Definition run_script (req : Request F) (w : World F) : World F :=
  match main req w with
  | Ok _ w' => w'
  | Raised RerunException w' => set_pending w' (committed w')
  | Raised e w' =>
      set_pending (set_ui w' (ui w' ++ [exception_shown e])) (committed w')
  end.

(** The runs of one browser session, one request after the other. *)
Definition run_session (reqs : list (Request F)) (w : World F) : World F :=
  fold_left (fun w req => run_script req w) reqs w.

End Main.

(* ------------------------------------------------------------------ *)
(** ** Vocabulary for stating what a submission writes *)

Section Submission.
Context {F : Type} {A : Amount F}.

(** [unit_price * quantity] of a line. *)
Definition line_amount (l : OrderItem.t F) : F :=
  amt_times (OrderItem.unit_price l) (OrderItem.quantity l).

(** The sum of [unit_price * quantity] over lines, from [0.0], in the
    order of the lines. *)
Definition lines_total (lines : list (OrderItem.t F)) : F :=
  fold_left (fun t l => amt_add t (line_amount l)) lines amt_zero.

(** The lines a cart turns into against the catalog [menu], keyed after
    the lines [existing]. *)
Fixpoint created_lines (menu : list (MenuItem.t F)) (oid : Z) (c : Cart)
    (existing : list (OrderItem.t F)) : list (OrderItem.t F) :=
  match c with
  | [] => []
  | (mid, qty) :: c' =>
      match find_menu_item menu mid with
      | None => created_lines menu oid c' existing
      | Some it =>
          let l := OrderItem.mk F (next_id (map OrderItem.id existing)) oid
                     (Some (MenuItem.id it)) (MenuItem.name it) (MenuItem.price it) qty in
          l :: created_lines menu oid c' (existing ++ [l])
      end
  end.

(** The running total of the submission loop over a cart. *)
Fixpoint accumulated (menu : list (MenuItem.t F)) (c : Cart) (acc : F) : F :=
  match c with
  | [] => acc
  | (mid, qty) :: c' =>
      match find_menu_item menu mid with
      | None => accumulated menu c' acc
      | Some it => accumulated menu c' (amt_add acc (amt_times (MenuItem.price it) qty))
      end
  end.

(** The running total of [cart_total] over a cart. *)
Fixpoint displayed (menu : list (MenuItem.t F)) (c : Cart) (acc : F) : F :=
  match c with
  | [] => acc
  | (mid, qty) :: c' =>
      match find_menu_item menu mid with
      | Some it =>
          if MenuItem.is_available it
          then displayed menu c' (amt_add acc (amt_times (MenuItem.price it) qty))
          else displayed menu c' acc
      | None => displayed menu c' acc
      end
  end.

(** The rows a submission commits: the catalog as it was, the orders
    with the new header last, the lines with the created ones last. *)
Definition submitted_store (inp : OrderPageInput) (men : list (MenuItem.t F))
    (ords : list (Order.t F)) (its : list (OrderItem.t F)) (c : Cart)
    (t1 t2 t3 : datetime) : Store F :=
  let oid := next_id (map Order.id ords) in
  mk_store F men
    (ords ++ [with_total (accumulated men c amt_zero) t3 (new_order inp t1 t2 oid)])
    (its ++ created_lines men oid c its).

(** A cart entry resolves when its key is the id of a catalog row. *)
Definition resolves (menu : list (MenuItem.t F)) (entry : Z * Z) : bool :=
  match find_menu_item menu (fst entry) with Some _ => true | None => false end.

End Submission.

(** When the float sums are exact.  [val] reads an amount as the number
    it stands for ([float_val] in binary64, [exact_val] for rationals). *)
Section Exactness.
Context {F : Type} {A : Amount F}.
Variable val : F -> option Q.






End Exactness.

(** What the add buttons keep true of the cart: no key twice, every
    quantity within the number input's positive range. *)
Definition cart_ok (c : Cart) : Prop :=
  NoDup (map fst c) /\ Forall (fun e : Z * Z => 1 <= snd e <= 50) c.

(** The fault countdown after [k] successful round trips, and whether it
    lets [k] round trips through. *)
Definition spend (f : option nat) (k : nat) : option nat :=
  match f with None => None | Some n => Some (n - k)%nat end.

Definition enough (f : option nat) (k : nat) : Prop :=
  match f with None => True | Some n => (k <= n)%nat end.

(* ------------------------------------------------------------------ *)
(** ** Sample data: the scenario of the spec and a few variations *)

Section Samples.
Context {F : Type} {A : Amount F}.

Definition sample_clock (n : nat) : datetime :=
  mk_datetime 2024 5 1 12 0 (Z.of_nat n) 0.

(** EntryA at 10 and EntryB at 5, as in the spec's scenario, and a third
    entry that exists but is off the menu. *)
Definition sample_menu : list (MenuItem.t F) :=
  [ MenuItem.mk F 1 "EntryA" (amt_of_int 10) "Main" EmptyString EmptyString true;
    MenuItem.mk F 2 "EntryB" (amt_of_int 5) "Drink" EmptyString EmptyString true;
    MenuItem.mk F 3 "EntryC" (amt_of_int 7) "Drink" EmptyString EmptyString false ].

Definition sample_store : Store F := mk_store F sample_menu [] [].

Definition sample_world (c : Cart) (fl : option nat) : World F :=
  mk_world F (mk_session (Some c) None) sample_store sample_store fl sample_clock 0 [].

Definition sample_form : OrderPageInput :=
  mk_order_input None EmptyString (fun _ => 0) None false
    "Ann" " A1 " EmptyString EmptyString true EmptyString.

End Samples.





(* ------------------------------------------------------------------ *)
(** ** Vocabulary for the admin listing *)

Section ListingVocabulary.
Context {F : Type}.


(** The date part of the listing's row predicate. *)
Definition in_range (inp : OrdersAdminInput) (o : Order.t F) : bool :=
  DT.leb (DT.day_start (d_from inp)) (Order.created_at o)
  && DT.leb (Order.created_at o) (DT.day_end (d_to inp)).

(** The status part: a non-empty selection must contain the status. *)
Definition status_ok (inp : OrdersAdminInput) (o : Order.t F) : bool :=
  match status_sel inp with
  | [] => true
  | sel => existsb (status_eqb (Order.status o)) sel
  end.

(** The keyword part: a non-empty keyword must occur in one of the three
    columns. *)
Definition keyword_ok (inp : OrdersAdminInput) (o : Order.t F) : bool :=
  match keyword inp with
  | EmptyString => true
  | kw =>
      Str.ilike_contains (Order.customer_name o) kw
      || Str.ilike_contains (Order.table_no o) kw
      || Str.ilike_contains (Order.contact o) kw
  end.

End ListingVocabulary.

(* ------------------------------------------------------------------ *)
(** ** Vocabulary for catalog deletions *)

Section DeletionVocabulary.
Context {F : Type}.

(** A line after the deletion of the catalog row [mid], against the line
    before: same key, same order, same captured name, price and
    quantity; the reference to the catalog is the same or, where it
    pointed to [mid], cleared. *)
Definition same_line_but_ref (mid : Z) (before after : OrderItem.t F) : Prop :=
  OrderItem.id after = OrderItem.id before
  /\ OrderItem.order_id after = OrderItem.order_id before
  /\ OrderItem.item_name after = OrderItem.item_name before
  /\ OrderItem.unit_price after = OrderItem.unit_price before
  /\ OrderItem.quantity after = OrderItem.quantity before
  /\ (OrderItem.item_id after = OrderItem.item_id before
      \/ (OrderItem.item_id before = Some mid /\ OrderItem.item_id after = None)).

(** The item the select box of the menu page stands on. *)
Definition selected_id (inp : MenuAdminInput F) (menu : list (MenuItem.t F)) : Z :=
  match menu with
  | [] => 0
  | first :: _ => selectbox (map MenuItem.id menu) (selected_item inp) (MenuItem.id first)
  end.

End DeletionVocabulary.

(* ------------------------------------------------------------------ *)
(** ** More sample data: a day of orders, a catalog with history *)

Section MoreSamples.
Context {F : Type} {A : Amount F}.

Definition sample_order (oid : Z) (s : Status) (t : datetime) : Order.t F :=
  Order.mk F oid "Ann" "A1" EmptyString EmptyString s (amt_of_int 25) "onsite"
    EmptyString t t.

(** Orders around the first of May: the last microsecond of the day
    before, midnight, the last whole second, one microsecond later, and
    the next morning. *)
Definition sample_orders : list (Order.t F) :=
  [ sample_order 1 PREPARING (mk_datetime 2024 4 30 23 59 59 999999);
    sample_order 2 NEW (mk_datetime 2024 5 1 0 0 0 0);
    sample_order 3 SERVED (mk_datetime 2024 5 1 23 59 59 0);
    sample_order 4 CANCELLED (mk_datetime 2024 5 1 23 59 59 1);
    sample_order 5 CONFIRMED (mk_datetime 2024 5 2 9 30 0 0) ].

(** The first of May, nothing selected in the status control, no
    keyword. *)
Definition first_of_may : OrdersAdminInput :=
  mk_orders_input [] (mk_date 2024 5 1) (mk_date 2024 5 1) EmptyString None NEW false false.

(** The second of May, and the two days together. *)
Definition second_of_may : OrdersAdminInput :=
  mk_orders_input [] (mk_date 2024 5 2) (mk_date 2024 5 2) EmptyString None NEW false false.

Definition both_days : OrdersAdminInput :=
  mk_orders_input [] (mk_date 2024 5 1) (mk_date 2024 5 2) EmptyString None NEW false false.

(** An order placed in the last second of the first of May, as
    [datetime.now(TZ)] reads it, and a store that holds just this
    order. *)
Definition late_order : Order.t F :=
  sample_order 6 NEW (mk_datetime 2024 5 1 23 59 59 999999).

Definition late_world : World F :=
  let st := mk_store F sample_menu [late_order] [] in
  mk_world F (mk_session None (Some true)) st st None sample_clock 0 [].

(** A store with one order of two lines, the first on EntryA. *)
Definition sample_history : Store F :=
  mk_store F sample_menu
    [ sample_order 1 NEW (mk_datetime 2024 5 1 12 0 0 0) ]
    [ OrderItem.mk F 1 1 (Some 1) "EntryA" (amt_of_int 10) 2;
      OrderItem.mk F 2 1 (Some 2) "EntryB" (amt_of_int 5) 1 ].

Definition history_world : World F :=
  mk_world F (mk_session None (Some true)) sample_history sample_history None
    sample_clock 0 [].

Definition blank_form : MenuForm F :=
  mk_menu_form F EmptyString EmptyString amt_zero EmptyString EmptyString true.

(** The delete button of the menu page, the select box on EntryA. *)
Definition delete_entry_a : MenuAdminInput F :=
  mk_menu_input F blank_form false (Some 1) blank_form false true None.

Definition idle_qr : QrInput :=
  mk_qr_input true "https://x.test" "table" true "A1" false "A" 1 10 false.

(** A run on the given page in which no button is pressed. *)
Definition idle_request (p : Page) : Request F :=
  mk_request F p EmptyString false
    (mk_order_input None EmptyString (fun _ => 0) None false
       EmptyString EmptyString EmptyString EmptyString false EmptyString)
    first_of_may
    (mk_menu_input F blank_form false None blank_form false false None)
    idle_qr.

End MoreSamples.

(* ------------------------------------------------------------------ *)
(** ** Vocabulary for link generation and for the admin flag *)

(** The last character of a string, if it has one. *)
Fixpoint last_char (s : string) : option ascii :=
  match s with
  | EmptyString => None
  | String a EmptyString => Some a
  | String _ s' => last_char s'
  end.

(** [k] copies of [c]. *)
Fixpoint copies (c : ascii) (k : nat) : string :=
  match k with
  | O => EmptyString
  | S k' => String c (copies c k')
  end.

(** The URL as the specification words it: the base is used as it is. *)
Definition spec_url (base param table : string) (mobile : bool) : string :=
  (base ++ "/?" ++ param ++ "=" ++ table
   ++ (if mobile then "&mode=list" else EmptyString))%string.

(** What the batch button shows for the inputs [inp]. *)
Definition batch_archive (inp : QrInput) : list (string * string) :=
  map (fun i => (("qr_" ++ table_id (prefix inp) i ++ ".png")%string,
                 make_url (base_url inp) (param_key inp) (table_id (prefix inp) i)
                   (mobile_mode inp)))
      (range (Z.max 1 (start_no inp)) (Z.max 1 (start_no inp) + Z.max 1 (count inp))).

(** The session's admin flag is the same after [m] as before, however
    [m] ends. *)
Definition keeps_admin {F X : Type} (m : M F X) : Prop :=
  forall w, _admin_ok (session (world_of (m w))) = _admin_ok (session w).


(* ------------------------------------------------------------------ *)
(** ** Vocabulary for invariants of the store and of the session *)

Section Integrity.
Context {F : Type}.

(** A line's reference to the catalog is empty or the key of a row. *)
Definition ref_ok (menu : list (MenuItem.t F)) (l : OrderItem.t F) : Prop :=
  match OrderItem.item_id l with
  | Some k => In k (map MenuItem.id menu)
  | None => True
  end.

(** Referential integrity of the three tables: primary keys are unique,
    every line belongs to a stored order, and a line's reference to the
    catalog never dangles. *)
Definition store_ok (s : Store F) : Prop :=
  NoDup (map MenuItem.id (menu_items s))
  /\ NoDup (map Order.id (orders s))
  /\ NoDup (map OrderItem.id (order_items s))
  /\ Forall (fun l => In (OrderItem.order_id l) (map Order.id (orders s))) (order_items s)
  /\ Forall (ref_ok (menu_items s)) (order_items s).

(** Both the committed rows and the rows of the open transaction are
    integral. *)
Definition world_ok (w : World F) : Prop :=
  store_ok (committed w) /\ store_ok (pending w).

(** If [P] holds before [m], then [Q] holds of the value and the world
    when [m] returns, and [E] of the world when it raises. *)
Definition hoare {X : Type} (P : World F -> Prop) (m : M F X)
    (Q : X -> World F -> Prop) (E : World F -> Prop) : Prop :=
  forall w, P w ->
    match m w with
    | Ok x w' => Q x w'
    | Raised _ w' => E w'
    end.

(** [P] holds after [m] whenever it held before, however [m] ends. *)
Definition preserves {X : Type} (P : World F -> Prop) (m : M F X) : Prop :=
  hoare P m (fun _ => P) P.

(** [P] does not look at what was shown, at the clock or at the fault
    countdown. *)
Definition stable (P : World F -> Prop) : Prop :=
  (forall w o, P w -> P (set_ui w o))
  /\ (forall w n, P w -> P (set_reads w n))
  /\ (forall w f, P w -> P (set_faults w f)).

End Integrity.

(* ------------------------------------------------------------------ *)
(** ** A first visit: an empty store and three runs of the script *)

Section Visit.
Context {F : Type} {A : Amount F}.

(** A new deployment and a new browser session. *)
Definition fresh_world (fl : option nat) : World F :=
  mk_world F (mk_session None None) (mk_store F [] [] []) (mk_store F [] [] []) fl
    sample_clock 0 [].

(** The add button of the catalog row [mid] with [qty] typed in. *)
Definition add_request (mid qty : Z) : Request F :=
  mk_request F PageOrder EmptyString false
    (mk_order_input None EmptyString (fun _ => qty) (Some mid) false
       EmptyString EmptyString EmptyString EmptyString false EmptyString)
    first_of_may
    (mk_menu_input F blank_form false None blank_form false false None)
    idle_qr.

(** The submit button of the order form. *)
Definition submit_request : Request F :=
  mk_request F PageOrder EmptyString false sample_form first_of_may
    (mk_menu_input F blank_form false None blank_form false false None)
    idle_qr.

(** The login button with the default secret and, in the same run, the
    delete button of the menu page on the catalog row [mid]. *)
Definition delete_item_request (mid : Z) : Request F :=
  mk_request F PageMenuAdmin "changeme" true
    (mk_order_input None EmptyString (fun _ => 0) None false
       EmptyString EmptyString EmptyString EmptyString false EmptyString)
    first_of_may
    (mk_menu_input F blank_form false (Some mid) blank_form false true None)
    idle_qr.

End Visit.

(** The session's cart is well-formed. *)
Definition cart_inv {F : Type} (w : World F) : Prop := cart_ok (cart_entries w).

(* ------------------------------------------------------------------ *)
(** ** Vocabulary for the detail panel of the order listing *)

Section DetailVocabulary.
Context {F : Type}.

(** The order the select box of the listing page stands on. *)
Definition selected_order_id (inp : OrdersAdminInput) (found : list (Order.t F)) : Z :=
  match found with
  | [] => 0
  | first :: _ => selectbox (map Order.id found) (selected_order inp) (Order.id first)
  end.

(** An order after the save button, against the order before: only the
    status and the time of the last update may differ. *)
Definition same_order_but_status (before after : Order.t F) : Prop :=
  Order.id after = Order.id before
  /\ Order.customer_name after = Order.customer_name before
  /\ Order.table_no after = Order.table_no before
  /\ Order.contact after = Order.contact before
  /\ Order.note after = Order.note before
  /\ Order.total_price after = Order.total_price before
  /\ Order.channel after = Order.channel before
  /\ Order.source_ip after = Order.source_ip before
  /\ Order.created_at after = Order.created_at before.

(** The orders after the save button on the order [oid], row by row:
    the selected row carries the chosen status and the time of the save,
    every other row is as it was. *)
Definition status_saved_rel (oid : Z) (s : Status) (t : datetime)
    (before after : Order.t F) : Prop :=
  same_order_but_status before after
  /\ (if Order.id before =? oid
      then Order.status after = s /\ Order.updated_at after = t
      else after = before).

End DetailVocabulary.


(* ------------------------------------------------------------------ *)
(** ** Vocabulary for the catalog page *)

Section CatalogVocabulary.
Context {F : Type} {A : Amount F}.


(** The rows the import loop adds, keyed from [k] on. *)
Fixpoint import_rows (k : Z) (l : list (CsvRow F)) : list (MenuItem.t F) :=
  match l with
  | [] => []
  | r :: l' =>
      MenuItem.mk F k (Str.strip (r_name r)) (r_price r) (r_category r)
        (r_description r) (r_image_url r) (r_is_available r)
      :: import_rows (k + 1) l'
  end.

(** The catalog row holds the fields of the edit form. *)
Definition form_holds (f : MenuForm F) (m : MenuItem.t F) : Prop :=
  MenuItem.name m = name_input f
  /\ MenuItem.price m = price_input_min0 (price_input f)
  /\ MenuItem.category m = category_input f
  /\ MenuItem.description m = description_input f
  /\ MenuItem.image_url m = image_url_input f
  /\ MenuItem.is_available m = avail_input f.

(** The catalog after the save button on the row [mid], row by row: the
    selected row keeps its key and takes the form's fields, every other
    row is as it was. *)
Definition item_saved_rel (mid : Z) (f : MenuForm F) (before after : MenuItem.t F) : Prop :=
  MenuItem.id after = MenuItem.id before
  /\ (if MenuItem.id before =? mid then form_holds f after else after = before).

End CatalogVocabulary.

(* ------------------------------------------------------------------ *)
(** ** Vocabulary for what a submission captures *)

Section SnapshotVocabulary.
Context {F : Type}.

(** The cart entries that resolve, each with its catalog row, in cart
    order. *)
Fixpoint resolved (menu : list (MenuItem.t F)) (c : Cart) : list (MenuItem.t F * Z) :=
  match c with
  | [] => []
  | (mid, qty) :: c' =>
      match find_menu_item menu mid with
      | Some it => (it, qty) :: resolved menu c'
      | None => resolved menu c'
      end
  end.

(** What a line says about the dish: reference, name, unit price and
    quantity. *)
Definition line_fields (l : OrderItem.t F) : option Z * string * F * Z :=
  (OrderItem.item_id l, OrderItem.item_name l, OrderItem.unit_price l, OrderItem.quantity l).

(** The same of a catalog row taken with a quantity. *)
Definition snapshot (e : MenuItem.t F * Z) : option Z * string * F * Z :=
  (Some (MenuItem.id (fst e)), MenuItem.name (fst e), MenuItem.price (fst e), snd e).

(** A row of the cart table. *)
Definition cart_row (e : MenuItem.t F * Z) : string * F * Z :=
  (MenuItem.name (fst e), MenuItem.price (fst e), snd e).

End SnapshotVocabulary.

(* ------------------------------------------------------------------ *)
(** ** More sample inputs: one button each *)

Section ButtonSamples.
Context {F : Type} {A : Amount F}.

(** The detail panel on the first of May: the delete button, and the
    save button with SERVED chosen. *)
Definition delete_on_first_of_may : OrdersAdminInput :=
  mk_orders_input [] (mk_date 2024 5 1) (mk_date 2024 5 1) EmptyString None NEW false true.

Definition serve_on_first_of_may : OrdersAdminInput :=
  mk_orders_input [] (mk_date 2024 5 1) (mk_date 2024 5 1) EmptyString None SERVED true false.


Definition add_nameless : MenuAdminInput F :=
  mk_menu_input F blank_form true None blank_form false false None.

(** The edit form on EntryA with a new name and a new price. *)
Definition reprice_entry_a : MenuAdminInput F :=
  mk_menu_input F blank_form false (Some 1)
    (mk_menu_form F "EntryA new" "Main" (amt_of_int 12) EmptyString EmptyString true)
    true false None.

(** Two uploaded rows, the second with the name of a row that is
    already there. *)
Definition two_rows : list (CsvRow F) :=
  [ mk_csv_row F "Tea" (amt_of_int 4) "Drink" EmptyString EmptyString true;
    mk_csv_row F "EntryA" (amt_of_int 11) "Main" EmptyString EmptyString true ].

Definition upload_of (columns : list string) : MenuAdminInput F :=
  mk_menu_input F blank_form false None blank_form false false (Some (columns, two_rows)).

(** The clear button of the cart section. *)
Definition clear_form : OrderPageInput :=
  mk_order_input None EmptyString (fun _ => 0) None true
    EmptyString EmptyString EmptyString EmptyString false EmptyString.

End ButtonSamples.
(* ================================================================== *)
(** * Properties *)

(* ------------------------------------------------------------------ *)
(** ** Binary64: [<] is the order of the numbers *)

Module FloatFacts.










End FloatFacts.

(* ------------------------------------------------------------------ *)
(** ** Link generation *)

Module QrFacts.

Lemma last_char_cons a s :
  s <> EmptyString -> last_char (String a s) = last_char s.
Proof. destruct s; [congruence | reflexivity]. Qed.

Lemma rstrip_no_trailing c s : last_char (Str.rstrip c s) <> Some c.
Proof.
  induction s as [| a s IH]; simpl; [discriminate |].
  destruct (Str.rstrip c s) as [| b r] eqn:E.
  - destruct (Ascii.eqb a c) eqn:Eac; simpl; [discriminate |].
    apply Ascii.eqb_neq in Eac. congruence.
  - rewrite last_char_cons by discriminate. exact IH.
Qed.

Lemma rstrip_split c s :
  exists k, s = (Str.rstrip c s ++ copies c k)%string.
Proof.
  induction s as [| a s [k IH]]; simpl.
  - exists O. reflexivity.
  - destruct (Str.rstrip c s) as [| b r] eqn:E.
    + destruct (Ascii.eqb a c) eqn:Eac.
      * apply Ascii.eqb_eq in Eac. subst a. exists (S k). simpl in *. now rewrite <- IH.
      * exists k. simpl in *. now rewrite <- IH.
    + exists k. simpl in *. now rewrite <- IH.
Qed.

Lemma rstrip_fixed c s : last_char s <> Some c -> Str.rstrip c s = s.
Proof.
  induction s as [| a s IH]; simpl; intros H; [reflexivity |].
  destruct s as [| b s'].
  - simpl. destruct (Ascii.eqb a c) eqn:Eac; [| reflexivity].
    apply Ascii.eqb_eq in Eac. congruence.
  - rewrite IH by exact H. reflexivity.
Qed.

Lemma range_length a b : List.length (range a b) = Z.to_nat (b - a).
Proof. unfold range. now rewrite length_map, length_seq. Qed.

Lemma range_nth a b k d :
  (k < Z.to_nat (b - a))%nat -> nth k (range a b) d = a + Z.of_nat k.
Proof.
  intros H. unfold range.
  rewrite nth_indep with (d' := (fun k => a + Z.of_nat k) O)
    by now rewrite length_map, length_seq.
  rewrite (map_nth (fun k => a + Z.of_nat k)), seq_nth by exact H. reflexivity.
Qed.

Lemma range_In a b i : In i (range a b) <-> a <= i < b.
Proof.
  unfold range. rewrite in_map_iff. split.
  - intros [k [<- Hk]]. apply in_seq in Hk. lia.
  - intros H. exists (Z.to_nat (i - a)). split; [lia |]. apply in_seq. lia.
Qed.

(** The archive loop collects, for each number of the range, the file
    name and the URL of that table. *)
Lemma archive_loop {F : Type} base param pre mobile (l : list Z) acc (w : World F) :
  for_each l
    (fun acc i =>
       let tid := table_id pre i in
       let url := make_url base param tid mobile in
       ret (acc ++ [(("qr_" ++ tid ++ ".png")%string, url)]))
    acc w
  = Ok (acc ++ map (fun i => (("qr_" ++ table_id pre i ++ ".png")%string,
                              make_url base param (table_id pre i) mobile)) l) w.
Proof.
  revert acc. induction l as [| i l IH]; intros acc; simpl.
  - now rewrite app_nil_r.
  - unfold bind at 1. simpl. rewrite IH. now rewrite <- app_assoc.
Qed.

(** C7, as stated, fails: a base URL that ends in a slash loses it before
    the query string is appended. *)
Lemma make_url_not_plain_concatenation :
  ~ (forall base param table mobile,
       make_url base param table mobile = spec_url base param table mobile).
Proof.
  intros H. specialize (H "https://x.test/" "table" "A1" true).
  vm_compute in H. discriminate H.
Qed.

(** C7, amended: the generated URL is the base URL with its trailing
    slashes removed, then [/?param=table], then [&mode=list] exactly when
    the mobile flag is set; it is the plain concatenation on the base URL
    itself whenever that does not end in a slash, as in the example of
    the spec.  The batch loop produces, in order, one such URL for each
    identifier [prefix + n], [n] running over [start, start + count), and
    the page shows exactly these. *)
Theorem make_url_amended (base param table pre : string) (mobile : bool) (start cnt : Z) :
  (exists k, base = (Str.rstrip "/" base ++ copies "/" k)%string)
  /\ last_char (Str.rstrip "/" base) <> Some "/"%char
  /\ make_url base param table mobile
     = spec_url (Str.rstrip "/" base) param table mobile
  /\ (last_char base <> Some "/"%char ->
      make_url base param table mobile = spec_url base param table mobile)
  /\ make_url "https://x.test" "table" "A1" true = "https://x.test/?table=A1&mode=list"
  /\ (0 <= cnt ->
      List.length (batch_urls base param pre mobile start cnt) = Z.to_nat cnt
      /\ forall n, start <= n < start + cnt ->
           nth (Z.to_nat (n - start)) (batch_urls base param pre mobile start cnt) EmptyString
           = make_url base param (pre ++ Str.of_int n) mobile)
  /\ (forall (F : Type) (inp : QrInput) (w : World F),
        qrcode_installed inp = true -> single_clicked inp = false ->
        batch_clicked inp = true ->
        page_qr inp w = Ok tt (set_ui w (ui w ++ [qr_archive (batch_archive inp)]))
        /\ map snd (batch_archive inp)
           = batch_urls (base_url inp) (param_key inp) (prefix inp) (mobile_mode inp)
               (Z.max 1 (start_no inp)) (Z.max 1 (count inp)))
  /\ (forall (F : Type) (inp : QrInput) (w : World F),
        qrcode_installed inp = true -> single_clicked inp = true ->
        batch_clicked inp = false ->
        page_qr inp w
        = Ok tt (set_ui w (ui w ++ [qr_image
                   (make_url (base_url inp) (param_key inp) (single_table inp) (mobile_mode inp))
                   ("qr_" ++ single_table inp ++ ".png")%string]))).
Proof.
  split; [apply rstrip_split |].
  split; [apply rstrip_no_trailing |].
  split; [reflexivity |].
  split.
  { intros H. unfold make_url, spec_url. now rewrite rstrip_fixed. }
  split; [reflexivity |].
  split.
  { intros Hc. unfold batch_urls. rewrite length_map, range_length.
    split; [f_equal; lia |].
    intros n Hn.
    rewrite nth_indep with (d' := make_url base param (table_id pre 0) mobile)
      by (rewrite length_map, range_length; lia).
    rewrite (map_nth (fun i => make_url base param (table_id pre i) mobile)).
    rewrite range_nth by lia. unfold table_id. do 3 f_equal. lia. }
  split.
  - intros F inp w Hq Hs Hb. unfold page_qr. rewrite Hq, Hs, Hb. simpl.
    unfold bind at 1. simpl. unfold bind at 1.
    pose proof (archive_loop (base_url inp) (param_key inp) (prefix inp) (mobile_mode inp)
                  (range (Z.max 1 (start_no inp)) (Z.max 1 (start_no inp) + Z.max 1 (count inp)))
                  [] w) as E.
    simpl in E. rewrite E. split; [reflexivity |].
    unfold batch_archive, batch_urls. now rewrite map_map.
  - intros F inp w Hq Hs Hb. unfold page_qr. rewrite Hq, Hs, Hb. simpl.
    reflexivity.
Qed.

(** The amended statement at the inputs of the spec's example, and at a
    base URL with a trailing slash. *)
Lemma make_url_amended_witness :
  make_url "https://x.test/" "table" "A1" true = "https://x.test/?table=A1&mode=list"
  /\ batch_urls "https://x.test" "table" "A" true 1 3
     = ["https://x.test/?table=A1&mode=list";
        "https://x.test/?table=A2&mode=list";
        "https://x.test/?table=A3&mode=list"].
Proof.
  destruct (make_url_amended "https://x.test/" "table" "A1" "A" true 1 3)
    as (_ & _ & Hurl & _ & _ & _ & _ & _).
  split; [rewrite Hurl; reflexivity | reflexivity].
Defined.

End QrFacts.

(* ------------------------------------------------------------------ *)
(** ** The admin gate *)

Module AdminFacts.

Create HintDb frame.

Section Frame.
Context {F : Type} {A : Amount F}.

Lemma keeps_ret {X : Type} (x : X) : keeps_admin (F := F) (ret x).
Proof. intros w. reflexivity. Qed.

Lemma keeps_raise {X : Type} (e : exn) : keeps_admin (F := F) (raise (A := X) e).
Proof. intros w. reflexivity. Qed.

Lemma keeps_bind {X Y : Type} (m : M F X) (k : X -> M F Y) :
  keeps_admin m -> (forall x, keeps_admin (F := F) (k x)) -> keeps_admin (F := F) (bind m k).
Proof.
  intros Hm Hk w. unfold bind. specialize (Hm w).
  destruct (m w) as [x w' | e w']; simpl in *.
  - rewrite (Hk x w'). exact Hm.
  - exact Hm.
Qed.

Lemma keeps_for_each {X Y : Type} (l : list X) (body : Y -> X -> M F Y) (acc : Y) :
  (forall y x, keeps_admin (F := F) (body y x)) -> keeps_admin (F := F) (for_each l body acc).
Proof.
  intros Hb. revert acc. induction l as [| x l IH]; intros acc; simpl.
  - apply keeps_ret.
  - apply keeps_bind; [apply Hb | intros; apply IH].
Qed.

Lemma keeps_try_except (body handler : M F unit) :
  keeps_admin body -> keeps_admin handler -> keeps_admin (F := F) (try_except body handler).
Proof.
  intros Hb Hh w. unfold try_except. specialize (Hb w).
  destruct (body w) as [x w' | [|] w']; simpl in *; try exact Hb.
  rewrite (Hh w'). exact Hb.
Qed.

Lemma keeps_try_finally {X : Type} (body : M F X) (final : M F unit) :
  keeps_admin body -> keeps_admin final -> keeps_admin (F := F) (try_finally body final).
Proof.
  intros Hb Hf w. unfold try_finally. specialize (Hb w).
  destruct (body w) as [x w' | e w']; simpl in *;
    specialize (Hf w'); destruct (final w'); simpl in *; congruence.
Qed.

Lemma keeps_show o : keeps_admin (show (F := F) o).
Proof. intros w. reflexivity. Qed.

Lemma keeps_rerun {X : Type} : keeps_admin (st_rerun (F := F) (A := X)).
Proof. intros w. reflexivity. Qed.

Lemma keeps_now : keeps_admin (now (F := F)).
Proof. intros w. reflexivity. Qed.

Lemma keeps_ensure_cart : keeps_admin (ensure_cart (F := F)).
Proof. intros w. unfold ensure_cart. destruct (cart (session w)); reflexivity. Qed.

Lemma keeps_get_cart : keeps_admin (get_cart (F := F)).
Proof. intros w. reflexivity. Qed.

Lemma keeps_cart_assign mid qty : keeps_admin (cart_assign (F := F) mid qty).
Proof. intros w. reflexivity. Qed.

Lemma keeps_reset_cart : keeps_admin (reset_cart (F := F)).
Proof. intros w. reflexivity. Qed.

Lemma keeps_round_trip : keeps_admin (round_trip (F := F)).
Proof. intros w. unfold round_trip. destruct (faults w) as [[| n] |]; reflexivity. Qed.

Lemma keeps_get_db : keeps_admin (get_db (F := F)).
Proof. intros w. reflexivity. Qed.

Lemma keeps_db_close : keeps_admin (db_close (F := F)).
Proof. intros w. reflexivity. Qed.

Lemma keeps_rows : keeps_admin (rows (F := F)).
Proof. intros w. reflexivity. Qed.

Lemma keeps_write s : keeps_admin (write (F := F) s).
Proof. intros w. reflexivity. Qed.

Lemma keeps_set_committed : keeps_admin (F := F) (fun w : World F => Ok tt (set_committed w (pending w))).
Proof. intros w. reflexivity. Qed.

End Frame.

#[export] Hint Resolve keeps_ret keeps_raise keeps_show keeps_rerun keeps_now
  keeps_ensure_cart keeps_get_cart keeps_cart_assign keeps_reset_cart
  keeps_round_trip keeps_get_db keeps_db_close keeps_rows keeps_write
  keeps_set_committed : frame.

(** Walks a handler's text: sequencing, loops, branches. *)
Ltac frame :=
  repeat first
    [ progress intros
    | solve [auto with frame]
    | apply keeps_bind
    | apply keeps_for_each
    | apply keeps_try_except
    | apply keeps_try_finally
    | match goal with
      | |- keeps_admin (let '(_, _) := ?p in _) => destruct p
      | |- keeps_admin (if ?b then _ else _) => destruct b
      | |- keeps_admin (match ?x with _ => _ end) => destruct x
      end
    | progress cbv zeta ].

Section Pages.
Context {F : Type} {A : Amount F}.

Lemma keeps_db_commit : keeps_admin (db_commit (F := F)).
Proof. unfold db_commit. frame. Qed.

Lemma keeps_query_menu_item mid : keeps_admin (query_menu_item (F := F) mid).
Proof. unfold query_menu_item. frame. Qed.

Lemma keeps_query_menu_items : keeps_admin (query_menu_items (F := F)).
Proof. unfold query_menu_items. frame. Qed.

Lemma keeps_query_orders : keeps_admin (query_orders (F := F)).
Proof. unfold query_orders. frame. Qed.

Lemma keeps_query_order_items oid : keeps_admin (query_order_items (F := F) oid).
Proof. unfold query_order_items. frame. Qed.

Lemma keeps_add_order_flush mk_row : keeps_admin (add_order_flush (F := F) mk_row).
Proof. unfold add_order_flush. frame. Qed.

Lemma keeps_add_order_item mk_row : keeps_admin (add_order_item (F := F) mk_row).
Proof. unfold add_order_item. frame. Qed.

Lemma keeps_add_menu_item mk_row : keeps_admin (add_menu_item (F := F) mk_row).
Proof. unfold add_menu_item. frame. Qed.

Lemma keeps_update_order oid f : keeps_admin (update_order (F := F) oid f).
Proof. unfold update_order. frame. Qed.

Lemma keeps_update_menu_item mid f : keeps_admin (update_menu_item (F := F) mid f).
Proof. unfold update_menu_item. frame. Qed.

Lemma keeps_delete_order oid : keeps_admin (delete_order (F := F) oid).
Proof. unfold delete_order. frame. Qed.

Lemma keeps_delete_menu_item mid : keeps_admin (delete_menu_item (F := F) mid).
Proof. unfold delete_menu_item. frame. Qed.

End Pages.

#[export] Hint Resolve keeps_db_commit keeps_query_menu_item keeps_query_menu_items
  keeps_query_orders keeps_query_order_items keeps_add_order_flush
  keeps_add_order_item keeps_add_menu_item keeps_update_order
  keeps_update_menu_item keeps_delete_order keeps_delete_menu_item : frame.

Section Handlers.
Context {F : Type} {A : Amount F}.

Lemma keeps_cart_total : keeps_admin (cart_total (F := F)).
Proof. unfold cart_total, cart_total_step. frame. Qed.

Lemma keeps_place_order inp : keeps_admin (place_order (F := F) inp).
Proof. unfold place_order, line_step. frame. Qed.

Lemma keeps_page_order inp : keeps_admin (page_order (F := F) inp).
Proof.
  pose proof keeps_cart_total. pose proof keeps_place_order.
  unfold page_order, order_page_top, cart_section, cart_row_step, item_card. frame.
Qed.

Lemma keeps_page_orders_admin inp : keeps_admin (page_orders_admin (F := F) inp).
Proof. unfold page_orders_admin, query_listing. frame. Qed.

Lemma keeps_page_menu_admin inp : keeps_admin (page_menu_admin (F := F) inp).
Proof. unfold page_menu_admin. frame. Qed.

Lemma keeps_page_qr inp : keeps_admin (page_qr (F := F) inp).
Proof. unfold page_qr. frame. Qed.

Lemma keeps_init_db : keeps_admin (init_db (F := F)).
Proof. unfold init_db. frame. Qed.

Lemma keeps_main secret req :
  login_clicked req = false -> keeps_admin (main (F := F) secret req).
Proof.
  intros Hno. pose proof keeps_init_db. pose proof keeps_page_order.
  pose proof keeps_page_orders_admin. pose proof keeps_page_menu_admin.
  pose proof keeps_page_qr.
  unfold main, require_admin, get_admin_ok. rewrite Hno.
  apply keeps_bind; [assumption | intros _].
  destruct (page req); [auto | | |];
    (apply keeps_bind; [frame; intros w; reflexivity | intros ok]);
    destruct (negb ok); auto with frame.
Qed.

Lemma run_script_keeps_admin secret req (w : World F) :
  login_clicked req = false ->
  _admin_ok (session (run_script secret req w)) = _admin_ok (session w).
Proof.
  intros Hno. pose proof (keeps_main secret req Hno w) as H.
  unfold run_script. destruct (main secret req w) as [[] w' | [|] w']; exact H.
Qed.

End Handlers.

(** C8: pressing the login button with the configured secret sets the
    session's admin flag to true; pressing it with any other secret
    leaves the gate closed, the flag being false afterwards; a call of the
    gate without the button pressed changes nothing and answers with the
    flag (false while it is unset); and once the flag is true it is still
    true after every later run of the script in that session in which
    the button is not pressed, whatever the pages do. *)
Theorem admin_gate {F : Type} {A : Amount F} (secret : string) :
  (forall (w : World F),
      exists w', require_admin secret secret true w = Ok true w'
                 /\ _admin_ok (session w') = Some true)
  /\ (forall entered (w : World F), entered <> secret ->
        exists w', require_admin secret entered true w = Ok false w'
                   /\ _admin_ok (session w') = Some false)
  /\ (forall entered (w : World F),
        require_admin secret entered false w
        = Ok (match _admin_ok (session w) with Some b => b | None => false end) w)
  /\ (forall (reqs : list (Request F)) (w : World F),
        Forall (fun req => login_clicked req = false) reqs ->
        _admin_ok (session w) = Some true ->
        _admin_ok (session (run_session secret reqs w)) = Some true).
Proof.
  repeat split.
  - intros w. unfold require_admin. rewrite String.eqb_refl.
    eexists. split; reflexivity.
  - intros entered w Hne. unfold require_admin.
    apply String.eqb_neq in Hne. rewrite Hne.
    eexists. split; reflexivity.
  - intros reqs. unfold run_session.
    induction reqs as [| req reqs IH]; intros w Hall Hw; simpl; [exact Hw |].
    inversion Hall as [| ? ? Hreq Hrest]; subst.
    apply IH; [exact Hrest |].
    rewrite run_script_keeps_admin by exact Hreq. exact Hw.
Qed.

End AdminFacts.

(* ------------------------------------------------------------------ *)
(** ** Order submission *)

Module SubmitFacts.

Lemma next_id_above (ids : list Z) (i : Z) : In i ids -> i < next_id ids.
Proof.
  unfold next_id. induction ids as [| j ids IH]; cbn [fold_right In]; [tauto |].
  intros [-> | H]; [lia | specialize (IH H); lia].
Qed.

Lemma next_id_fresh (ids : list Z) : ~ In (next_id ids) ids.
Proof. intros H. apply next_id_above in H. lia. Qed.

Lemma spend_0 f : spend f 0 = f.
Proof. destruct f; simpl; [now rewrite Nat.sub_0_r | reflexivity]. Qed.

(** Computes the world through the setters, leaving the loops and the
    generated keys folded. *)
Ltac step_world :=
  unfold set_session, set_committed, set_pending, set_faults, set_reads, set_ui;
  cbn -[for_each line_step cart_total_step cart_row_step next_id accumulated
        created_lines displayed Nat.sub].

Section Loop.
Context {F : Type} {A : Amount F}.

(** The total the loop returns is the sum over the lines it creates. *)
Lemma accumulated_lines menu oid c : forall existing acc,
  accumulated menu c acc
  = fold_left (fun t l => amt_add t (line_amount l)) (created_lines menu oid c existing) acc.
Proof.
  induction c as [| [mid qty] c IH]; intros existing acc; simpl; [reflexivity |].
  destruct (find_menu_item menu mid) as [it |]; simpl; [| apply IH].
  erewrite IH. reflexivity.
Qed.

Lemma created_lines_order_id menu oid c : forall existing,
  Forall (fun l : OrderItem.t F => OrderItem.order_id l = oid)
    (created_lines menu oid c existing).
Proof.
  induction c as [| [mid qty] c IH]; intros existing; simpl; [constructor |].
  destruct (find_menu_item menu mid); [constructor; [reflexivity | apply IH] | apply IH].
Qed.

(** One pass through the loop body, the countdown allowing. *)
Lemma line_step_ok (order : Order.t F) acc mid qty ses com men ords its fl clk rd out :
  enough fl 1 ->
  line_step order acc (mid, qty)
    (mk_world F ses com (mk_store F men ords its) fl clk rd out)
  = match find_menu_item men mid with
    | None =>
        Ok acc (mk_world F ses com (mk_store F men ords its) (spend fl 1) clk rd out)
    | Some it =>
        Ok (amt_add acc (amt_times (MenuItem.price it) qty))
          (mk_world F ses com
             (mk_store F men ords
                (its ++ [OrderItem.mk F (next_id (map OrderItem.id its)) (Order.id order)
                           (Some (MenuItem.id it)) (MenuItem.name it)
                           (MenuItem.price it) qty]))
             (spend fl 1) clk rd out)
    end.
Proof.
  intros Hfl.
  destruct fl as [[| n] |]; [simpl in Hfl; lia | |];
    unfold line_step, query_menu_item, bind; cbn;
    destruct (find_menu_item men mid); cbn; rewrite ?Nat.sub_0_r; reflexivity.
Qed.

(** While the countdown allows it, the loop over the cart appends the
    created lines to the transaction and returns the accumulated total. *)
Lemma line_loop_ok (order : Order.t F) c :
  forall acc ses com men ords its fl clk rd out,
    enough fl (List.length c) ->
    for_each c (line_step order) acc
      (mk_world F ses com (mk_store F men ords its) fl clk rd out)
    = Ok (accumulated men c acc)
        (mk_world F ses com
           (mk_store F men ords (its ++ created_lines men (Order.id order) c its))
           (spend fl (List.length c)) clk rd out).
Proof.
  induction c as [| [mid qty] c IH]; intros acc ses com men ords its fl clk rd out Hfl.
  - simpl. now rewrite spend_0, app_nil_r.
  - assert (Hfl1 : enough fl 1).
    { destruct fl as [n |]; simpl in *; [lia | exact I]. }
    assert (Hfl' : enough (spend fl 1) (List.length c)).
    { destruct fl as [n |]; simpl in *; [lia | exact I]. }
    assert (Hsp : spend (spend fl 1) (List.length c) = spend fl (S (List.length c))).
    { destruct fl as [n |]; simpl; [f_equal; lia | reflexivity]. }
    cbn [for_each created_lines accumulated List.length]. unfold bind at 1.
    rewrite line_step_ok by exact Hfl1.
    destruct (find_menu_item men mid) as [it |];
      rewrite IH by exact Hfl'; rewrite Hsp; [| reflexivity].
    cbv zeta. now rewrite <- app_assoc.
Qed.

(** When the countdown runs out inside the loop, the loop raises; the
    committed rows and the session state are as before. *)
Lemma line_loop_raises (order : Order.t F) c :
  forall acc ses com men ords its n clk rd out,
    (n < List.length c)%nat ->
    exists pen fl',
      for_each c (line_step order) acc
        (mk_world F ses com (mk_store F men ords its) (Some n) clk rd out)
      = Raised StorageError (mk_world F ses com pen fl' clk rd out).
Proof.
  induction c as [| [mid qty] c IH]; intros acc ses com men ords its n clk rd out Hn;
    [simpl in Hn; lia |].
  cbn [for_each]. unfold bind at 1.
  destruct n as [| n].
  - unfold line_step, query_menu_item, bind. cbn. eauto.
  - rewrite line_step_ok by (simpl; lia).
    simpl in Hn. replace (spend (Some (S n)) 1) with (Some n)
      by (simpl; now rewrite Nat.sub_0_r).
    destruct (find_menu_item men mid); apply IH; lia.
Qed.

(** Rewriting the fresh order in place leaves the older rows alone. *)
Lemma update_fresh (ords : list (Order.t F)) (o : Order.t F) (f : Order.t F -> Order.t F) :
  Order.id o = next_id (map Order.id ords) ->
  map (fun x => if Order.id x =? Order.id o then f x else x) (ords ++ [o])
  = ords ++ [f o].
Proof.
  intros Hid. rewrite map_app. cbn [map]. rewrite Z.eqb_refl. f_equal.
  rewrite <- (map_id ords) at 2. apply map_ext_in. intros x Hx.
  destruct (Order.id x =? Order.id o) eqn:E; [| reflexivity].
  apply Z.eqb_eq in E. exfalso. apply (next_id_fresh (map Order.id ords)).
  rewrite <- Hid, <- E. now apply in_map.
Qed.

(** A submission with a non-empty cart that the countdown lets through:
    header and lines are committed together, the cart is emptied, the
    order number and the total are shown. *)
Lemma place_order_ok inp c adm com men ords its fl clk rd out :
  c <> [] ->
  enough fl (List.length c + 2) ->
  exists fl',
    place_order inp
      (mk_world F (mk_session (Some c) adm) com (mk_store F men ords its) fl clk rd out)
    = Ok tt
        (let st := submitted_store inp men ords its c (clk rd) (clk (S rd)) (clk (S (S rd))) in
         mk_world F (mk_session (Some []) adm) st st fl' clk (S (S (S rd)))
           (out ++ [order_placed (next_id (map Order.id ords))
                      (accumulated men c amt_zero)])).
Proof.
  intros Hc Hfl. destruct c as [| e c']; [congruence |].
  destruct fl as [[| n] |]; [simpl in Hfl; lia | |].
  - unfold place_order, bind, get_cart, now, add_order_flush, round_trip, rows, write, ret.
    step_world. unfold bind. step_world.
    rewrite line_loop_ok by (simpl in *; lia).
    unfold update_order, db_commit, round_trip, reset_cart, show, bind, rows, write.
    step_world.
    destruct (n - S (List.length c'))%nat as [| m] eqn:E; [simpl in *; lia |].
    step_world.
    rewrite (update_fresh ords (new_order inp (clk rd) (clk (S rd)) (next_id (map Order.id ords))))
      by reflexivity.
    eexists. reflexivity.
  - unfold place_order, bind, get_cart, now, add_order_flush, round_trip, rows, write, ret.
    step_world. unfold bind. step_world.
    rewrite line_loop_ok by exact I.
    unfold update_order, db_commit, round_trip, reset_cart, show, bind, rows, write.
    step_world.
    rewrite (update_fresh ords (new_order inp (clk rd) (clk (S rd)) (next_id (map Order.id ords))))
      by reflexivity.
    eexists. reflexivity.
Qed.

(** A submission that meets the end of the countdown raises, from the
    flush, from a query of the loop or from the commit; the committed
    rows, the session state and the output are as before. *)
Lemma place_order_raises inp c adm com men ords its n clk rd out :
  c <> [] ->
  (n < List.length c + 2)%nat ->
  exists pen fl' rd',
    place_order inp
      (mk_world F (mk_session (Some c) adm) com (mk_store F men ords its) (Some n) clk rd out)
    = Raised StorageError
        (mk_world F (mk_session (Some c) adm) com pen fl' clk rd' out).
Proof.
  intros Hc Hn. destruct c as [| e c']; [congruence |].
  unfold place_order, bind, get_cart, now, add_order_flush, round_trip, rows, write, ret.
  step_world. unfold bind. step_world.
  destruct n as [| n]; [eauto |].
  step_world.
  destruct (Nat.ltb n (S (List.length c'))) eqn:Hlt.
  - apply Nat.ltb_lt in Hlt.
    destruct (line_loop_raises
                (new_order inp (clk rd) (clk (S rd)) (next_id (map Order.id ords)))
                (e :: c') amt_zero (mk_session (Some (e :: c')) adm) com men
                (ords ++ [new_order inp (clk rd) (clk (S rd)) (next_id (map Order.id ords))])
                its n clk (S (S rd)) out Hlt) as (pen & fl' & E).
    rewrite E. eauto.
  - apply Nat.ltb_ge in Hlt.
    rewrite line_loop_ok by (simpl; lia).
    unfold update_order, db_commit, round_trip, reset_cart, show, bind, rows, write.
    step_world.
    replace (n - S (List.length c'))%nat with 0%nat by (simpl in Hn; lia).
    eauto.
Qed.

(** A submission with an empty cart only warns. *)
Lemma place_order_empty inp (w : World F) :
  cart_entries w = [] ->
  place_order inp w = Ok tt (set_ui w (ui w ++ [warn_cart_empty])).
Proof.
  intros H. unfold place_order, bind, get_cart. now rewrite H.
Qed.

End Loop.

Section Submit.
Context {F : Type} {A : Amount F}.

Lemma find_menu_item_id (menu : list (MenuItem.t F)) mid it :
  find_menu_item menu mid = Some it -> MenuItem.id it = mid /\ In it menu.
Proof.
  induction menu as [| m menu IH]; simpl; [discriminate |].
  destruct (MenuItem.id m =? mid) eqn:E.
  - intros [= <-]. apply Z.eqb_eq in E. auto.
  - intros H. destruct (IH H). auto.
Qed.

Lemma created_lines_nonempty (menu : list (MenuItem.t F)) oid c :
  forall existing,
    existsb (resolves menu) c = true -> created_lines menu oid c existing <> [].
Proof.
  induction c as [| [mid qty] c IH]; intros existing; simpl; [discriminate |].
  unfold resolves at 1. simpl.
  destruct (find_menu_item menu mid); simpl; [discriminate | apply IH].
Qed.

(** The body of the submit branch, entered with a fresh transaction, a
    non-empty cart of which an entry resolves and no storage fault:
    one header and its lines are committed and the cart is emptied. *)
Lemma place_order_creates_order (inp : OrderPageInput) (w : World F) (c : Cart) :
  faults w = None ->
  pending w = committed w ->
  cart (session w) = Some c ->
  c <> [] ->
  existsb (resolves (menu_items (committed w))) c = true ->
  exists (o : Order.t F) (lines : list (OrderItem.t F)) (w' : World F),
    place_order inp w = Ok tt w'
    /\ orders (committed w') = orders (committed w) ++ [o]
    /\ Order.status o = NEW
    /\ ~ In (Order.id o) (map Order.id (orders (committed w)))
    /\ order_items (committed w') = order_items (committed w) ++ lines
    /\ lines <> []
    /\ Forall (fun l => OrderItem.order_id l = Order.id o) lines
    /\ Order.total_price o = lines_total lines
    /\ menu_items (committed w') = menu_items (committed w)
    /\ cart (session w') = Some [].
Proof.
  intros Hfl Hpen Hcart Hc Hres.
  destruct w as [[crt adm] com [men ords its] fl clk rd out].
  simpl in Hfl, Hpen, Hcart, Hres. subst fl crt com. simpl in Hres.
  destruct (place_order_ok inp c adm (mk_store F men ords its) men ords its None clk rd out Hc I)
    as [fl' E].
  eexists _, (created_lines men (next_id (map Order.id ords)) c its), _.
  split; [exact E |]. cbn.
  repeat split.
  - apply next_id_fresh.
  - now apply created_lines_nonempty.
  - apply created_lines_order_id.
  - unfold lines_total. apply accumulated_lines.
Qed.

(** An exception of the submission leaves the page, [main] and the run:
    nobody on the way catches it, and the run shows it. *)
Lemma submission_error_surfaces secret (req : Request F) (w w0 w1 w2 : World F) :
  page req = PageOrder ->
  submitted (order_input req) = true ->
  init_db w = Ok tt w0 ->
  order_page_top (order_input req) w0 = Ok tt w1 ->
  place_order (order_input req) w1 = Raised StorageError w2 ->
  page_order (order_input req) w0 = Raised StorageError w2
  /\ main secret req w = Raised StorageError w2
  /\ run_script secret req w
     = set_pending (set_ui w2 (ui w2 ++ [exception_shown StorageError])) (committed w2).
Proof.
  intros Hp Hs Hi Ht He.
  assert (Hpage : page_order (order_input req) w0 = Raised StorageError w2).
  { unfold page_order, bind. rewrite Ht, Hs, He. reflexivity. }
  assert (Hmain : main secret req w = Raised StorageError w2).
  { unfold main, bind. rewrite Hi, Hp. exact Hpage. }
  repeat split; [exact Hpage | exact Hmain |].
  unfold run_script. rewrite Hmain. reflexivity.
Qed.

(** C2: a submission ends in one of three ways.  It raises a storage
    error, and then the committed rows, the session state and the output
    are what they were: no header, no line, no total reached the store.
    Or the cart was empty and nothing was written.  Or it commits, in one
    step, one header with all its lines and with the total that is the
    sum over these lines.  Whenever one of its round trips (the flush,
    one query per cart entry, the commit) meets the end of the fault
    countdown it does raise, and a raised error travels through the page
    and [main] to the run, which shows it and drops the uncommitted
    rows. *)
Theorem submission_is_atomic (inp : OrderPageInput) (w : World F) :
  ((exists w' n,
       place_order inp w = Raised StorageError w'
       /\ faults w = Some n /\ (n < List.length (cart_entries w) + 2)%nat
       /\ committed w' = committed w /\ session w' = session w /\ ui w' = ui w)
   \/ (exists w',
         place_order inp w = Ok tt w'
         /\ cart_entries w = [] /\ committed w' = committed w /\ pending w' = pending w)
   \/ (exists w' o lines,
         place_order inp w = Ok tt w'
         /\ enough (faults w) (List.length (cart_entries w) + 2)
         /\ menu_items (committed w') = menu_items (pending w)
         /\ orders (committed w') = orders (pending w) ++ [o]
         /\ order_items (committed w') = order_items (pending w) ++ lines
         /\ Forall (fun l => OrderItem.order_id l = Order.id o) lines
         /\ Order.total_price o = lines_total lines))
  /\ (forall n,
        cart_entries w <> [] -> faults w = Some n ->
        (n < List.length (cart_entries w) + 2)%nat ->
        exists w', place_order inp w = Raised StorageError w'
                   /\ committed w' = committed w)
  /\ (forall secret (req : Request F) (v v0 v2 : World F),
        page req = PageOrder -> order_input req = inp -> submitted inp = true ->
        init_db v = Ok tt v0 -> order_page_top inp v0 = Ok tt w ->
        place_order inp w = Raised StorageError v2 ->
        ui (run_script secret req v) = ui v2 ++ [exception_shown StorageError]
        /\ committed (run_script secret req v) = committed w
        /\ pending (run_script secret req v) = committed w).
Proof.
  assert (Hraise : forall n,
            cart_entries w <> [] -> faults w = Some n ->
            (n < List.length (cart_entries w) + 2)%nat ->
            exists w', place_order inp w = Raised StorageError w'
                       /\ committed w' = committed w /\ session w' = session w
                       /\ ui w' = ui w).
  { intros n Hc Hfl Hn.
    destruct w as [[[c |] adm] com [men ords its] fl clk rd out];
      cbn in Hc, Hfl, Hn; [| congruence]. subst fl.
    destruct (place_order_raises inp c adm com men ords its n clk rd out Hc Hn)
      as (pen & fl' & rd' & E).
    eexists. split; [exact E |]. repeat split. }
  split; [| split].
  - destruct (cart_entries w) as [| e c'] eqn:Hc.
    + right; left. eexists. split; [now apply place_order_empty |]. repeat split.
    + destruct (faults w) as [n |] eqn:Hfl.
      * destruct (Nat.ltb n (List.length (e :: c') + 2)) eqn:Hlt.
        -- apply Nat.ltb_lt in Hlt.
           destruct (Hraise n) as (w' & E & H1 & H2 & H3);
             [discriminate | reflexivity | exact Hlt |].
           left. exists w', n. auto 10.
        -- apply Nat.ltb_ge in Hlt. right; right.
           destruct w as [[[c |] adm] com [men ords its] fl clk rd out];
             cbn in Hc, Hfl; [| discriminate]. subst fl c.
           destruct (place_order_ok inp (e :: c') adm com men ords its (Some n) clk rd out)
             as [fl' E]; [discriminate | exact Hlt |].
           eexists _, _, (created_lines men (next_id (map Order.id ords)) (e :: c') its).
           split; [exact E |]. split; [exact Hlt |]. cbn -[created_lines accumulated].
           repeat split.
           ++ apply created_lines_order_id.
           ++ unfold lines_total. apply accumulated_lines.
      * right; right.
        destruct w as [[[c |] adm] com [men ords its] fl clk rd out];
          cbn in Hc, Hfl; [| discriminate]. subst fl c.
        destruct (place_order_ok inp (e :: c') adm com men ords its None clk rd out)
          as [fl' E]; [discriminate | exact I |].
        eexists _, _, (created_lines men (next_id (map Order.id ords)) (e :: c') its).
        split; [exact E |]. split; [exact I |]. cbn -[created_lines accumulated].
        repeat split.
        -- apply created_lines_order_id.
        -- unfold lines_total. apply accumulated_lines.
  - intros n Hc Hfl Hn. destruct (Hraise n Hc Hfl Hn) as (w' & E & H1 & _). eauto.
  - intros secret req v v0 v2 Hp Hin Hs Hi Ht He. subst inp.
    destruct (submission_error_surfaces secret req v v0 w v2 Hp Hs Hi Ht He)
      as (_ & _ & Hrun).
    rewrite Hrun. cbn.
    destruct (cart_entries w) as [| e c'] eqn:Hc.
    { rewrite place_order_empty in He by exact Hc. discriminate. }
    destruct (faults w) as [n |] eqn:Hfl.
    + destruct (Nat.ltb n (List.length (e :: c') + 2)) eqn:Hlt.
      * apply Nat.ltb_lt in Hlt.
        destruct (Hraise n) as (w' & E & H1 & _); [congruence | reflexivity | |].
        { rewrite ?Hc. exact Hlt. }
        rewrite E in He. injection He as <-. auto.
      * apply Nat.ltb_ge in Hlt.
        destruct w as [[[c |] adm] com [men ords its] fl clk rd out];
          cbn in Hc, Hfl; [| discriminate]. subst fl c.
        destruct (place_order_ok (order_input req) (e :: c') adm com men ords its (Some n) clk rd out)
          as [fl' E]; [discriminate | exact Hlt |].
        pose proof (eq_trans (eq_sym E) He) as X. discriminate X.
    + destruct w as [[[c |] adm] com [men ords its] fl clk rd out];
        cbn in Hc, Hfl; [| discriminate]. subst fl c.
      destruct (place_order_ok (order_input req) (e :: c') adm com men ords its None clk rd out)
        as [fl' E]; [discriminate | exact I |].
      pose proof (eq_trans (eq_sym E) He) as X. discriminate X.
Qed.

End Submit.

Section CartInvariant.
Context {F : Type} {A : Amount F}.

Lemma set_keys (c : Cart) mid qty k :
  In k (map fst (CartOps.set c mid qty)) <-> k = mid \/ In k (map fst c).
Proof.
  induction c as [| [j q] c IH]; simpl; [intuition |].
  destruct (j =? mid) eqn:E; simpl.
  - apply Z.eqb_eq in E. subst. intuition.
  - rewrite IH. intuition.
Qed.

Lemma set_keeps_cart_ok (c : Cart) mid qty :
  cart_ok c -> 1 <= qty <= 50 -> cart_ok (CartOps.set c mid qty).
Proof.
  intros [Hnd Hq] Hqty. split.
  - induction c as [| [j q] c IH]; [simpl; repeat constructor; auto |].
    inversion Hnd as [| ? ? Hnotin Hnd']; subst.
    inversion Hq as [| ? ? _ Hq']; subst.
    simpl. destruct (j =? mid) eqn:E; simpl; [now constructor |].
    constructor; [| now apply IH].
    rewrite set_keys. apply Z.eqb_neq in E. intros [-> | H]; [congruence | auto].
  - induction c as [| [j q] c IH]; [simpl; constructor; [exact Hqty | constructor] |].
    inversion Hnd as [| ? ? Hnotin Hnd']; subst.
    inversion Hq as [| ? ? Hj Hq']; subst.
    simpl. destruct (j =? mid); constructor; auto.
Qed.

(** An item card leaves the cart well-formed, whatever was typed into its
    number input and whether or not its button was pressed. *)
Lemma item_card_keeps_cart_ok inp (m : MenuItem.t F) (w : World F) :
  cart_ok (cart_entries w) -> cart_ok (cart_entries (world_of (item_card inp m w))).
Proof.
  intros Hok. unfold item_card.
  destruct (add_clicked inp) as [k |]; [| exact Hok].
  destruct (k =? MenuItem.id m); [| exact Hok].
  destruct (Z.leb_spec (number_input 0 50 (qty_input inp (MenuItem.id m))) 0);
    [exact Hok |].
  cbn. apply set_keeps_cart_ok; [exact Hok |].
  unfold number_input in *. lia.
Qed.

(** In a well-formed cart every quantity is positive. *)
Lemma cart_ok_positive (c : Cart) : cart_ok c -> Forall (fun e : Z * Z => 0 < snd e) c.
Proof.
  intros [_ Hq]. eapply Forall_impl; [| exact Hq]. intros e He. cbn in He. lia.
Qed.

End CartInvariant.

Section Skipping.
Context {F : Type} {A : Amount F}.

Lemma created_lines_skip (menu : list (MenuItem.t F)) oid mid qty c2 c1 :
  forall existing,
    find_menu_item menu mid = None ->
    created_lines menu oid (c1 ++ (mid, qty) :: c2) existing
    = created_lines menu oid (c1 ++ c2) existing.
Proof.
  induction c1 as [| [k q] c1 IH]; intros existing Hnone; simpl.
  - now rewrite Hnone.
  - destruct (find_menu_item menu k); [f_equal |]; now apply IH.
Qed.

Lemma accumulated_skip (menu : list (MenuItem.t F)) mid qty c2 c1 :
  forall acc,
    find_menu_item menu mid = None ->
    accumulated menu (c1 ++ (mid, qty) :: c2) acc = accumulated menu (c1 ++ c2) acc.
Proof.
  induction c1 as [| [k q] c1 IH]; intros acc Hnone; simpl.
  - now rewrite Hnone.
  - destruct (find_menu_item menu k); now apply IH.
Qed.

(** Every created line points to a catalog row that exists. *)
Lemma created_lines_resolve (menu : list (MenuItem.t F)) oid c :
  forall existing,
    Forall (fun l => exists k, OrderItem.item_id l = Some k
                               /\ find_menu_item menu k <> None)
           (created_lines menu oid c existing).
Proof.
  induction c as [| [k q] c IH]; intros existing; simpl; [constructor |].
  destruct (find_menu_item menu k) as [it |] eqn:E; [| apply IH].
  constructor; [| apply IH]. simpl.
  destruct (find_menu_item_id menu k it E) as [-> _].
  exists k. split; [reflexivity | congruence].
Qed.

(** C4: a cart entry whose key is the id of no catalog row is passed
    over.  The submission still succeeds; among the lines it creates
    none points to that key; the header's total is the sum over the
    created lines alone.  The committed rows and the output are those of
    the same submission without the entry, and when the entry was the
    whole cart the header has no line and the total [0.0]. *)
Theorem dangling_entry_skipped (inp : OrderPageInput) (w : World F)
    (c1 c2 : Cart) (mid qty : Z) :
  faults w = None ->
  cart_entries w = c1 ++ (mid, qty) :: c2 ->
  find_menu_item (menu_items (pending w)) mid = None ->
  exists (w' : World F) (o : Order.t F) (lines : list (OrderItem.t F)),
    place_order inp w = Ok tt w'
    /\ orders (committed w') = orders (pending w) ++ [o]
    /\ order_items (committed w') = order_items (pending w) ++ lines
    /\ Forall (fun l => OrderItem.item_id l <> Some mid) lines
    /\ Forall (fun l => OrderItem.order_id l = Order.id o) lines
    /\ Order.total_price o = lines_total lines
    /\ ui w' = ui w ++ [order_placed (Order.id o) (Order.total_price o)]
    /\ (c1 ++ c2 = [] -> lines = [] /\ Order.total_price o = amt_zero)
    /\ (c1 ++ c2 <> [] ->
        exists v',
          place_order inp
            (set_session w (mk_session (Some (c1 ++ c2)) (_admin_ok (session w))))
          = Ok tt v'
          /\ committed v' = committed w' /\ ui v' = ui w').
Proof.
  intros Hfl Hcart Hnone.
  destruct w as [[[c |] adm] com [men ords its] fl clk rd out];
    cbn in Hfl, Hcart, Hnone;
    [| now destruct c1]. subst fl c.
  destruct (place_order_ok inp (c1 ++ (mid, qty) :: c2) adm com men ords its None clk rd out)
    as [fl' E]; [now destruct c1 | exact I |].
  eexists _, _, (created_lines men (next_id (map Order.id ords)) (c1 ++ c2) its).
  split; [exact E |]. cbn -[created_lines accumulated].
  rewrite created_lines_skip, accumulated_skip by exact Hnone.
  do 2 (split; [reflexivity |]).
  split; [| split; [| split; [| split; [reflexivity | split]]]].
  - eapply Forall_impl; [| apply created_lines_resolve].
    intros l (k & Hk & Hfound) Heq. rewrite Hk in Heq. injection Heq as ->. auto.
  - apply created_lines_order_id.
  - unfold lines_total. apply accumulated_lines.
  - intros ->. split; reflexivity.
  - intros Hne.
    destruct (place_order_ok inp (c1 ++ c2) adm com men ords its None clk rd out Hne I)
      as [fl2 E2].
    eexists. split; [exact E2 |]. cbn. unfold submitted_store.
    rewrite created_lines_skip, accumulated_skip by exact Hnone.
    split; reflexivity.
Qed.

End Skipping.

Section Displayed.
Context {F : Type} {A : Amount F}.

(** Without storage faults [cart_total] reads and changes nothing. *)
Lemma cart_total_loop (w : World F) c :
  faults w = None ->
  forall acc,
    for_each c cart_total_step acc w
    = Ok (displayed (menu_items (pending w)) c acc) w.
Proof.
  intros Hfl. induction c as [| [mid qty] c IH]; intros acc; [reflexivity |].
  cbn [for_each displayed]. unfold bind at 1.
  unfold cart_total_step, query_menu_item, round_trip, rows, bind, ret. rewrite Hfl.
  destruct (find_menu_item (menu_items (pending w)) mid) as [it |]; [| apply IH].
  destruct (MenuItem.is_available it); apply IH.
Qed.

Lemma cart_total_ok (w : World F) :
  faults w = None ->
  cart_total w = Ok (displayed (menu_items (pending w)) (cart_entries w) amt_zero) w.
Proof.
  intros Hfl. unfold cart_total, bind, get_cart. now apply cart_total_loop.
Qed.



End Displayed.

Section ExactTotals.
Context {F : Type} {A : Amount F}.
Variable val : F -> option Q.






End ExactTotals.





Section Page.
Context {F : Type} {A : Amount F}.

Lemma bind_ok {X Y : Type} (m : M F X) (k : X -> M F Y) (w w1 : World F) (x : X) :
  m w = Ok x w1 -> bind m k w = k x w1.
Proof. intros E. unfold bind. now rewrite E. Qed.

(** No add button pressed: the item cards do nothing. *)
Lemma item_cards_idle inp (items : list (MenuItem.t F)) (w : World F) :
  add_clicked inp = None ->
  for_each items (fun _ m => item_card inp m) tt w = Ok tt w.
Proof.
  intros Hadd. induction items as [| m items IH]; [reflexivity |].
  cbn [for_each]. unfold bind.
  replace (item_card inp m w) with (Ok (F := F) tt w); [exact IH |].
  unfold item_card. now rewrite Hadd.
Qed.

(** Without storage faults the loop that fills the cart table reads and
    changes nothing. *)
Lemma cart_rows_loop (w : World F) c :
  faults w = None ->
  forall acc, exists r, for_each c cart_row_step acc w = Ok r w.
Proof.
  intros Hfl. induction c as [| [mid qty] c IH]; intros acc; [now exists acc |].
  cbn [for_each]. unfold bind at 1.
  unfold cart_row_step, query_menu_item, round_trip, rows, bind, ret. rewrite Hfl.
  destruct (find_menu_item (menu_items (pending w)) mid); apply IH.
Qed.

(** The cart section without the clear button: it only shows. *)
Lemma cart_section_idle inp (w : World F) :
  faults w = None -> clear_clicked inp = false ->
  exists shown, cart_section inp w = Ok tt (set_ui w (ui w ++ shown)).
Proof.
  intros Hfl Hclear. unfold cart_section, bind, get_cart.
  destruct (cart_rows_loop w (cart_entries w) Hfl []) as [r E]. rewrite E.
  destruct r as [| row r].
  - exists [info_cart_empty]. reflexivity.
  - unfold show at 1. rewrite cart_total_ok by exact Hfl.
    rewrite Hclear. unfold show, ret.
    eexists [_; _]. unfold set_ui. cbn. now rewrite <- app_assoc.
Qed.

(** The page above the form, with no button pressed and no storage
    fault: a fresh transaction on the committed rows, the cart created
    if it was absent, some output. *)
Lemma order_page_top_idle inp crt adm com pen clk rd (out : list (Output F)) :
  add_clicked inp = None -> clear_clicked inp = false ->
  exists shown,
    order_page_top inp (mk_world F (mk_session crt adm) com pen None clk rd out)
    = Ok tt
        (mk_world F
           (mk_session (Some (match crt with Some c => c | None => [] end)) adm)
           com com None clk rd (out ++ shown)).
Proof.
  intros Hadd Hclear. unfold order_page_top.
  destruct crt as [c |];
    do 4 (erewrite bind_ok by reflexivity);
    (erewrite bind_ok by now apply item_cards_idle);
    match goal with
    | |- context [cart_section inp ?w] =>
        destruct (cart_section_idle inp w eq_refl Hclear) as [shown E]; rewrite E
    end;
    exists shown; reflexivity.
Qed.

(** C1: a run of the order page in which only the submit button is
    pressed, with a non-empty cart of which at least one entry resolves
    and no storage fault, commits exactly one new header, of status NEW
    and with a fresh key, and at least one line; every line it creates
    belongs to that header; the header's total is the sum of unit price
    times quantity over the created lines, taken in their sequence from
    [0.0]; the catalog is untouched; the cart is empty afterwards. *)
Theorem submit_creates_order (inp : OrderPageInput) (w : World F) (c : Cart) :
  faults w = None ->
  cart (session w) = Some c ->
  c <> [] ->
  existsb (resolves (menu_items (committed w))) c = true ->
  add_clicked inp = None -> clear_clicked inp = false -> submitted inp = true ->
  exists (o : Order.t F) (lines : list (OrderItem.t F)) (w' : World F),
    page_order inp w = Ok tt w'
    /\ orders (committed w') = orders (committed w) ++ [o]
    /\ Order.status o = NEW
    /\ ~ In (Order.id o) (map Order.id (orders (committed w)))
    /\ order_items (committed w') = order_items (committed w) ++ lines
    /\ lines <> []
    /\ Forall (fun l => OrderItem.order_id l = Order.id o) lines
    /\ Order.total_price o = lines_total lines
    /\ menu_items (committed w') = menu_items (committed w)
    /\ cart (session w') = Some []
    /\ In (order_placed (Order.id o) (Order.total_price o)) (ui w').
Proof.
  intros Hfl Hcart Hc Hres Hadd Hclear Hsub.
  destruct w as [[crt adm] com pen fl clk rd out].
  cbn in Hfl, Hcart, Hres. subst fl crt.
  destruct (order_page_top_idle inp (Some c) adm com pen clk rd out Hadd Hclear)
    as [shown Etop].
  destruct com as [men ords its].
  destruct (place_order_ok inp c adm (mk_store F men ords its) men ords its None clk rd
              (out ++ shown) Hc I) as [fl' E].
  eexists _, (created_lines men (next_id (map Order.id ords)) c its), _.
  split.
  { unfold page_order. rewrite (bind_ok _ _ _ _ _ Etop), Hsub.
    rewrite (bind_ok _ _ _ _ _ E). reflexivity. }
  cbn -[In]. repeat split.
  - apply next_id_fresh.
  - now apply created_lines_nonempty.
  - apply created_lines_order_id.
  - unfold lines_total. apply accumulated_lines.
  - apply in_or_app. right. left. reflexivity.
Qed.

(** C3: submitting with an empty cart (or with none yet) writes nothing:
    the committed rows and the rows of the open transaction are the same
    rows, so no header and no line came into being; the session state is
    untouched; the only effect is the warning shown to the user.  No
    round trip is made, so a pending storage fault does not matter.  A
    whole run of the page with only the submit button pressed ends
    normally, with the warning shown and the committed rows as before. *)
Theorem empty_cart_rejected (inp : OrderPageInput) (w : World F) :
  cart_entries w = [] ->
  (exists w',
      place_order inp w = Ok tt w'
      /\ committed w' = committed w
      /\ pending w' = pending w
      /\ session w' = session w
      /\ faults w' = faults w
      /\ ui w' = ui w ++ [warn_cart_empty])
  /\ (faults w = None ->
      add_clicked inp = None -> clear_clicked inp = false -> submitted inp = true ->
      exists w',
        page_order inp w = Ok tt w'
        /\ committed w' = committed w
        /\ pending w' = committed w
        /\ cart_entries w' = []
        /\ In warn_cart_empty (ui w')).
Proof.
  intros H. split.
  - eexists. split; [now apply place_order_empty |]. repeat split.
  - intros Hfl Hadd Hclear Hsub.
    destruct w as [[crt adm] com pen fl clk rd out]. cbn in H, Hfl. subst fl.
    destruct (order_page_top_idle inp crt adm com pen clk rd out Hadd Hclear)
      as [shown Etop].
    eexists. split.
    { unfold page_order. rewrite (bind_ok _ _ _ _ _ Etop), Hsub.
      erewrite bind_ok; [reflexivity |].
      apply place_order_empty. cbn. destruct crt; [exact H | reflexivity]. }
    cbn -[In]. repeat split.
    + destruct crt; [exact H | reflexivity].
    + apply in_or_app. right. left. reflexivity.
Qed.

End Page.

(** The scenario of the spec, in exact arithmetic: EntryA at 10 twice and
    EntryB at 5 once. *)
Lemma submit_creates_order_witness :
  exists (o : Order.t Q) (lines : list (OrderItem.t Q)) (w' : World Q),
    page_order sample_form (sample_world [(1, 2); (2, 1)] None) = Ok tt w'
    /\ orders (committed w') = [o]
    /\ Order.total_price o = 25%Q
    /\ map OrderItem.quantity lines = [2; 1]
    /\ order_items (committed w') = lines
    /\ cart (session w') = Some [].
Proof.
  destruct (submit_creates_order (A := exact) sample_form
              (sample_world [(1, 2); (2, 1)] None) [(1, 2); (2, 1)])
    as (o & lines & w' & E & Ho & _ & _ & Hl & _ & _ & Ht & _ & Hc & _);
    try reflexivity; try discriminate.
  pose proof E as E'. vm_compute in E'. injection E' as <-.
  exists o, lines. eexists. split; [exact E |].
  cbn in Ho, Hl, Hc |- *.
  injection Ho as <-. subst lines.
  repeat split.
Defined.

End SubmitFacts.

(* ------------------------------------------------------------------ *)
(** ** The admin listing *)

Module ListingFacts.

Lemma lex_leb_refl a : DT.lex_leb a a = true.
Proof.
  induction a as [| x a IH]; simpl; [reflexivity |].
  rewrite Z.eqb_refl, IH. now rewrite orb_true_r.
Qed.



Section Listing.
Context {F : Type}.


Lemma insert_desc_perm (o : Order.t F) l : Permutation (insert_desc o l) (o :: l).
Proof.
  induction l as [| x l IH]; simpl; [reflexivity |].
  destruct (DT.leb (Order.created_at x) (Order.created_at o)); [reflexivity |].
  rewrite IH. apply perm_swap.
Qed.


Lemma order_by_perm (l : list (Order.t F)) : Permutation (order_by_created_desc l) l.
Proof.
  induction l as [| o l IH]; simpl; [reflexivity |].
  rewrite insert_desc_perm. now constructor.
Qed.


Lemma perm_in_iff {X : Type} (x : X) (l1 l2 : list X) :
  Permutation l1 l2 -> (In x l1 <-> In x l2).
Proof.
  intros H. split; apply Permutation_in; [exact H | now apply Permutation_sym].
Qed.

Lemma all_statuses_match (s : Status) : existsb (status_eqb s) statuses = true.
Proof. destruct s; reflexivity. Qed.

Lemma listed_parts inp (o : Order.t F) :
  listed inp o = in_range inp o && status_ok inp o && keyword_ok inp o.
Proof. reflexivity. Qed.

Lemma query_listing_ok inp (w : World F) :
  faults w = None ->
  query_listing inp w
  = Ok (listing inp (orders (committed w)))
      (set_reads (set_pending w (committed w)) (S (S (reads w)))).
Proof.
  intros Hfl. unfold query_listing, bind, get_db, now, query_orders, round_trip, rows, ret, bind.
  cbn. rewrite Hfl. reflexivity.
Qed.


(** C6: the claim does not hold of the code.  The upper bound of the
    date filter is [d_to] 23:59:59 with no fraction of a second, while
    creation times carry microseconds: an order placed on the first of
    May at 23:59:59.999999 is within that day, yet the listing for the
    first of May leaves it out, and so does the listing for the second;
    only a range over both days shows it.  The page, run for the first
    of May on a store holding just this order, reports that there are no
    orders. *)
Lemma last_second_order_unlisted :
  Order.created_at (late_order (F := float)) = mk_datetime 2024 5 1 23 59 59 999999
  /\ DT.leb (DT.day_start (mk_date 2024 5 1)) (Order.created_at (late_order (F := float))) = true
  /\ DT.leb (Order.created_at (late_order (F := float))) (DT.day_start (mk_date 2024 5 2)) = true
  /\ listing first_of_may [late_order (F := float)] = []
  /\ listing second_of_may [late_order (F := float)] = []
  /\ listing both_days [late_order (F := float)] = [late_order]
  /\ page_orders_admin first_of_may (late_world (F := float))
     = Ok tt (set_reads (set_ui late_world [info_no_orders]) 2).
Proof. repeat split. Qed.

(** C10: with nothing selected in the status control the listing applies
    no status filter.  It holds exactly the stored orders that pass the
    date range and the keyword, whatever their status, each of the five
    statuses included; it is the listing one gets with all five statuses
    selected. *)
Theorem empty_status_selection_shows_all (inp : OrdersAdminInput) (l : list (Order.t F)) :
  status_sel inp = [] ->
  (forall o, In o (listing inp l)
             <-> In o l /\ in_range inp o = true /\ keyword_ok inp o = true)
  /\ Forall
       (fun s =>
          forall o, In o l -> Order.status o = s ->
                    in_range inp o = true -> keyword_ok inp o = true ->
                    In o (listing inp l))
       statuses
  /\ listing inp l
     = listing (mk_orders_input statuses (d_from inp) (d_to inp) (keyword inp)
                  (selected_order inp) (new_status inp) (save_clicked inp)
                  (delete_clicked inp)) l.
Proof.
  intros Hsel.
  assert (Hin : forall o, In o (listing inp l)
                          <-> In o l /\ in_range inp o = true /\ keyword_ok inp o = true).
  { intros o. unfold listing. rewrite (perm_in_iff o _ _ (order_by_perm _)).
    rewrite filter_In, listed_parts. unfold status_ok. rewrite Hsel.
    rewrite andb_true_r, andb_true_iff. tauto. }
  split; [exact Hin | split].
  - repeat constructor; intros o Ho _ Hr Hk; apply Hin; auto.
  - unfold listing. f_equal. apply filter_ext. intros o.
    rewrite !listed_parts.
    unfold status_ok, in_range, keyword_ok. cbn [status_sel d_from d_to keyword].
    rewrite Hsel. destruct (Order.status o); reflexivity.
Qed.

End Listing.

End ListingFacts.

(* ------------------------------------------------------------------ *)
(** ** Deleting a catalog entry *)

Module MenuFacts.

Section Deletion.
Context {F : Type} {A : Amount F}.

Lemma find_menu_item_some (l : list (MenuItem.t F)) k :
  In k (map MenuItem.id l) ->
  exists m, find_menu_item l k = Some m /\ MenuItem.id m = k.
Proof.
  induction l as [| x l IH]; simpl; [tauto |].
  destruct (MenuItem.id x =? k) eqn:E.
  - intros _. apply Z.eqb_eq in E. eauto.
  - intros [H | H]; [apply Z.eqb_neq in E; congruence | auto].
Qed.

Lemma selectbox_in options choice first :
  In first options -> In (selectbox options choice first) options.
Proof.
  intros Hf. unfold selectbox. destruct choice as [k |]; [| exact Hf].
  destruct (existsb (Z.eqb k) options) eqn:E; [| exact Hf].
  apply existsb_exists in E. destruct E as (x & Hx & Ex).
  apply Z.eqb_eq in Ex. now subst.
Qed.

Lemma detach_same_line mid (it : OrderItem.t F) : same_line_but_ref mid it (detach mid it).
Proof.
  unfold same_line_but_ref, detach.
  destruct (OrderItem.item_id it) as [k |] eqn:E; [| rewrite E; auto 10].
  destruct (k =? mid) eqn:Ek; [| rewrite E; auto 10].
  apply Z.eqb_eq in Ek. subst k. cbn. auto 10.
Qed.

Lemma detach_all mid (l : list (OrderItem.t F)) :
  Forall2 (same_line_but_ref mid) l (map (detach mid) l).
Proof.
  induction l as [| it l IH]; simpl; constructor; [apply detach_same_line | exact IH].
Qed.

Lemma filter_out_id mid (l : list (MenuItem.t F)) :
  ~ In mid (map MenuItem.id (filter (fun m => negb (MenuItem.id m =? mid)) l)).
Proof.
  rewrite in_map_iff. intros (m & Hid & Hin). apply filter_In in Hin.
  destruct Hin as [_ Hne]. apply negb_true_iff, Z.eqb_neq in Hne. congruence.
Qed.

(** C9: pressing the delete button of the menu page removes the selected
    catalog row and commits.  The orders are untouched, and the stored
    lines are, one for one and in the same sequence, the lines that were
    there: each keeps its key, its order, its captured name, unit price
    and quantity; only the reference of a line that pointed to the
    deleted row is cleared. *)
Theorem delete_menu_item_keeps_lines (inp : MenuAdminInput F) (w : World F) :
  faults w = None ->
  add_ok inp = false -> save_ok inp = false -> del_ok inp = true ->
  menu_items (committed w) <> [] ->
  exists (w' : World F),
    let mid := selected_id inp (menu_items (committed w)) in
    page_menu_admin inp w = Raised RerunException w'
    /\ In mid (map MenuItem.id (menu_items (committed w)))
    /\ ~ In mid (map MenuItem.id (menu_items (committed w')))
    /\ orders (committed w') = orders (committed w)
    /\ order_items (committed w') = map (detach mid) (order_items (committed w))
    /\ List.length (order_items (committed w')) = List.length (order_items (committed w))
    /\ Forall2 (same_line_but_ref mid) (order_items (committed w)) (order_items (committed w')).
Proof.
  intros Hfl Hadd Hsave Hdel Hmenu.
  destruct w as [ses [men ords its] pen fl clk rd out].
  cbn in Hfl, Hmenu. subst fl.
  destruct men as [| first rest]; [congruence |].
  set (menu := first :: rest).
  set (mid := selectbox (map MenuItem.id menu) (selected_item inp) (MenuItem.id first)).
  assert (Hin : In mid (map MenuItem.id menu)).
  { apply selectbox_in. left. reflexivity. }
  destruct (find_menu_item_some menu mid Hin) as (m & Hfind & Hm).
  eexists. cbn zeta.
  split.
  - unfold page_menu_admin, bind, get_db, query_menu_items, round_trip, rows, show, ret, bind.
    rewrite Hadd, Hsave, Hdel.
    unfold set_session, set_committed, set_pending, set_faults, set_reads, set_ui.
    cbn -[selectbox find_menu_item detach].
    fold menu. change (MenuItem.id first :: map MenuItem.id rest) with (map MenuItem.id menu).
    fold mid. rewrite Hfind. rewrite Hm.
    unfold delete_menu_item, db_commit, round_trip, st_rerun, raise, bind, rows, write, show.
    cbn -[selectbox find_menu_item detach].
    reflexivity.
  - cbn -[selectbox detach]. fold menu.
    change (MenuItem.id first :: map MenuItem.id rest) with (map MenuItem.id menu).
    fold mid.
    split; [exact Hin |].
    split; [exact (filter_out_id mid menu) |].
    split; [reflexivity |].
    split; [reflexivity |].
    split; [apply length_map | exact (detach_all mid its)].
Qed.

End Deletion.

End MenuFacts.

(* ------------------------------------------------------------------ *)
(** ** The statements at sample inputs *)

Module Witnesses.

Import SubmitFacts ListingFacts MenuFacts AdminFacts.

Example rstrip_slashes : Str.rstrip "/" "https://x.test//" = "https://x.test".
Proof. reflexivity. Qed.

Example strip_spaces : Str.strip "  A 3 " = "A 3".
Proof. reflexivity. Qed.

Example of_int_12 : Str.of_int 12 = "12".
Proof. reflexivity. Qed.

Example ilike_table : Str.ilike_contains "Table A3" "a3" = true.
Proof. reflexivity. Qed.

Example cart_set_replaces : CartOps.set [(1, 2); (2, 1)] 1 5 = [(1, 5); (2, 1)].
Proof. reflexivity. Qed.

(** The spec's scenario in binary64: 10.0 * 2 + 5.0 * 1 is 25.0. *)
Example scenario_in_binary64 :
  exists w' : World float,
    place_order sample_form (sample_world [(1, 2); (2, 1)] None) = Ok tt w'
    /\ map Order.total_price (orders (committed w')) = [amt_of_int 25]
    /\ map OrderItem.quantity (order_items (committed w')) = [2; 1].
Proof. eexists. split; [vm_compute; reflexivity | split; reflexivity]. Qed.

(** The commit of the scenario's submission fails (the flush and the two
    queries went through): the store is as it was. *)
Lemma submission_is_atomic_witness :
  exists w' : World Q,
    place_order sample_form (sample_world [(1, 2); (2, 1)] (Some 3%nat))
    = Raised StorageError w'
    /\ committed w' = sample_store.
Proof.
  destruct (submission_is_atomic (A := exact) sample_form
              (sample_world [(1, 2); (2, 1)] (Some 3%nat)))
    as (_ & Hraise & _).
  destruct (Hraise 3%nat) as (w' & E & Hc);
    [discriminate | reflexivity | simpl; lia |].
  exists w'. split; [exact E | exact Hc].
Defined.

(** An empty cart, and a storage fault waiting: the submission warns and
    touches nothing. *)
Lemma empty_cart_rejected_witness :
  exists w' : World Q,
    place_order sample_form (sample_world [] (Some 0%nat)) = Ok tt w'
    /\ committed w' = sample_store
    /\ orders (pending w') = []
    /\ ui w' = [warn_cart_empty].
Proof.
  destruct (empty_cart_rejected (A := exact) sample_form (sample_world [] (Some 0%nat)))
    as ((w' & E & Hc & Hp & _ & _ & Hu) & _); [reflexivity |].
  exists w'. rewrite Hp. auto.
Defined.

(** A cart with EntryA twice and an entry 9 that is no catalog row: one
    line, total 20. *)
Lemma dangling_entry_skipped_witness :
  exists (w' : World Q) (o : Order.t Q),
    place_order sample_form (sample_world [(1, 2); (9, 4)] None) = Ok tt w'
    /\ orders (committed w') = [o]
    /\ map OrderItem.item_id (order_items (committed w')) = [Some 1]
    /\ Order.total_price o = 20%Q.
Proof.
  destruct (dangling_entry_skipped (A := exact) sample_form
              (sample_world [(1, 2); (9, 4)] None) [(1, 2)] [] 9 4)
    as (w' & o & lines & E & Ho & Hl & _); try reflexivity.
  pose proof E as E'. vm_compute in E'. injection E' as <-.
  eexists. exists o. cbn in Ho. injection Ho as <-.
  split; [exact E |]. repeat split.
Defined.


(** Nothing selected in the status control: the orders of the day show,
    the SERVED one and the NEW one alike. *)
Lemma empty_status_selection_witness :
  map Order.status (listing first_of_may (sample_orders (F := Q))) = [SERVED; NEW]
  /\ forall o : Order.t Q,
       In o (listing first_of_may sample_orders)
       <-> In o sample_orders /\ in_range first_of_may o = true
           /\ keyword_ok first_of_may o = true.
Proof.
  destruct (empty_status_selection_shows_all first_of_may (sample_orders (F := Q)) eq_refl)
    as (Hin & _ & _).
  split; [reflexivity | exact Hin].
Defined.

(** EntryA is deleted: both lines of the stored order are still there,
    the first with its name and price and without its reference. *)
Lemma delete_menu_item_witness :
  exists w' : World Q,
    page_menu_admin delete_entry_a history_world = Raised RerunException w'
    /\ map MenuItem.id (menu_items (committed w')) = [2; 3]
    /\ order_items (committed w')
       = [ OrderItem.mk Q 1 1 None "EntryA" 10%Q 2;
           OrderItem.mk Q 2 1 (Some 2) "EntryB" 5%Q 1 ].
Proof.
  destruct (delete_menu_item_keeps_lines (A := exact) delete_entry_a history_world)
    as (w' & E & _ & _ & _ & Hl & _); try reflexivity; try discriminate.
  pose proof E as E'. vm_compute in E'. injection E' as <-.
  eexists. split; [exact E |]. split; reflexivity.
Defined.

(** A session logs in on the listing page and then walks through the
    four pages without touching the login button: the flag stays. *)
Lemma admin_gate_witness :
  _admin_ok
    (session
       (run_session "changeme"
          [idle_request PageOrder; idle_request PageQr;
           idle_request PageMenuAdmin; idle_request PageOrdersAdmin]
          (history_world (F := Q))))
  = Some true.
Proof.
  destruct (admin_gate (F := Q) "changeme") as (_ & _ & _ & Hkeep).
  apply Hkeep; [repeat constructor | reflexivity].
Defined.

End Witnesses.

(* ------------------------------------------------------------------ *)
(** ** A program logic for handlers *)

Module Logic.

Section Rules.
Context {F : Type}.

Lemma hoare_ret {X : Type} (P : World F -> Prop) (x : X) Q E :
  (forall w, P w -> Q x w) -> hoare P (ret x) Q E.
Proof. intros H w Hw. now apply H. Qed.

Lemma hoare_raise {X : Type} (P : World F -> Prop) e (Q : X -> World F -> Prop) (E : World F -> Prop) :
  (forall w, P w -> E w) -> hoare P (raise e) Q E.
Proof. intros H w Hw. now apply H. Qed.

Lemma hoare_bind {X Y : Type} (P : World F -> Prop) (m : M F X) (k : X -> M F Y)
    (Q : X -> World F -> Prop) (R : Y -> World F -> Prop) (E : World F -> Prop) :
  hoare P m Q E -> (forall x, hoare (Q x) (k x) R E) -> hoare P (bind m k) R E.
Proof.
  intros Hm Hk w Hw. unfold bind. specialize (Hm w Hw).
  destruct (m w) as [x w' | e w']; [now apply Hk | exact Hm].
Qed.

Lemma hoare_conseq {X : Type} (P P' : World F -> Prop) (m : M F X)
    (Q Q' : X -> World F -> Prop) (E E' : World F -> Prop) :
  hoare P' m Q' E' ->
  (forall w, P w -> P' w) -> (forall x w, Q' x w -> Q x w) -> (forall w, E' w -> E w) ->
  hoare P m Q E.
Proof.
  intros H HP HQ HE w Hw. specialize (H w (HP w Hw)).
  destruct (m w); auto.
Qed.

(** A state change that cannot fail. *)
Lemma hoare_step {X : Type} (P : World F -> Prop) (val : World F -> X)
    (upd : World F -> World F) Q E :
  (forall w, P w -> Q (val w) (upd w)) ->
  hoare P (fun w => Ok (val w) (upd w)) Q E.
Proof. intros H w Hw. now apply H. Qed.

Lemma preserves_bind {X Y : Type} (P : World F -> Prop) (m : M F X) (k : X -> M F Y) :
  preserves P m -> (forall x, preserves P (k x)) -> preserves P (bind m k).
Proof. intros Hm Hk. eapply hoare_bind; [exact Hm | exact Hk]. Qed.

Lemma preserves_for_each {X Y : Type} (P : World F -> Prop) (l : list X)
    (body : Y -> X -> M F Y) (acc : Y) :
  (forall y x, preserves P (body y x)) -> preserves P (for_each l body acc).
Proof.
  intros Hb. revert acc. induction l as [| x l IH]; intros acc; simpl.
  - now apply hoare_ret.
  - apply preserves_bind; [apply Hb | intros; apply IH].
Qed.

Lemma preserves_try_except (P : World F -> Prop) (body handler : M F unit) :
  preserves P body -> preserves P handler -> preserves P (try_except body handler).
Proof.
  intros Hb Hh w Hw. unfold try_except. specialize (Hb w Hw).
  destruct (body w) as [x w' | [|] w']; try exact Hb. now apply Hh.
Qed.

Lemma preserves_try_finally {X : Type} (P : World F -> Prop) (body : M F X) (final : M F unit) :
  preserves P body -> preserves P final -> preserves P (try_finally body final).
Proof.
  intros Hb Hf w Hw. unfold try_finally. specialize (Hb w Hw).
  destruct (body w) as [x w' | e w']; specialize (Hf w' Hb); destruct (final w'); exact Hf.
Qed.

(** The primitives that only show, read the clock or talk to the store
    without writing. *)
Lemma preserves_show (P : World F -> Prop) o : stable P -> preserves P (show o).
Proof. intros (Hui & _ & _) w Hw. now apply Hui. Qed.

Lemma preserves_now (P : World F -> Prop) : stable P -> preserves P now.
Proof. intros (_ & Hrd & _) w Hw. now apply Hrd. Qed.

Lemma preserves_round_trip (P : World F -> Prop) : stable P -> preserves P round_trip.
Proof.
  intros (_ & _ & Hfl) w Hw. unfold round_trip.
  destruct (faults w) as [[| n] |]; auto.
Qed.

Lemma preserves_rerun {X : Type} (P : World F -> Prop) : preserves P (st_rerun (A := X)).
Proof. intros w Hw. exact Hw. Qed.

Lemma preserves_ret {X : Type} (P : World F -> Prop) (x : X) : preserves P (ret x).
Proof. intros w Hw. exact Hw. Qed.

Lemma preserves_get_cart (P : World F -> Prop) : preserves P get_cart.
Proof. intros w Hw. exact Hw. Qed.

Lemma preserves_rows (P : World F -> Prop) : preserves P rows.
Proof. intros w Hw. exact Hw. Qed.

Lemma preserves_query_menu_item (P : World F -> Prop) mid :
  stable P -> preserves P (query_menu_item mid).
Proof.
  intros HP. unfold query_menu_item.
  apply preserves_bind; [now apply preserves_round_trip | intros _].
  apply preserves_bind; [apply preserves_rows | intros s; apply preserves_ret].
Qed.

Lemma preserves_query_menu_items (P : World F -> Prop) :
  stable P -> preserves P query_menu_items.
Proof.
  intros HP. unfold query_menu_items.
  apply preserves_bind; [now apply preserves_round_trip | intros _].
  apply preserves_bind; [apply preserves_rows | intros s; apply preserves_ret].
Qed.

Lemma preserves_query_orders (P : World F -> Prop) :
  stable P -> preserves P query_orders.
Proof.
  intros HP. unfold query_orders.
  apply preserves_bind; [now apply preserves_round_trip | intros _].
  apply preserves_bind; [apply preserves_rows | intros s; apply preserves_ret].
Qed.

Lemma preserves_query_order_items (P : World F -> Prop) oid :
  stable P -> preserves P (query_order_items oid).
Proof.
  intros HP. unfold query_order_items.
  apply preserves_bind; [now apply preserves_round_trip | intros _].
  apply preserves_bind; [apply preserves_rows | intros s; apply preserves_ret].
Qed.

End Rules.

End Logic.

(* ------------------------------------------------------------------ *)
(** ** Referential integrity of the store *)

Module IntegrityFacts.

Import Logic.

Lemma nodup_snoc {X : Type} (l : list X) (x : X) :
  NoDup l -> ~ In x l -> NoDup (l ++ [x]).
Proof.
  induction 1 as [| y l Hy Hl IH]; intros Hx; simpl.
  - repeat constructor. auto.
  - constructor.
    + rewrite in_app_iff. simpl. intros [H | [H | []]]; [auto | subst; apply Hx; now left].
    + apply IH. intros H. apply Hx. now right.
Qed.

Lemma nodup_map_filter {X Y : Type} (f : X -> Y) (p : X -> bool) (l : list X) :
  NoDup (map f l) -> NoDup (map f (filter p l)).
Proof.
  induction l as [| x l IH]; simpl; [auto |].
  intros H. inversion H as [| ? ? Hx Hl]; subst.
  destruct (p x); simpl; [| auto].
  constructor; [| auto].
  intros Hin. apply Hx. apply in_map_iff in Hin. destruct Hin as (y & Hy & Hin).
  apply filter_In in Hin. rewrite <- Hy. apply in_map. tauto.
Qed.

Create HintDb integrity.

Section Stores.
Context {F : Type}.

Lemma store_ok_empty : store_ok (mk_store F [] [] []).
Proof. repeat split; constructor. Qed.

(** A new catalog row under a fresh key. *)
Lemma store_ok_add_menu (s : Store F) (m : MenuItem.t F) :
  store_ok s ->
  MenuItem.id m = next_id (map MenuItem.id (menu_items s)) ->
  store_ok (mk_store F (menu_items s ++ [m]) (orders s) (order_items s)).
Proof.
  intros (Hm & Ho & Hi & Hl & Hr) Hid. repeat split; cbn; auto.
  - rewrite map_app. cbn. apply nodup_snoc; [exact Hm |].
    rewrite Hid. apply SubmitFacts.next_id_fresh.
  - eapply Forall_impl; [| exact Hr]. intros l. unfold ref_ok.
    destruct (OrderItem.item_id l); [| auto].
    rewrite map_app, in_app_iff. auto.
Qed.

(** Catalog rows rewritten in place, keys kept. *)
Lemma store_ok_update_menu (s : Store F) (g : MenuItem.t F -> MenuItem.t F) :
  store_ok s ->
  (forall m, MenuItem.id (g m) = MenuItem.id m) ->
  store_ok (mk_store F (map g (menu_items s)) (orders s) (order_items s)).
Proof.
  intros (Hm & Ho & Hi & Hl & Hr) Hg.
  assert (Hids : map MenuItem.id (map g (menu_items s)) = map MenuItem.id (menu_items s)).
  { rewrite map_map. apply map_ext. exact Hg. }
  repeat split; cbn; auto.
  - now rewrite Hids.
  - eapply Forall_impl; [| exact Hr]. intros l. unfold ref_ok. now rewrite Hids.
Qed.

(** A catalog row deleted, the lines that pointed to it detached. *)
Lemma store_ok_delete_menu (s : Store F) (mid : Z) :
  store_ok s ->
  store_ok (mk_store F (filter (fun m => negb (MenuItem.id m =? mid)) (menu_items s))
              (orders s) (map (detach mid) (order_items s))).
Proof.
  intros (Hm & Ho & Hi & Hl & Hr). repeat split; cbn; auto.
  - now apply nodup_map_filter.
  - rewrite map_map.
    replace (map (fun x => OrderItem.id (detach mid x)) (order_items s))
      with (map OrderItem.id (order_items s)); [exact Hi |].
    apply map_ext. intros l. unfold detach.
    destruct (OrderItem.item_id l) as [k |]; [destruct (k =? mid) |]; reflexivity.
  - rewrite Forall_map. eapply Forall_impl; [| exact Hl]. intros l. unfold detach.
    destruct (OrderItem.item_id l) as [k |]; [destruct (k =? mid) |]; auto.
  - rewrite Forall_map. eapply Forall_impl; [| exact Hr]. intros l. unfold ref_ok, detach.
    destruct (OrderItem.item_id l) as [k |] eqn:E; [| now rewrite E].
    destruct (k =? mid) eqn:Ek; cbn; [exact (fun _ => I) |].
    rewrite E. intros Hin. apply in_map_iff in Hin. destruct Hin as (m & Hid & Hin).
    apply in_map_iff. exists m. split; [exact Hid |]. apply filter_In. split; [exact Hin |].
    rewrite Hid. now rewrite Ek.
Qed.

(** A new header under a fresh key. *)
Lemma store_ok_add_order (s : Store F) (o : Order.t F) :
  store_ok s ->
  Order.id o = next_id (map Order.id (orders s)) ->
  store_ok (mk_store F (menu_items s) (orders s ++ [o]) (order_items s)).
Proof.
  intros (Hm & Ho & Hi & Hl & Hr) Hid. repeat split; cbn; auto.
  - rewrite map_app. cbn. apply nodup_snoc; [exact Ho |].
    rewrite Hid. apply SubmitFacts.next_id_fresh.
  - eapply Forall_impl; [| exact Hl]. intros l. rewrite map_app, in_app_iff. auto.
Qed.

(** Headers rewritten in place, keys kept. *)
Lemma store_ok_update_orders (s : Store F) (g : Order.t F -> Order.t F) :
  store_ok s ->
  (forall o, Order.id (g o) = Order.id o) ->
  store_ok (mk_store F (menu_items s) (map g (orders s)) (order_items s)).
Proof.
  intros (Hm & Ho & Hi & Hl & Hr) Hg.
  assert (Hids : map Order.id (map g (orders s)) = map Order.id (orders s)).
  { rewrite map_map. apply map_ext. exact Hg. }
  repeat split; cbn; auto.
  - now rewrite Hids.
  - eapply Forall_impl; [| exact Hl]. intros l. now rewrite Hids.
Qed.

(** A header deleted together with its lines. *)
Lemma store_ok_delete_order (s : Store F) (oid : Z) :
  store_ok s ->
  store_ok (mk_store F (menu_items s)
              (filter (fun o => negb (Order.id o =? oid)) (orders s))
              (filter (fun it => negb (OrderItem.order_id it =? oid)) (order_items s))).
Proof.
  intros (Hm & Ho & Hi & Hl & Hr). repeat split; cbn; auto.
  - now apply nodup_map_filter.
  - now apply nodup_map_filter.
  - rewrite Forall_forall in *. intros l Hin. apply filter_In in Hin.
    destruct Hin as [Hin Hne]. specialize (Hl l Hin).
    apply in_map_iff in Hl. destruct Hl as (o & Hid & Ho').
    apply in_map_iff. exists o. split; [exact Hid |].
    apply filter_In. split; [exact Ho' |]. now rewrite Hid.
  - rewrite Forall_forall in *. intros l Hin. apply filter_In in Hin. now apply Hr.
Qed.

(** A new line under a fresh key, for a stored order and a stored
    catalog row. *)
Lemma store_ok_add_item (s : Store F) (l : OrderItem.t F) :
  store_ok s ->
  OrderItem.id l = next_id (map OrderItem.id (order_items s)) ->
  In (OrderItem.order_id l) (map Order.id (orders s)) ->
  ref_ok (menu_items s) l ->
  store_ok (mk_store F (menu_items s) (orders s) (order_items s ++ [l])).
Proof.
  intros (Hm & Ho & Hi & Hl & Hr) Hid Hord Href. repeat split; cbn; auto.
  - rewrite map_app. cbn. apply nodup_snoc; [exact Hi |].
    rewrite Hid. apply SubmitFacts.next_id_fresh.
  - apply Forall_app. split; [exact Hl | now constructor].
  - apply Forall_app. split; [exact Hr | now constructor].
Qed.

Lemma world_ok_stable : stable (world_ok (F := F)).
Proof. split; [| split]; intros w x H; exact H. Qed.

Lemma world_ok_session (w : World F) ses : world_ok w -> world_ok (set_session w ses).
Proof. intros H. exact H. Qed.

Lemma preserves_get_db : preserves (world_ok (F := F)) get_db.
Proof. intros w [Hc Hp]. split; exact Hc. Qed.

Lemma preserves_db_close : preserves (world_ok (F := F)) db_close.
Proof. intros w [Hc Hp]. split; exact Hc. Qed.

Lemma preserves_db_commit : preserves (world_ok (F := F)) db_commit.
Proof.
  unfold db_commit. apply preserves_bind.
  - apply preserves_round_trip, world_ok_stable.
  - intros _ w [Hc Hp]. split; exact Hp.
Qed.

Lemma preserves_ensure_cart : preserves (world_ok (F := F)) ensure_cart.
Proof. intros w H. unfold ensure_cart. destruct (cart (session w)); exact H. Qed.

Lemma preserves_cart_assign mid qty : preserves (world_ok (F := F)) (cart_assign mid qty).
Proof. intros w H. exact H. Qed.

Lemma preserves_reset_cart : preserves (world_ok (F := F)) reset_cart.
Proof. intros w H. exact H. Qed.

Lemma preserves_set_admin_ok v : preserves (world_ok (F := F)) (set_admin_ok v).
Proof. intros w H. exact H. Qed.

Lemma preserves_get_admin_ok : preserves (world_ok (F := F)) get_admin_ok.
Proof. intros w H. exact H. Qed.

Lemma preserves_add_menu_item (mk_row : Z -> MenuItem.t F) :
  (forall i, MenuItem.id (mk_row i) = i) ->
  preserves (world_ok (F := F)) (add_menu_item mk_row).
Proof.
  intros Hid w [Hc Hp]. split; [exact Hc |]. cbn.
  apply store_ok_add_menu; [exact Hp | apply Hid].
Qed.

Lemma preserves_update_menu_item mid (g : MenuItem.t F -> MenuItem.t F) :
  (forall m, MenuItem.id (g m) = MenuItem.id m) ->
  preserves (world_ok (F := F)) (update_menu_item mid g).
Proof.
  intros Hg w [Hc Hp]. split; [exact Hc |]. cbn.
  apply (store_ok_update_menu (pending w)
           (fun m => if MenuItem.id m =? mid then g m else m)); [exact Hp |].
  intros m. destruct (MenuItem.id m =? mid); auto.
Qed.

Lemma preserves_delete_menu_item mid : preserves (world_ok (F := F)) (delete_menu_item mid).
Proof.
  intros w [Hc Hp]. split; [exact Hc |]. cbn. now apply store_ok_delete_menu.
Qed.

Lemma preserves_update_order oid (g : Order.t F -> Order.t F) :
  (forall o, Order.id (g o) = Order.id o) ->
  preserves (world_ok (F := F)) (update_order oid g).
Proof.
  intros Hg w [Hc Hp]. split; [exact Hc |]. cbn.
  apply (store_ok_update_orders (pending w)
           (fun o => if Order.id o =? oid then g o else o)); [exact Hp |].
  intros o. destruct (Order.id o =? oid); auto.
Qed.

Lemma preserves_delete_order oid : preserves (world_ok (F := F)) (delete_order oid).
Proof.
  intros w [Hc Hp]. split; [exact Hc |]. cbn. now apply store_ok_delete_order.
Qed.

End Stores.

#[export] Hint Resolve world_ok_stable preserves_show preserves_now preserves_round_trip
  preserves_rerun preserves_ret preserves_get_cart preserves_rows
  preserves_query_menu_item preserves_query_menu_items preserves_query_orders
  preserves_query_order_items preserves_get_db preserves_db_close preserves_db_commit
  preserves_ensure_cart preserves_cart_assign preserves_reset_cart
  preserves_set_admin_ok preserves_get_admin_ok preserves_delete_menu_item
  preserves_delete_order : integrity.

(** Walks a handler's text for [world_ok]: sequencing, loops, branches;
    a write under a key-keeping function is closed by computation. *)
Ltac integrity :=
  repeat first
    [ progress intros
    | solve [auto with integrity]
    | apply preserves_add_menu_item; intros; reflexivity
    | apply preserves_update_menu_item; intros; reflexivity
    | apply preserves_update_order; intros; reflexivity
    | apply preserves_for_each
    | apply preserves_try_except
    | apply preserves_try_finally
    | apply preserves_bind
    | match goal with
      | |- preserves _ (let '(_, _) := ?p in _) => destruct p
      | |- preserves _ (if ?b then _ else _) => destruct b
      | |- preserves _ (match ?x with _ => _ end) => destruct x
      end
    | progress cbv zeta ].

Section Handlers.
Context {F : Type} {A : Amount F}.

(** The flushed header is a row of the transaction. *)
Lemma add_order_flush_ok inp t1 t2 :
  hoare (world_ok (F := F)) (add_order_flush (new_order inp t1 t2))
    (fun o w => world_ok w /\ In (Order.id o) (map Order.id (orders (pending w))))
    world_ok.
Proof.
  intros w [Hc Hp]. unfold add_order_flush, bind, round_trip, rows, write, ret.
  destruct (faults w) as [[| n] |]; cbn; try (split; assumption).
  - split; [split; [exact Hc | now apply store_ok_add_order] |].
    rewrite map_app, in_app_iff. right. left. reflexivity.
  - split; [split; [exact Hc | now apply store_ok_add_order] |].
    rewrite map_app, in_app_iff. right. left. reflexivity.
Qed.

(** One pass of the submission loop keeps the store integral: the line
    it adds belongs to the flushed header and points to the row found. *)
Lemma line_step_world_ok (order : Order.t F) total entry :
  preserves (fun w : World F =>
               world_ok w /\ In (Order.id order) (map Order.id (orders (pending w))))
    (line_step order total entry).
Proof.
  destruct entry as [mid qty]. intros w [[Hc Hp] Ho].
  unfold line_step, query_menu_item, add_order_item, bind, round_trip, rows, write, ret.
  assert (Hadd : forall it,
             find_menu_item (menu_items (pending w)) mid = Some it ->
             store_ok
               (mk_store F (menu_items (pending w)) (orders (pending w))
                  (order_items (pending w)
                   ++ [OrderItem.mk F (next_id (map OrderItem.id (order_items (pending w))))
                         (Order.id order) (Some (MenuItem.id it)) (MenuItem.name it)
                         (MenuItem.price it) qty]))).
  { intros it Hit.
    apply store_ok_add_item; [exact Hp | reflexivity | exact Ho |].
    unfold ref_ok. cbn.
    destruct (SubmitFacts.find_menu_item_id _ _ _ Hit) as [_ Hin]. now apply in_map. }
  destruct (faults w) as [[| n] |] eqn:Hfl; cbn -[next_id];
    try exact (conj (conj Hc Hp) Ho);
    (destruct (find_menu_item (menu_items (pending w)) mid) as [it |] eqn:Hit;
     cbn -[next_id]; [| exact (conj (conj Hc Hp) Ho)]);
    (split; [split; [exact Hc | now apply Hadd] | exact Ho]).
Qed.

Lemma place_order_world_ok inp : preserves (world_ok (F := F)) (place_order inp).
Proof.
  unfold place_order.
  apply preserves_bind; [auto with integrity | intros c].
  destruct c as [| e c']; [auto with integrity |].
  apply preserves_bind; [auto with integrity | intros t1].
  apply preserves_bind; [auto with integrity | intros t2].
  eapply hoare_bind; [apply add_order_flush_ok | intros order].
  eapply hoare_bind
    with (Q := fun _ w => world_ok w /\ In (Order.id order) (map Order.id (orders (pending w)))).
  { eapply hoare_conseq;
      [apply (preserves_for_each _ (e :: c') (line_step order) amt_zero);
       intros; apply line_step_world_ok
      | auto | cbn; auto | cbn; tauto ]. }
  intros total.
  assert (Hrest : preserves (world_ok (F := F))
                    (t_final <- now ;;
                     update_order (Order.id order) (with_total total t_final) ;;
                     db_commit ;; reset_cart ;;
                     show (order_placed (Order.id order) total))%handler)
    by integrity.
  eapply hoare_conseq; [exact Hrest | tauto | auto | auto].
Qed.

Lemma page_order_world_ok inp : preserves (world_ok (F := F)) (page_order inp).
Proof.
  pose proof place_order_world_ok.
  unfold page_order, order_page_top, cart_section, cart_total, cart_total_step,
    cart_row_step, item_card.
  integrity.
Qed.

Lemma page_orders_admin_world_ok inp : preserves (world_ok (F := F)) (page_orders_admin inp).
Proof. unfold page_orders_admin, query_listing. integrity. Qed.

Lemma page_menu_admin_world_ok inp : preserves (world_ok (F := F)) (page_menu_admin inp).
Proof. unfold page_menu_admin. integrity. Qed.

Lemma page_qr_world_ok inp : preserves (world_ok (F := F)) (page_qr inp).
Proof. unfold page_qr. integrity. Qed.

Lemma init_db_world_ok : preserves (world_ok (F := F)) init_db.
Proof.
  unfold init_db.
  apply preserves_bind; [auto with integrity | intros _].
  apply preserves_try_finally; [| auto with integrity].
  apply preserves_bind; [auto with integrity | intros existing].
  destruct existing; [| auto with integrity].
  apply preserves_bind; [| auto with integrity].
  unfold DEFAULT_MENU. cbn [for_each].
  repeat (apply preserves_bind;
          [apply preserves_add_menu_item; intros; reflexivity | intros []]).
  auto with integrity.
Qed.

Lemma main_world_ok secret req : preserves (world_ok (F := F)) (main secret req).
Proof.
  pose proof init_db_world_ok. pose proof page_order_world_ok.
  pose proof page_orders_admin_world_ok. pose proof page_menu_admin_world_ok.
  pose proof page_qr_world_ok.
  unfold main, require_admin. integrity.
Qed.

End Handlers.

End IntegrityFacts.

(* ------------------------------------------------------------------ *)
(** ** Invariants of a whole session *)

Module SessionFacts.

Import Logic IntegrityFacts.

(** A primitive that does not touch what the invariant looks at. *)
Ltac prim_leaf :=
  let w := fresh "w" in
  let Hw := fresh "Hw" in
  unfold preserves, hoare; intros w Hw;
  unfold query_menu_item, query_menu_items, query_orders, query_order_items,
    add_order_flush, add_order_item, add_menu_item, update_order, update_menu_item,
    delete_order, delete_menu_item, db_commit;
  unfold bind, show, now, round_trip, rows, write, ret, raise, st_rerun, get_cart, get_db,
    db_close, get_admin_ok, set_admin_ok;
  cbn beta;
  try (destruct (faults w) as [[| ?] |]);
  exact Hw.

Section CartRuns.
Context {F : Type} {A : Amount F}.

Lemma preserves_world_of {X : Type} (P : World F -> Prop) (m : M F X) :
  (forall w, P w -> P (world_of (m w))) -> preserves P m.
Proof. intros H w Hw. specialize (H w Hw). destruct (m w); exact H. Qed.

Lemma cart_inv_item_card inp (m : MenuItem.t F) : preserves cart_inv (item_card inp m).
Proof. apply preserves_world_of. apply SubmitFacts.item_card_keeps_cart_ok. Qed.

Lemma cart_ok_nil : cart_ok [].
Proof. split; constructor. Qed.

Lemma cart_inv_ensure_cart : preserves (cart_inv (F := F)) ensure_cart.
Proof.
  intros w Hw. unfold ensure_cart.
  destruct (cart (session w)) eqn:E; [exact Hw | apply cart_ok_nil].
Qed.

Lemma cart_inv_reset_cart : preserves (cart_inv (F := F)) reset_cart.
Proof. intros w Hw. apply cart_ok_nil. Qed.

End CartRuns.

(** Walks a handler's text for the cart's invariant. *)
Ltac cart_walk :=
  repeat first
    [ progress intros
    | match goal with
      | |- preserves _ (item_card _ _) => apply cart_inv_item_card
      | |- preserves _ ensure_cart => apply cart_inv_ensure_cart
      | |- preserves _ reset_cart => apply cart_inv_reset_cart
      | |- preserves _ (bind _ _) => apply preserves_bind
      | |- preserves _ (for_each _ _ _) => apply preserves_for_each
      | |- preserves _ (try_except _ _) => apply preserves_try_except
      | |- preserves _ (try_finally _ _) => apply preserves_try_finally
      | |- preserves _ (let '(_, _) := ?p in _) => destruct p
      | |- preserves _ (if ?b then _ else _) => destruct b
      | |- preserves _ (match ?x with _ => _ end) => destruct x
      end
    | solve [prim_leaf]
    | progress cbv zeta ].

Section CartHandlers.
Context {F : Type} {A : Amount F}.

Lemma cart_inv_page_order inp : preserves (cart_inv (F := F)) (page_order inp).
Proof.
  unfold page_order, order_page_top, cart_section, cart_total, cart_total_step,
    cart_row_step, place_order, line_step.
  cart_walk.
Qed.

Lemma cart_inv_page_orders_admin inp : preserves (cart_inv (F := F)) (page_orders_admin inp).
Proof. unfold page_orders_admin, query_listing. cart_walk. Qed.

Lemma cart_inv_page_menu_admin inp : preserves (cart_inv (F := F)) (page_menu_admin inp).
Proof. unfold page_menu_admin. cart_walk. Qed.

Lemma cart_inv_page_qr inp : preserves (cart_inv (F := F)) (page_qr inp).
Proof. unfold page_qr. cart_walk. Qed.

Lemma cart_inv_init_db : preserves (cart_inv (F := F)) init_db.
Proof. unfold init_db. cart_walk. Qed.

Lemma cart_inv_main secret req : preserves (cart_inv (F := F)) (main secret req).
Proof.
  pose proof cart_inv_page_order as H1. pose proof cart_inv_page_orders_admin as H2.
  pose proof cart_inv_page_menu_admin as H3. pose proof cart_inv_page_qr as H4.
  pose proof cart_inv_init_db as H5.
  unfold main, require_admin.
  apply preserves_bind; [exact H5 | intros _].
  destruct (page req); [apply H1 | | |];
    (apply preserves_bind; [cart_walk | intros ok]);
    destruct (negb ok); first [solve [prim_leaf] | apply H2 | apply H3 | apply H4].
Qed.

(** X2: the cart stays well-formed.  If no key occurs twice in it and
    every quantity lies between 1 and 50, then this is still so after any
    sequence of runs of the script, whatever is typed into the number
    inputs and whichever buttons are pressed. *)
Theorem cart_stays_well_formed secret (reqs : list (Request F)) (w : World F) :
  cart_ok (cart_entries w) ->
  cart_ok (cart_entries (run_session secret reqs w)).
Proof.
  revert w. unfold run_session.
  induction reqs as [| req reqs IH]; intros w Hw; simpl; [exact Hw |].
  apply IH. pose proof (cart_inv_main secret req w Hw) as H.
  unfold run_script. destruct (main secret req w) as [[] w' | [|] w']; exact H.
Qed.

End CartHandlers.

Section Runs.
Context {F : Type} {A : Amount F}.

Lemma run_script_world_ok secret (req : Request F) (w : World F) :
  world_ok w -> world_ok (run_script secret req w).
Proof.
  intros Hw. pose proof (main_world_ok secret req w Hw) as H.
  unfold run_script. destruct (main secret req w) as [[] w' | [|] w'];
    [exact H | |]; destruct H as [Hc _]; split; exact Hc.
Qed.

(** X1: referential integrity is an invariant of the application.  If
    the stored tables have unique keys, no line without its order and no
    line pointing to a missing catalog row, then they still have after
    any sequence of runs of the script, whatever pages are visited,
    whatever buttons are pressed and wherever the storage layer fails. *)
Theorem store_integrity_kept secret (reqs : list (Request F)) (w : World F) :
  store_ok (committed w) -> store_ok (pending w) ->
  store_ok (committed (run_session secret reqs w))
  /\ store_ok (pending (run_session secret reqs w)).
Proof.
  intros Hc Hp. assert (Hw : world_ok w) by (split; assumption). clear Hc Hp.
  revert w Hw. unfold run_session.
  induction reqs as [| req reqs IH]; intros w Hw; simpl; [exact Hw |].
  apply IH. now apply run_script_world_ok.
Qed.

End Runs.

(** A new deployment: the catalog is seeded, EntryA is put into the cart
    twice and ordered, then the row is deleted by the staff, the first
    time with the commit of the order failing. *)
Lemma store_integrity_kept_witness :
  store_ok
    (committed
       (run_session "changeme"
          [add_request 1 2; submit_request; submit_request; delete_item_request 1]
          (fresh_world (F := Q) (Some 9%nat))))
  /\ map (fun l => (OrderItem.item_id l, OrderItem.quantity l))
       (order_items
          (committed
             (run_session "changeme"
                [add_request 1 2; submit_request; delete_item_request 1]
                (fresh_world (F := Q) None))))
     = [(None, 2)].
Proof.
  split.
  - exact (proj1 (store_integrity_kept (A := exact) "changeme"
                    [add_request 1 2; submit_request; submit_request; delete_item_request 1]
                    (fresh_world (Some 9%nat)) store_ok_empty store_ok_empty)).
  - vm_compute. reflexivity.
Defined.

(** In a new session the add button is pressed with 70, with -3 and with
    4 typed in: the cart holds the clamped 50, then still 50, then 4. *)
Lemma cart_stays_well_formed_witness :
  cart_ok
    (cart_entries
       (run_session "changeme" [add_request 1 70; add_request 1 (-3); add_request 2 4]
          (fresh_world (F := Q) None)))
  /\ cart_entries
       (run_session "changeme" [add_request 1 70; add_request 1 (-3); add_request 2 4]
          (fresh_world (F := Q) None))
     = [(1, 50); (2, 4)].
Proof.
  split.
  - exact (cart_stays_well_formed (A := exact) "changeme"
             [add_request 1 70; add_request 1 (-3); add_request 2 4]
             (fresh_world None) cart_ok_nil).
  - vm_compute. reflexivity.
Defined.

End SessionFacts.

(* ------------------------------------------------------------------ *)
(** ** The detail panel: saving a status, deleting an order *)

Module DetailFacts.

Import SubmitFacts ListingFacts MenuFacts.

Section Detail.
Context {F : Type}.

Lemma bind_raised {X Y : Type} (m : M F X) (k : X -> M F Y) (w w1 : World F) e :
  m w = Raised e w1 -> bind m k w = Raised e w1.
Proof. intros E. unfold bind. now rewrite E. Qed.

Lemma find_order_some (l : list (Order.t F)) k :
  In k (map Order.id l) ->
  exists o, find (fun o => Order.id o =? k) l = Some o /\ Order.id o = k.
Proof.
  induction l as [| x l IH]; simpl; [tauto |].
  destruct (Order.id x =? k) eqn:E.
  - intros _. apply Z.eqb_eq in E. eauto.
  - intros [H | H]; [apply Z.eqb_neq in E; congruence | auto].
Qed.

(** X3: the delete button of the detail panel removes the selected order
    together with all its lines and commits: afterwards no order and no
    line carries its key, every other order and every line of another
    order is still stored, and the catalog is untouched. *)
Theorem delete_order_cascades (inp : OrdersAdminInput) (w : World F) :
  faults w = None ->
  save_clicked inp = false -> delete_clicked inp = true ->
  listing inp (orders (committed w)) <> [] ->
  exists (w' : World F),
    let oid := selected_order_id inp (listing inp (orders (committed w))) in
    page_orders_admin inp w = Raised RerunException w'
    /\ In oid (map Order.id (listing inp (orders (committed w))))
    /\ menu_items (committed w') = menu_items (committed w)
    /\ (forall o, In o (orders (committed w'))
                  <-> In o (orders (committed w)) /\ Order.id o <> oid)
    /\ (forall l, In l (order_items (committed w'))
                  <-> In l (order_items (committed w)) /\ OrderItem.order_id l <> oid)
    /\ In order_deleted (ui w').
Proof.
  intros Hfl Hsave Hdel Hne.
  destruct w as [ses [men ords its] pen fl clk rd out].
  cbn [faults committed orders] in Hfl, Hne |- *. subst fl.
  destruct (listing inp ords) as [| first rest] eqn:Hfound; [congruence |].
  assert (Hin : In (selectbox (map Order.id (first :: rest)) (selected_order inp) (Order.id first))
                  (map Order.id (first :: rest))).
  { apply selectbox_in. left. reflexivity. }
  destruct (find_order_some _ _ Hin) as (order & Hfind & Hid).
  eexists. split.
  { unfold page_orders_admin. rewrite Hsave, Hdel.
    erewrite bind_ok by (apply query_listing_ok; reflexivity).
    cbn [committed orders]. rewrite Hfound.
    apply bind_raised.
    erewrite bind_ok by reflexivity.
    cbv zeta. rewrite Hfind.
    do 3 (erewrite bind_ok by reflexivity).
    do 3 (erewrite bind_ok by reflexivity).
    reflexivity. }
  cbn -[selectbox In filter]. rewrite Hid.
  split; [exact Hin |]. split; [reflexivity |].
  split; [| split].
  - intros o. rewrite filter_In, negb_true_iff, Z.eqb_neq. tauto.
  - intros l. rewrite filter_In, negb_true_iff, Z.eqb_neq. tauto.
  - rewrite !in_app_iff. simpl. tauto.
Qed.

(** X4: the save button of the detail panel overwrites the status of the
    selected order with the chosen one, whatever the status was before,
    and stamps the time of the save; nothing else of that order changes
    (its total and its creation time stay), the other orders, all lines
    and the catalog are untouched, and the change is committed. *)
Theorem save_status_overwrites (inp : OrdersAdminInput) (w : World F) :
  faults w = None ->
  save_clicked inp = true ->
  listing inp (orders (committed w)) <> [] ->
  exists (w' : World F),
    let oid := selected_order_id inp (listing inp (orders (committed w))) in
    page_orders_admin inp w = Raised RerunException w'
    /\ In oid (map Order.id (orders (committed w)))
    /\ menu_items (committed w') = menu_items (committed w)
    /\ order_items (committed w') = order_items (committed w)
    /\ Forall2 (status_saved_rel oid (new_status inp) (clock w (S (S (reads w)))))
         (orders (committed w)) (orders (committed w'))
    /\ In status_saved (ui w').
Proof.
  intros Hfl Hsave Hne.
  destruct w as [ses [men ords its] pen fl clk rd out].
  cbn [faults committed orders clock reads] in Hfl, Hne |- *. subst fl.
  destruct (listing inp ords) as [| first rest] eqn:Hfound; [congruence |].
  assert (Hin : In (selectbox (map Order.id (first :: rest)) (selected_order inp) (Order.id first))
                  (map Order.id (first :: rest))).
  { apply selectbox_in. left. reflexivity. }
  destruct (find_order_some _ _ Hin) as (order & Hfind & Hid).
  eexists. split.
  { unfold page_orders_admin. rewrite Hsave.
    erewrite bind_ok by (apply query_listing_ok; reflexivity).
    cbn [committed orders]. rewrite Hfound.
    apply bind_raised.
    erewrite bind_ok by reflexivity.
    cbv zeta. rewrite Hfind.
    do 2 (erewrite bind_ok by reflexivity).
    apply bind_raised.
    do 4 (erewrite bind_ok by reflexivity).
    reflexivity. }
  assert (Hstored : In (selectbox (map Order.id (first :: rest)) (selected_order inp)
                          (Order.id first)) (map Order.id ords)).
  { apply in_map_iff in Hin. destruct Hin as (o & Ho & Hin).
    rewrite <- Ho. apply in_map.
    rewrite <- Hfound in Hin. unfold listing in Hin.
    apply (Permutation_in _ (order_by_perm _)) in Hin. apply filter_In in Hin. tauto. }
  cbn -[selectbox In]. rewrite Hid.
  split; [exact Hstored |].
  split; [reflexivity |]. split; [reflexivity |].
  split; [| rewrite !in_app_iff; simpl; tauto].
  clear. induction ords as [| o ords IH]; simpl; constructor; [| exact IH].
  unfold status_saved_rel, same_order_but_status.
  destruct (Order.id o =? _); cbn; auto 15.
Qed.

End Detail.

End DetailFacts.

(* ------------------------------------------------------------------ *)
(** ** The cart as a dictionary *)

Module CartFacts.

Lemma get_set_same (c : Cart) k q : CartOps.get (CartOps.set c k q) k = q.
Proof.
  induction c as [| [j p] c IH]; simpl.
  - now rewrite Z.eqb_refl.
  - destruct (j =? k) eqn:E; simpl; rewrite E; [reflexivity | exact IH].
Qed.

Lemma get_set_other (c : Cart) k q j : j <> k -> CartOps.get (CartOps.set c k q) j = CartOps.get c j.
Proof.
  intros Hne. induction c as [| [i p] c IH]; simpl.
  - destruct (k =? j) eqn:E; [apply Z.eqb_eq in E; congruence | reflexivity].
  - destruct (i =? k) eqn:E; simpl.
    + apply Z.eqb_eq in E. subst i.
      destruct (k =? j) eqn:E'; [apply Z.eqb_eq in E'; congruence | reflexivity].
    + destruct (i =? j); [reflexivity | exact IH].
Qed.

(** Assigning to a key that is there keeps every key at its place;
    assigning to a new key puts it last. *)
Lemma keys_set (c : Cart) k q :
  map fst (CartOps.set c k q)
  = if existsb (Z.eqb k) (map fst c) then map fst c else map fst c ++ [k].
Proof.
  induction c as [| [j p] c IH]; simpl; [reflexivity |].
  rewrite (Z.eqb_sym k j). destruct (j =? k) eqn:E; simpl; [reflexivity |].
  rewrite IH. now destruct (existsb (Z.eqb k) (map fst c)).
Qed.

Section Card.
Context {F : Type} {A : Amount F}.

(** X5: the add button of an item card.  With a quantity of 0 (or less)
    in its number input it only warns, and the cart is what it was.
    Otherwise the item's quantity in the cart is the one typed in, cut to
    at most 50, whatever it was before: it replaces, it does not add up.
    The other entries keep their quantities and all keys their places, a
    new key going last.  The store is not touched. *)
Theorem add_button_replaces_quantity (inp : OrderPageInput) (m : MenuItem.t F) (w : World F) :
  add_clicked inp = Some (MenuItem.id m) ->
  let q := number_input 0 50 (qty_input inp (MenuItem.id m)) in
  (q <= 0 -> item_card inp m w = Ok tt (set_ui w (ui w ++ [warn_quantity])))
  /\ (0 < q ->
      exists w',
        item_card inp m w = Ok tt w'
        /\ q = Z.min 50 (qty_input inp (MenuItem.id m))
        /\ CartOps.get (cart_entries w') (MenuItem.id m) = q
        /\ (forall k, k <> MenuItem.id m ->
                      CartOps.get (cart_entries w') k = CartOps.get (cart_entries w) k)
        /\ map fst (cart_entries w')
           = (if existsb (Z.eqb (MenuItem.id m)) (map fst (cart_entries w))
              then map fst (cart_entries w)
              else map fst (cart_entries w) ++ [MenuItem.id m])
        /\ committed w' = committed w /\ pending w' = pending w
        /\ _admin_ok (session w') = _admin_ok (session w)
        /\ ui w' = ui w ++ [added_to_cart (MenuItem.name m) q]).
Proof.
  intros Hadd q. unfold item_card. rewrite Hadd, Z.eqb_refl. fold q. split.
  - intros Hq. apply Z.leb_le in Hq. now rewrite Hq.
  - intros Hq. assert (Hq' : (q <=? 0) = false) by (apply Z.leb_gt; exact Hq).
    rewrite Hq'. eexists. split; [reflexivity |]. cbn.
    split; [unfold q, number_input in *; lia |].
    split; [apply get_set_same |].
    split; [intros k Hk; now apply get_set_other |].
    split; [apply keys_set |]. repeat split.
Qed.

End Card.

End CartFacts.

(* ------------------------------------------------------------------ *)
(** ** [init_db]: seeding the catalog *)

Module InitFacts.

Section Seeding.
Context {F : Type} {A : Amount F}.

(** X6: [init_db] seeds the five default dishes exactly when the catalog
    is empty, and all five or none.  A catalog with at least one row is
    left as it is, orders and lines are never touched, the session state
    is not looked at, and the storage session is closed at the end
    however the seeding went.  When the store answers, an empty catalog
    becomes the five defaults under the keys 1 to 5. *)
Theorem init_db_seeds_empty_catalog (w : World F) :
  let w' := world_of (init_db w) in
  let defaults := map (fun p => snd p (fst p)) (combine (range 1 6) DEFAULT_MENU) in
  orders (committed w') = orders (committed w)
  /\ order_items (committed w') = order_items (committed w)
  /\ pending w' = committed w'
  /\ session w' = session w
  /\ (menu_items (committed w) <> [] ->
      menu_items (committed w') = menu_items (committed w))
  /\ (menu_items (committed w) = [] ->
      menu_items (committed w') = [] \/ menu_items (committed w') = defaults)
  /\ (menu_items (committed w) = [] -> faults w = None ->
      init_db w = Ok tt w' /\ menu_items (committed w') = defaults).
Proof.
  destruct w as [ses [men ords its] pen fl clk rd out].
  destruct men as [| m men].
  - destruct fl as [[| [| n]] |]; vm_compute;
      (split; [reflexivity |]); (split; [reflexivity |]); (split; [reflexivity |]);
      (split; [reflexivity |]); (split; [intros H; now elim H |]);
      (split; [intros _; first [now left | now right] |]);
      intros _ H; first [discriminate H | split; reflexivity].
  - destruct fl as [[| n] |]; vm_compute;
      (split; [reflexivity |]); (split; [reflexivity |]); (split; [reflexivity |]);
      (split; [reflexivity |]); (split; [reflexivity |]);
      (split; [intros H; discriminate H |]); intros H; discriminate H.
Qed.

End Seeding.

End InitFacts.

(* ------------------------------------------------------------------ *)
(** ** The catalog page: adding, editing and importing rows *)

Module CatalogFacts.

Import SubmitFacts MenuFacts DetailFacts.

Lemma max_snoc (l : list Z) (n : Z) :
  fold_right Z.max 0 (l ++ [n]) = Z.max (fold_right Z.max 0 l) (Z.max n 0).
Proof. induction l as [| x l IH]; simpl; [lia |]. rewrite IH. lia. Qed.

(** Keys are handed out in sequence. *)
Lemma next_id_snoc (ids : list Z) : next_id (ids ++ [next_id ids]) = next_id ids + 1.
Proof.
  unfold next_id. rewrite max_snoc.
  assert (0 <= fold_right Z.max 0 ids) by (induction ids; simpl; lia). lia.
Qed.

Lemma range_cons (a : Z) (n : nat) :
  range a (a + Z.of_nat (S n)) = a :: range (a + 1) (a + 1 + Z.of_nat n).
Proof.
  unfold range.
  replace (a + Z.of_nat (S n) - a) with (Z.of_nat (S n)) by lia.
  replace (a + 1 + Z.of_nat n - (a + 1)) with (Z.of_nat n) by lia.
  rewrite !Nat2Z.id. cbn [seq map]. f_equal; [cbn; lia |].
  rewrite <- seq_shift, map_map. apply map_ext. intros k. lia.
Qed.

Section Catalog.
Context {F : Type} {A : Amount F}.



Lemma import_loop (l : list (CsvRow F)) : forall n ses com men ords its fl clk rd (out : list (Output F)),
  for_each l
    (fun n r =>
       add_menu_item
         (fun mid =>
            MenuItem.mk F mid (Str.strip (r_name r)) (r_price r)
              (r_category r) (r_description r) (r_image_url r)
              (r_is_available r)) ;;
       ret (n + 1))
    n (mk_world F ses com (mk_store F men ords its) fl clk rd out)
  = Ok (n + Z.of_nat (List.length l))
      (mk_world F ses com
         (mk_store F (men ++ import_rows (next_id (map MenuItem.id men)) l) ords its)
         fl clk rd out).
Proof.
  induction l as [| r l IH]; intros n ses com men ords its fl clk rd out.
  - cbn. now rewrite app_nil_r, Z.add_0_r.
  - cbn [for_each].
    erewrite bind_ok by reflexivity.
    unfold set_pending; cbn [session committed pending faults clock reads ui
                               menu_items orders order_items].
    rewrite IH. rewrite map_app. cbn [map MenuItem.id].
    rewrite next_id_snoc, <- app_assoc. cbn [app import_rows List.length].
    replace (n + 1 + Z.of_nat (List.length l)) with (n + Z.of_nat (S (List.length l))) by lia.
    reflexivity.
Qed.




(** X8: the add form without a name adds nothing: the page warns that
    the name is required and runs on to its end, and the store is what
    it was. *)
Theorem add_item_needs_name (inp : MenuAdminInput F) (w : World F) :
  faults w = None ->
  add_ok inp = true -> save_ok inp = false -> del_ok inp = false -> upload inp = None ->
  name_input (add_form inp) = EmptyString ->
  exists (w' : World F) (shown : list (Output F)),
    page_menu_admin inp w = Ok tt w'
    /\ committed w' = committed w
    /\ pending w' = committed w
    /\ ui w' = ui w ++ shown
    /\ In warn_name_required shown
    /\ ~ In item_added shown.
Proof.
  intros Hfl Hadd Hsave Hdel Hup Hname.
  destruct w as [ses [men ords its] pen fl clk rd out].
  cbn [faults] in Hfl. subst fl.
  unfold page_menu_admin. rewrite Hadd, Hsave, Hdel, Hup, Hname.
  destruct men as [| first rest].
  - exists (mk_world F ses (mk_store F [] ords its) (mk_store F [] ords its) None clk rd
              (out ++ [menu_table []; warn_name_required; info_no_items])).
    exists [menu_table []; warn_name_required; info_no_items].
    split; [cbn; now rewrite <- !app_assoc |].
    split; [reflexivity |]. split; [reflexivity |]. split; [reflexivity |].
    simpl. split; [tauto |]. intros H. intuition discriminate.
  - assert (Hin : In (selectbox (map MenuItem.id (first :: rest)) (selected_item inp)
                        (MenuItem.id first)) (map MenuItem.id (first :: rest))).
    { apply selectbox_in. left. reflexivity. }
    destruct (find_menu_item_some _ _ Hin) as (m & Hfind & Hm).
    exists (mk_world F ses (mk_store F (first :: rest) ords its)
              (mk_store F (first :: rest) ords its) None clk rd
              (out ++ [menu_table (first :: rest); warn_name_required])).
    exists [menu_table (first :: rest); warn_name_required].
    split.
    { do 5 (erewrite bind_ok by reflexivity).
      cbv zeta.
      cbn [pending set_ui set_pending menu_items committed session faults clock reads ui].
      rewrite Hfind. cbn. now rewrite <- !app_assoc. }
    split; [reflexivity |]. split; [reflexivity |]. split; [reflexivity |].
    simpl. split; [tauto |]. intros H. intuition discriminate.
Qed.


Lemma try_except_caught (body handler : M F unit) (w w1 : World F) :
  body w = Raised StorageError w1 -> try_except body handler w = handler w1.
Proof. intros E. unfold try_except. now rewrite E. Qed.

Lemma try_except_ok (body handler : M F unit) (w w1 : World F) :
  body w = Ok tt w1 -> try_except body handler w = Ok tt w1.
Proof. intros E. unfold try_except. now rewrite E. Qed.

Lemma selectbox_chosen (options : list Z) (k first : Z) :
  In k options -> selectbox options (Some k) first = k.
Proof.
  intros Hin. unfold selectbox.
  replace (existsb (Z.eqb k) options) with true; [reflexivity |].
  symmetry. apply existsb_exists. exists k. split; [exact Hin | apply Z.eqb_refl].
Qed.

(** With no button of the add form or of the edit form pressed, the page
    reaches the upload section with a fresh transaction and two queries
    behind it. *)
Lemma upload_section_reached (inp : MenuAdminInput F) (rest : M F unit)
    ses men ords its pen fl clk rd (out : list (Output F)) :
  add_ok inp = false -> save_ok inp = false -> del_ok inp = false ->
  enough fl 2 ->
    (get_db ;;
     current <- query_menu_items ;;
     show (menu_table current) ;;
     (if add_ok inp then
        let f := add_form inp in
        match name_input f with
        | EmptyString => show warn_name_required
        | _ =>
            add_menu_item
              (fun mid =>
                 MenuItem.mk F mid (name_input f)
                   (price_input_min0 (price_input f))
                   (match category_input f with EmptyString => "主食" | c => c end)
                   (description_input f) (image_url_input f) (avail_input f)) ;;
            db_commit ;;
            show item_added ;;
            st_rerun
        end
      else ret tt) ;;
     all_items <- query_menu_items ;;
     match all_items with
     | [] => show info_no_items
     | first :: _ =>
         let mid := selectbox (map MenuItem.id all_items) (selected_item inp) (MenuItem.id first) in
         match find_menu_item all_items mid with
         | None => ret tt
         | Some selected =>
             let f := edit_form inp in
             (if save_ok inp then
                update_menu_item (MenuItem.id selected)
                  (fun m =>
                     MenuItem.mk F (MenuItem.id m) (name_input f)
                       (price_input_min0 (price_input f)) (category_input f)
                       (description_input f)
                       (image_url_input f) (avail_input f)) ;;
                db_commit ;;
                show item_updated ;;
                st_rerun
              else ret tt) ;;
             (if del_ok inp then
                delete_menu_item (MenuItem.id selected) ;;
                db_commit ;;
                show item_deleted ;;
                st_rerun
              else ret tt)
         end
     end ;;
     rest)
      (mk_world F ses (mk_store F men ords its) pen fl clk rd out)
    = rest (mk_world F ses (mk_store F men ords its) (mk_store F men ords its)
              (spend fl 2) clk rd
              (out ++ menu_table men
                      :: match men with [] => [info_no_items] | _ :: _ => [] end)).
Proof.
  intros Hadd Hsave Hdel Hfl. rewrite Hadd, Hsave, Hdel.
  destruct men as [| first rest0].
  - destruct fl as [[| [| n]] |]; cbn in Hfl; try lia; cbn;
      rewrite <- ?app_assoc; cbn; rewrite ?Nat.sub_0_r; reflexivity.
  - assert (Hin : In (selectbox (map MenuItem.id (first :: rest0)) (selected_item inp)
                        (MenuItem.id first)) (map MenuItem.id (first :: rest0))).
    { apply selectbox_in. left. reflexivity. }
    destruct (find_menu_item_some _ _ Hin) as (m & Hfind & Hm).
    destruct fl as [[| [| n]] |]; cbn in Hfl; try lia;
      cbn -[selectbox find_menu_item map]; rewrite Hfind; cbn; rewrite ?Nat.sub_0_r;
      reflexivity.
Qed.

(** X9: the save button of the edit form overwrites the fields of the
    selected catalog row and commits; the row keeps its key and every
    other row is as it was.  The orders and the stored lines are not
    touched: a line keeps the name and the unit price it captured when
    the order was placed, whatever the catalog says afterwards.  Save is
    handled before delete. *)
Theorem save_item_keeps_lines (inp : MenuAdminInput F) (w : World F) (mid : Z) :
  faults w = None ->
  add_ok inp = false -> save_ok inp = true ->
  selected_item inp = Some mid ->
  In mid (map MenuItem.id (menu_items (committed w))) ->
  exists (w' : World F),
    page_menu_admin inp w = Raised RerunException w'
    /\ Forall2 (item_saved_rel mid (edit_form inp))
         (menu_items (committed w)) (menu_items (committed w'))
    /\ orders (committed w') = orders (committed w)
    /\ order_items (committed w') = order_items (committed w)
    /\ In item_updated (ui w').
Proof.
  intros Hfl Hadd Hsave Hsel Hin.
  destruct w as [ses [men ords its] pen fl clk rd out].
  cbn [faults committed menu_items] in Hfl, Hin. subst fl.
  destruct men as [| first rest]; [contradiction |].
  destruct (find_menu_item_some _ _ Hin) as (m & Hfind & Hm).
  eexists. split.
  { unfold page_menu_admin. rewrite Hadd, Hsave, Hsel.
    do 5 (erewrite bind_ok by reflexivity).
    apply bind_raised.
    cbv zeta.
    cbn [pending set_ui set_pending menu_items committed session faults clock reads ui].
    rewrite (selectbox_chosen _ _ _ Hin), Hfind.
    apply bind_raised.
    do 3 (erewrite bind_ok by reflexivity).
    reflexivity. }
  cbn -[In map]. rewrite Hm.
  split; [| split; [reflexivity | split; [reflexivity |]]].
  - clear. generalize (first :: rest). intros l.
    induction l as [| x l IH]; simpl; constructor; [| exact IH].
    unfold item_saved_rel, form_holds.
    destruct (MenuItem.id x =? mid); cbn; auto 10.
  - rewrite !in_app_iff. simpl. tauto.
Qed.


(** X11: an uploaded table that lacks one of the columns name, price and
    category is refused as a whole: the page says so and ends normally,
    and no row is added. *)
Theorem csv_import_needs_columns (inp : MenuAdminInput F) (w : World F)
    (columns : list string) (csv_rows : list (CsvRow F)) :
  faults w = None ->
  add_ok inp = false -> save_ok inp = false -> del_ok inp = false ->
  upload inp = Some (columns, csv_rows) ->
  has_required_columns columns = false ->
  exists (w' : World F),
    page_menu_admin inp w = Ok tt w'
    /\ committed w' = committed w
    /\ pending w' = committed w
    /\ In import_bad_columns (ui w').
Proof.
  intros Hfl Hadd Hsave Hdel Hup Hcols.
  destruct w as [ses [men ords its] pen fl clk rd out].
  cbn [faults] in Hfl. subst fl.
  eexists. split.
  { unfold page_menu_admin.
    rewrite upload_section_reached by (assumption || exact I).
    rewrite Hup, Hcols.
    erewrite bind_ok by (apply try_except_ok; reflexivity).
    reflexivity. }
  cbn -[In]. split; [reflexivity |]. split; [reflexivity |].
  apply in_or_app. right. left. reflexivity.
Qed.

(** X12: when the store refuses the commit of an import, the error is
    caught by the page: it reports that the import failed and ends
    normally, the rows of the file are dropped with the transaction, and
    the store holds what it held before. *)
Theorem csv_import_failure_caught (inp : MenuAdminInput F) (w : World F)
    (columns : list string) (csv_rows : list (CsvRow F)) :
  faults w = Some 2%nat ->
  add_ok inp = false -> save_ok inp = false -> del_ok inp = false ->
  upload inp = Some (columns, csv_rows) ->
  has_required_columns columns = true ->
  exists (w' : World F),
    page_menu_admin inp w = Ok tt w'
    /\ committed w' = committed w
    /\ pending w' = committed w
    /\ In import_failed (ui w').
Proof.
  intros Hfl Hadd Hsave Hdel Hup Hcols.
  destruct w as [ses [men ords its] pen fl clk rd out].
  cbn [faults] in Hfl. subst fl.
  eexists. split.
  { unfold page_menu_admin.
    rewrite upload_section_reached by (assumption || (cbn; lia)).
    rewrite Hup, Hcols.
    erewrite bind_ok;
      [| etransitivity;
         [apply try_except_caught;
          erewrite bind_ok by apply import_loop;
          reflexivity
         | reflexivity]].
    reflexivity. }
  cbn -[In]. split; [reflexivity |]. split; [reflexivity |].
  apply in_or_app. right. left. reflexivity.
Qed.

End Catalog.

End CatalogFacts.

(* ------------------------------------------------------------------ *)
(** ** The order page: what is captured, cleared and left alone *)

Module OrderPageFacts.

Import SubmitFacts MenuFacts DetailFacts CatalogFacts.

Section Snapshot.
Context {F : Type} {A : Amount F}.

Lemma resolved_none (menu : list (MenuItem.t F)) (c : Cart) :
  existsb (resolves menu) c = false -> resolved menu c = [].
Proof.
  induction c as [| [mid qty] c IH]; [reflexivity |].
  cbn [existsb resolved]. unfold resolves at 1. cbn [fst].
  destruct (find_menu_item menu mid); [discriminate | exact IH].
Qed.

Lemma resolved_some (menu : list (MenuItem.t F)) (c : Cart) :
  existsb (resolves menu) c = true -> resolved menu c <> [].
Proof.
  induction c as [| [mid qty] c IH]; [discriminate |].
  cbn [existsb resolved]. unfold resolves at 1. cbn [fst].
  destruct (find_menu_item menu mid); [discriminate | exact IH].
Qed.

Lemma created_lines_snapshot (menu : list (MenuItem.t F)) oid (c : Cart) :
  forall existing,
    map line_fields (created_lines menu oid c existing) = map snapshot (resolved menu c).
Proof.
  induction c as [| [mid qty] c IH]; intros existing; [reflexivity |].
  cbn [created_lines resolved].
  destruct (find_menu_item menu mid) as [it |]; [| apply IH].
  cbn [map]. now rewrite IH.
Qed.

Lemma created_lines_ids (menu : list (MenuItem.t F)) oid (c : Cart) :
  forall existing,
    map OrderItem.id (created_lines menu oid c existing)
    = range (next_id (map OrderItem.id existing))
        (next_id (map OrderItem.id existing)
         + Z.of_nat (List.length (created_lines menu oid c existing))).
Proof.
  induction c as [| [mid qty] c IH]; intros existing.
  - cbn [created_lines map List.length]. unfold range.
    now replace (next_id (map OrderItem.id existing) + Z.of_nat 0
                 - next_id (map OrderItem.id existing)) with 0 by lia.
  - cbn [created_lines].
    destruct (find_menu_item menu mid) as [it |]; [| apply IH].
    cbv zeta. cbn [map List.length OrderItem.id]. rewrite range_cons.
    f_equal. rewrite IH. rewrite map_app. cbn [map OrderItem.id].
    now rewrite next_id_snoc.
Qed.

Lemma accumulated_none (menu : list (MenuItem.t F)) (c : Cart) acc :
  existsb (resolves menu) c = false -> accumulated menu c acc = acc.
Proof.
  induction c as [| [mid qty] c IH]; [reflexivity |].
  cbn [existsb accumulated]. unfold resolves at 1. cbn [fst].
  destruct (find_menu_item menu mid); [discriminate | exact IH].
Qed.

Lemma created_lines_none (menu : list (MenuItem.t F)) oid (c : Cart) existing :
  existsb (resolves menu) c = false -> created_lines menu oid c existing = [].
Proof.
  induction c as [| [mid qty] c IH]; [reflexivity |].
  cbn [existsb created_lines]. unfold resolves at 1. cbn [fst].
  destruct (find_menu_item menu mid); [discriminate | exact IH].
Qed.

(** X13: what a submission captures.  The lines it stores are, one for
    one and in cart order, the cart entries that resolve: each holds the
    key, the name and the price of its catalog row as they are at that
    moment, and the quantity of the cart; they get fresh consecutive
    keys.  The header holds the channel onsite, the forwarded address,
    the first clock reading as creation time and the third as time of
    the last update. *)
Theorem submission_captures_catalog (inp : OrderPageInput) (w : World F) (c : Cart) :
  faults w = None ->
  cart (session w) = Some c ->
  c <> [] ->
  add_clicked inp = None -> clear_clicked inp = false -> submitted inp = true ->
  exists (o : Order.t F) (lines : list (OrderItem.t F)) (w' : World F),
    page_order inp w = Ok tt w'
    /\ orders (committed w') = orders (committed w) ++ [o]
    /\ order_items (committed w') = order_items (committed w) ++ lines
    /\ map line_fields lines = map snapshot (resolved (menu_items (committed w)) c)
    /\ map OrderItem.id lines
       = range (next_id (map OrderItem.id (order_items (committed w))))
           (next_id (map OrderItem.id (order_items (committed w)))
            + Z.of_nat (List.length lines))
    /\ Order.channel o = "onsite"
    /\ Order.source_ip o = forwarded_for inp
    /\ Order.created_at o = clock w (reads w)
    /\ Order.updated_at o = clock w (S (S (reads w))).
Proof.
  intros Hfl Hcart Hc Hadd Hclear Hsub.
  destruct w as [[crt adm] com pen fl clk rd out].
  cbn in Hfl, Hcart. subst fl crt.
  destruct (order_page_top_idle inp (Some c) adm com pen clk rd out Hadd Hclear)
    as [shown Etop].
  destruct com as [men ords its].
  destruct (place_order_ok inp c adm (mk_store F men ords its) men ords its None clk rd
              (out ++ shown) Hc I) as [fl' E].
  eexists _, (created_lines men (next_id (map Order.id ords)) c its), _.
  split.
  { unfold page_order. rewrite (bind_ok _ _ _ _ _ Etop), Hsub.
    rewrite (bind_ok _ _ _ _ _ E). reflexivity. }
  cbn -[In range next_id].
  split; [reflexivity |]. split; [reflexivity |].
  split; [apply created_lines_snapshot |].
  split; [apply created_lines_ids |].
  repeat split.
Qed.

(** X14: a cart of which no entry resolves any more is not rejected: the
    submission commits a header without any line and with the total
    [0.0], empties the cart and reports success with that total. *)
Theorem dangling_cart_commits_empty_order (inp : OrderPageInput) (w : World F) (c : Cart) :
  faults w = None ->
  cart (session w) = Some c ->
  c <> [] ->
  existsb (resolves (menu_items (committed w))) c = false ->
  add_clicked inp = None -> clear_clicked inp = false -> submitted inp = true ->
  exists (o : Order.t F) (w' : World F),
    page_order inp w = Ok tt w'
    /\ orders (committed w') = orders (committed w) ++ [o]
    /\ ~ In (Order.id o) (map Order.id (orders (committed w)))
    /\ Order.status o = NEW
    /\ Order.total_price o = amt_zero
    /\ order_items (committed w') = order_items (committed w)
    /\ cart (session w') = Some []
    /\ In (order_placed (Order.id o) amt_zero) (ui w').
Proof.
  intros Hfl Hcart Hc Hres Hadd Hclear Hsub.
  destruct w as [[crt adm] com pen fl clk rd out].
  cbn in Hfl, Hcart, Hres. subst fl crt.
  destruct (order_page_top_idle inp (Some c) adm com pen clk rd out Hadd Hclear)
    as [shown Etop].
  destruct com as [men ords its]. cbn [menu_items] in Hres.
  destruct (place_order_ok inp c adm (mk_store F men ords its) men ords its None clk rd
              (out ++ shown) Hc I) as [fl' E].
  eexists _, _.
  split.
  { unfold page_order. rewrite (bind_ok _ _ _ _ _ Etop), Hsub.
    rewrite (bind_ok _ _ _ _ _ E). reflexivity. }
  cbn -[In next_id].
  rewrite (accumulated_none men c amt_zero Hres).
  rewrite (created_lines_none men _ c its Hres), app_nil_r.
  split; [reflexivity |].
  split; [apply next_id_fresh |].
  split; [reflexivity |]. split; [reflexivity |]. split; [reflexivity |].
  split; [reflexivity |].
  apply in_or_app. right. left. reflexivity.
Qed.

(** Without storage faults the loop that fills the cart table collects a
    row for each entry that resolves, and changes nothing. *)
Lemma cart_rows_exact (w : World F) (c : Cart) :
  faults w = None ->
  forall acc,
    for_each c cart_row_step acc w
    = Ok (acc ++ map cart_row (resolved (menu_items (pending w)) c)) w.
Proof.
  intros Hfl. induction c as [| [mid qty] c IH]; intros acc.
  - cbn. now rewrite app_nil_r.
  - cbn [for_each resolved]. unfold bind at 1.
    unfold cart_row_step, query_menu_item, round_trip, rows, bind, ret. rewrite Hfl.
    destruct (find_menu_item (menu_items (pending w)) mid) as [it |]; rewrite IH;
      [| reflexivity].
    cbn [map]. now rewrite <- app_assoc.
Qed.

(** X15: the clear button.  While at least one cart entry resolves, the
    button empties the cart and asks for a rerun; the store is not
    written.  A cart of which no entry resolves has no cart table and no
    clear button: the page says the cart is empty and leaves its entries
    where they are. *)
Theorem clear_button_empties_cart (inp : OrderPageInput) (w : World F) (c : Cart) :
  faults w = None ->
  cart (session w) = Some c ->
  add_clicked inp = None -> clear_clicked inp = true ->
  (existsb (resolves (menu_items (committed w))) c = true ->
   exists w',
     page_order inp w = Raised RerunException w'
     /\ cart (session w') = Some []
     /\ _admin_ok (session w') = _admin_ok (session w)
     /\ committed w' = committed w)
  /\ (existsb (resolves (menu_items (committed w))) c = false ->
      submitted inp = false ->
      exists w',
        page_order inp w = Ok tt w'
        /\ cart (session w') = Some c
        /\ committed w' = committed w
        /\ ui w' = ui w ++ [info_cart_empty]).
Proof.
  intros Hfl Hcart Hadd Hclear.
  destruct w as [[crt adm] [men ords its] pen fl clk rd out].
  cbn in Hfl, Hcart. subst fl crt. cbn [committed menu_items].
  split.
  - intros Hres. apply resolved_some in Hres.
    destruct (resolved men c) as [| e r] eqn:Er; [congruence |].
    eexists. split.
    { unfold page_order. apply bind_raised. unfold order_page_top.
      do 4 (erewrite bind_ok by reflexivity).
      erewrite bind_ok by now apply item_cards_idle.
      unfold cart_section.
      erewrite bind_ok by reflexivity.
      erewrite bind_ok by (apply cart_rows_exact; reflexivity).
      cbn [pending set_pending set_session set_faults committed menu_items cart_entries cart session app].
      rewrite Er. cbn [map app].
      erewrite bind_ok by reflexivity.
      erewrite bind_ok by (apply cart_total_ok; reflexivity).
      erewrite bind_ok by reflexivity.
      rewrite Hclear.
      erewrite bind_ok by reflexivity.
      reflexivity. }
    cbn. repeat split.
  - intros Hres Hsub. apply resolved_none in Hres.
    eexists. split.
    { unfold page_order.
      erewrite bind_ok.
      2:{ unfold order_page_top.
          do 4 (erewrite bind_ok by reflexivity).
          erewrite bind_ok by now apply item_cards_idle.
          unfold cart_section.
          erewrite bind_ok by reflexivity.
          erewrite bind_ok by (apply cart_rows_exact; reflexivity).
          cbn [pending set_pending set_session set_faults committed menu_items cart_entries cart session app].
          rewrite Hres. cbn [map app]. reflexivity. }
      rewrite Hsub. reflexivity. }
    cbn. repeat split.
Qed.

(** The add button of [k] is none of the cards': they do nothing. *)
Lemma item_cards_other inp k (items : list (MenuItem.t F)) (w : World F) :
  add_clicked inp = Some k ->
  Forall (fun m => MenuItem.id m <> k) items ->
  for_each items (fun _ m => item_card inp m) tt w = Ok tt w.
Proof.
  intros Hadd Hall. induction Hall as [| m items Hm _ IH]; [reflexivity |].
  cbn [for_each]. unfold bind.
  replace (item_card inp m w) with (Ok (F := F) tt w); [exact IH |].
  unfold item_card. rewrite Hadd.
  apply Z.eqb_neq in Hm. rewrite Z.eqb_sym in Hm. now rewrite Hm.
Qed.

(** X16: only a dish on sale can be put into the cart.  An add request
    for a key that no available catalog row carries (the dish was taken
    off sale or deleted) finds no card to act on it: the cart holds what
    it held, nothing is written, and the page ends normally. *)
Theorem hidden_item_not_addable (inp : OrderPageInput) (w : World F) (k : Z) :
  faults w = None ->
  add_clicked inp = Some k -> clear_clicked inp = false -> submitted inp = false ->
  (forall m, In m (menu_items (committed w)) -> MenuItem.id m = k ->
             MenuItem.is_available m = false) ->
  exists w',
    page_order inp w = Ok tt w'
    /\ cart_entries w' = cart_entries w
    /\ _admin_ok (session w') = _admin_ok (session w)
    /\ committed w' = committed w.
Proof.
  intros Hfl Hadd Hclear Hsub Hoff.
  destruct w as [[crt adm] [men ords its] pen fl clk rd out].
  cbn in Hfl, Hoff. subst fl.
  assert (Hcards : Forall (fun m : MenuItem.t F => MenuItem.id m <> k) (shown_items inp men)).
  { apply Forall_forall. intros m Hin Hk. unfold shown_items in Hin.
    apply filter_In in Hin. destruct Hin as [Hin Hshown].
    rewrite (Hoff m Hin Hk) in Hshown. discriminate Hshown. }
  match goal with
  | |- exists w', page_order inp ?w0 = _ /\ _ =>
      assert (Htop : exists shown,
                 order_page_top inp w0
                 = Ok tt (mk_world F
                            (mk_session (Some (match crt with Some c => c | None => [] end)) adm)
                            (mk_store F men ords its) (mk_store F men ords its)
                            None clk rd (out ++ shown)))
  end.
  { unfold order_page_top.
    destruct crt as [c |];
      do 4 (erewrite bind_ok by reflexivity);
      (erewrite bind_ok by (apply (item_cards_other inp k); assumption));
      match goal with
      | |- context [cart_section inp ?w] =>
          destruct (cart_section_idle inp w eq_refl Hclear) as [shown E]; rewrite E
      end;
      exists shown; reflexivity. }
  destruct Htop as [shown Etop].
  eexists. split.
  { unfold page_order. rewrite (bind_ok _ _ _ _ _ Etop), Hsub. reflexivity. }
  cbn. destruct crt; repeat split.
Qed.

End Snapshot.

End OrderPageFacts.

(* ------------------------------------------------------------------ *)
(** ** [main]: what a run does while the gate is closed *)

Module GateFacts.

Import SubmitFacts.

Section Gate.
Context {F : Type} {A : Amount F}.

(** What [init_db] never touches, and that it ends normally when the
    store answers. *)
Lemma init_db_frame (w : World F) :
  session (world_of (init_db w)) = session w
  /\ ui (world_of (init_db w)) = ui w
  /\ orders (committed (world_of (init_db w))) = orders (committed w)
  /\ order_items (committed (world_of (init_db w))) = order_items (committed w)
  /\ (faults w = None -> init_db w = Ok tt (world_of (init_db w))).
Proof.
  destruct w as [ses [men ords its] pen fl clk rd out].
  destruct men as [| m men].
  - destruct fl as [[| [| n]] |]; vm_compute;
      (split; [reflexivity |]); (split; [reflexivity |]); (split; [reflexivity |]);
      (split; [reflexivity |]); intros H; first [discriminate H | reflexivity].
  - destruct fl as [[| n] |]; vm_compute;
      (split; [reflexivity |]); (split; [reflexivity |]); (split; [reflexivity |]);
      (split; [reflexivity |]); intros H; first [discriminate H | reflexivity].
Qed.

(** X17: while the gate is closed, a run on one of the three back-office
    pages runs none of their handlers.  After the seeding of [init_db]
    the run only asks for the password: the store is what [init_db] left
    (orders and lines as before the run) and the cart is untouched; with
    the store answering, the run ends normally, the admin flag is not
    true afterwards and the warning is the only thing shown. *)
Theorem closed_gate_runs_no_handler (secret : string) (req : Request F) (w : World F) :
  page req <> PageOrder ->
  (if login_clicked req then (pw req =? secret)%string
   else match _admin_ok (session w) with Some b => b | None => false end) = false ->
  let w' := world_of (main secret req w) in
  committed w' = committed (world_of (init_db w))
  /\ orders (committed w') = orders (committed w)
  /\ order_items (committed w') = order_items (committed w)
  /\ cart (session w') = cart (session w)
  /\ (faults w = None ->
      main secret req w = Ok tt w'
      /\ _admin_ok (session w') <> Some true
      /\ ui w' = ui w ++ [warn_need_password]).
Proof.
  intros Hpage Hclosed.
  destruct (init_db_frame w) as (Hses & Hui & Hords & Hits & Hok).
  assert (Hmain :
            main secret req w
            = match init_db w with
              | Ok _ w0 =>
                  Ok tt (set_ui
                           (if login_clicked req
                            then set_session w0 (mk_session (cart (session w0)) (Some false))
                            else w0)
                           (ui w0 ++ [warn_need_password]))
              | Raised e w0 => Raised e w0
              end).
  { unfold main. destruct (init_db w) as [[] w0 | e w0] eqn:E.
    - rewrite (bind_ok _ _ _ _ _ E). cbn [world_of] in Hses.
      assert (Hgate : require_admin secret (pw req) (login_clicked req) w0
                      = Ok false (if login_clicked req
                                  then set_session w0 (mk_session (cart (session w0)) (Some false))
                                  else w0)).
      { unfold require_admin, bind, set_admin_ok, get_admin_ok, ret.
        destruct (login_clicked req).
        - cbn. now rewrite Hclosed.
        - rewrite Hses, Hclosed. reflexivity. }
      destruct (page req); [congruence | | |];
        rewrite (bind_ok _ _ _ _ _ Hgate); cbn [negb];
        destruct (login_clicked req); reflexivity.
    - unfold bind. now rewrite E. }
  cbv zeta. rewrite Hmain.
  destruct (init_db w) as [[] w0 | e w0] eqn:E; cbn [world_of] in *.
  - destruct (login_clicked req) eqn:Hlogin; cbn;
      (split; [reflexivity |]); (split; [exact Hords |]); (split; [exact Hits |]).
    + split; [now rewrite Hses |].
      intros _. split; [reflexivity |]. split; [discriminate |]. now rewrite Hui.
    + split; [now rewrite Hses |].
      intros _. split; [reflexivity |]. split; [| now rewrite Hui].
      rewrite Hses. intros H. rewrite H in Hclosed. discriminate Hclosed.
  - split; [reflexivity |]. split; [exact Hords |]. split; [exact Hits |].
    split; [now rewrite Hses |].
    intros Hfl. specialize (Hok Hfl). discriminate Hok.
Qed.

End Gate.

End GateFacts.

(* ------------------------------------------------------------------ *)
(** ** Further statements at sample inputs, in binary64 *)

Module MoreWitnesses.

Import SubmitFacts ListingFacts MenuFacts DetailFacts CartFacts InitFacts CatalogFacts
  OrderPageFacts GateFacts.

(** The delete button on the only order of the history: the order and
    its two lines are gone, the catalog is there. *)
Lemma delete_order_cascades_witness :
  exists w' : World float,
    page_orders_admin delete_on_first_of_may history_world = Raised RerunException w'
    /\ orders (committed w') = []
    /\ order_items (committed w') = []
    /\ menu_items (committed w') = sample_menu.
Proof.
  destruct (delete_order_cascades (F := float) delete_on_first_of_may history_world
              eq_refl eq_refl eq_refl)
    as (w' & E & _).
  - vm_compute. discriminate.
  - exists w'. split; [exact E |].
    pose proof E as E'. vm_compute in E'. injection E' as <-.
    repeat split.
Defined.

(** The save button with SERVED chosen on an order that was NEW. *)
Lemma save_status_overwrites_witness :
  exists w' : World float,
    page_orders_admin serve_on_first_of_may history_world = Raised RerunException w'
    /\ map Order.status (orders (committed w')) = [SERVED]
    /\ map Order.updated_at (orders (committed w')) = [sample_clock 2]
    /\ order_items (committed w') = order_items (committed (history_world (F := float))).
Proof.
  destruct (save_status_overwrites (F := float) serve_on_first_of_may history_world
              eq_refl eq_refl)
    as (w' & E & _).
  - vm_compute. discriminate.
  - exists w'. split; [exact E |].
    pose proof E as E'. vm_compute in E'. injection E' as <-.
    repeat split.
Defined.

(** EntryA is in the cart twice; its add button with 3 typed in leaves
    it there 3 times, not 5. *)
Lemma add_button_replaces_quantity_witness :
  exists w' : World float,
    item_card (order_input (add_request (F := float) 1 3))
      (MenuItem.mk float 1 "EntryA" (amt_of_int 10) "Main" EmptyString EmptyString true)
      (sample_world [(1, 2); (2, 1)] None) = Ok tt w'
    /\ cart_entries w' = [(1, 3); (2, 1)].
Proof.
  destruct (proj2 (add_button_replaces_quantity (F := float)
                     (order_input (add_request (F := float) 1 3))
                     (MenuItem.mk float 1 "EntryA" (amt_of_int 10) "Main"
                        EmptyString EmptyString true)
                     (sample_world [(1, 2); (2, 1)] None) eq_refl))
    as (w' & E & _).
  - vm_compute. reflexivity.
  - exists w'. split; [exact E |].
    pose proof E as E'. vm_compute in E'. injection E' as <-. reflexivity.
Defined.


Lemma add_item_needs_name_witness :
  exists w' : World float,
    page_menu_admin add_nameless history_world = Ok tt w'
    /\ committed w' = committed (history_world (F := float))
    /\ In warn_name_required (ui w').
Proof.
  destruct (add_item_needs_name (F := float) add_nameless history_world
              eq_refl eq_refl eq_refl eq_refl eq_refl eq_refl)
    as (w' & shown & E & Hc & _ & Hui & Hin & _).
  exists w'. split; [exact E |]. split; [exact Hc |].
  rewrite Hui. apply in_or_app. right. exact Hin.
Defined.

(** EntryA is renamed and repriced to 12; the line that was ordered at
    10 still says EntryA at 10. *)
Lemma save_item_keeps_lines_witness :
  exists w' : World float,
    page_menu_admin reprice_entry_a history_world = Raised RerunException w'
    /\ map (fun m => (MenuItem.name m, MenuItem.price m)) (menu_items (committed w'))
       = [("EntryA new", amt_of_int 12); ("EntryB", amt_of_int 5); ("EntryC", amt_of_int 7)]
    /\ map (fun l => (OrderItem.item_name l, OrderItem.unit_price l))
         (order_items (committed w'))
       = [("EntryA", amt_of_int 10); ("EntryB", amt_of_int 5)].
Proof.
  destruct (save_item_keeps_lines (F := float) reprice_entry_a history_world 1
              eq_refl eq_refl eq_refl eq_refl)
    as (w' & E & _).
  - left. reflexivity.
  - exists w'. split; [exact E |].
    pose proof E as E'. vm_compute in E'. injection E' as <-.
    split; reflexivity.
Defined.


(** Without a category column nothing is imported. *)
Lemma csv_import_needs_columns_witness :
  exists w' : World float,
    page_menu_admin (upload_of ["name"; "price"]) history_world = Ok tt w'
    /\ committed w' = committed (history_world (F := float)).
Proof.
  destruct (csv_import_needs_columns (F := float) (upload_of ["name"; "price"])
              history_world ["name"; "price"] two_rows
              eq_refl eq_refl eq_refl eq_refl eq_refl eq_refl)
    as (w' & E & Hc & _).
  exists w'. split; [exact E | exact Hc].
Defined.

(** The store fails at the third round trip, the commit of the import. *)
Lemma csv_import_failure_caught_witness :
  exists w' : World float,
    page_menu_admin (upload_of ["name"; "price"; "category"])
      (set_faults history_world (Some 2%nat)) = Ok tt w'
    /\ committed w' = committed (history_world (F := float))
    /\ In import_failed (ui w').
Proof.
  destruct (csv_import_failure_caught (F := float) (upload_of ["name"; "price"; "category"])
              (set_faults history_world (Some 2%nat)) ["name"; "price"; "category"] two_rows
              eq_refl eq_refl eq_refl eq_refl eq_refl eq_refl)
    as (w' & E & Hc & _ & Hin).
  exists w'. split; [exact E |]. split; [exact Hc | exact Hin].
Defined.

(** EntryA twice, a key that is gone, the hidden EntryC once: two lines,
    in that order, under the keys 1 and 2. *)
Lemma submission_captures_catalog_witness :
  exists (o : Order.t float) (lines : list (OrderItem.t float)) (w' : World float),
    page_order sample_form (sample_world [(1, 2); (9, 4); (3, 1)] None) = Ok tt w'
    /\ order_items (committed w') = lines
    /\ map line_fields lines
       = [(Some 1, "EntryA", amt_of_int 10, 2); (Some 3, "EntryC", amt_of_int 7, 1)]
    /\ map OrderItem.id lines = [1; 2].
Proof.
  destruct (submission_captures_catalog (F := float) sample_form
              (sample_world [(1, 2); (9, 4); (3, 1)] None) [(1, 2); (9, 4); (3, 1)]
              eq_refl eq_refl)
    as (o & lines & w' & E & _ & Hl & Hsnap & Hids & _);
    try reflexivity; try discriminate.
  exists o, lines, w'. split; [exact E |]. split; [exact Hl |].
  split; [exact Hsnap |].
  pose proof E as E'. vm_compute in E'. injection E' as <-.
  cbn in Hl. subst lines. reflexivity.
Defined.

(** A cart that holds only a key that is gone: order 1 is placed with
    no line and a total of zero. *)
Lemma dangling_cart_commits_empty_order_witness :
  exists (o : Order.t float) (w' : World float),
    page_order sample_form (sample_world [(9, 4)] None) = Ok tt w'
    /\ orders (committed w') = [o]
    /\ Order.id o = 1
    /\ Order.total_price o = amt_zero
    /\ order_items (committed w') = [].
Proof.
  destruct (dangling_cart_commits_empty_order (F := float) sample_form
              (sample_world [(9, 4)] None) [(9, 4)] eq_refl eq_refl)
    as (o & w' & E & Ho & _ & _ & Htot & Hl & _);
    try reflexivity; try discriminate.
  exists o, w'. split; [exact E |]. split; [exact Ho |].
  split; [| split; [exact Htot | exact Hl]].
  pose proof E as E'. vm_compute in E'. injection E' as <-.
  cbn in Ho. injection Ho as <-. reflexivity.
Defined.

Lemma clear_button_empties_cart_witness :
  exists w' : World float,
    page_order clear_form (sample_world [(1, 2)] None) = Raised RerunException w'
    /\ cart (session w') = Some []
    /\ committed w' = sample_store.
Proof.
  destruct (proj1 (clear_button_empties_cart (F := float) clear_form
                     (sample_world [(1, 2)] None) [(1, 2)]
                     eq_refl eq_refl eq_refl eq_refl) eq_refl)
    as (w' & E & Hc & _ & Hs).
  exists w'. split; [exact E |]. split; [exact Hc | exact Hs].
Defined.

(** An add request for the hidden EntryC: the cart stays empty. *)
Lemma hidden_item_not_addable_witness :
  exists w' : World float,
    page_order (order_input (add_request (F := float) 3 1)) (sample_world [] None) = Ok tt w'
    /\ cart_entries w' = []
    /\ committed w' = sample_store.
Proof.
  destruct (hidden_item_not_addable (F := float) (order_input (add_request (F := float) 3 1))
              (sample_world [] None) 3 eq_refl eq_refl eq_refl eq_refl)
    as (w' & E & Hc & _ & Hs).
  - intros m [<- | [<- | [<- | []]]]; cbn; intros H; first [discriminate H | reflexivity].
  - exists w'. split; [exact E |]. split; [exact Hc | exact Hs].
Defined.

(** A first visit to the menu page without a login: the catalog is
    seeded, the warning is shown, nothing else happens. *)
Lemma closed_gate_runs_no_handler_witness :
  main "changeme" (idle_request PageMenuAdmin) (fresh_world (F := float) None)
  = Ok tt (world_of (main "changeme" (idle_request PageMenuAdmin) (fresh_world None)))
  /\ ui (world_of (main "changeme" (idle_request PageMenuAdmin) (fresh_world (F := float) None)))
     = [warn_need_password]
  /\ orders (committed (world_of (main "changeme" (idle_request PageMenuAdmin)
                                    (fresh_world (F := float) None)))) = [].
Proof.
  destruct (closed_gate_runs_no_handler (F := float) "changeme" (idle_request PageMenuAdmin)
              (fresh_world None))
    as (_ & Ho & _ & _ & Hrun).
  - discriminate.
  - reflexivity.
  - destruct (Hrun eq_refl) as (E & _ & Hui).
    split; [exact E |]. split; [exact Hui | exact Ho].
Defined.

End MoreWitnesses.

(* ------------------------------------------------------------------ *)
(** ** The batch archive: one entry per table, no two alike *)

Module ArchiveFacts.

Import QrFacts.

Lemma append_cancel_l (p a b : string) : (p ++ a = p ++ b)%string -> a = b.
Proof.
  induction p as [| c p IH]; cbn; intros H; [exact H |].
  injection H as H. exact (IH H).
Qed.

Lemma append_length (a b : string) :
  String.length (a ++ b) = (String.length a + String.length b)%nat.
Proof. induction a as [| c a IH]; cbn; [reflexivity | now rewrite IH]. Qed.

Lemma append_cancel_r (s a b : string) : (a ++ s = b ++ s)%string -> a = b.
Proof.
  revert b. induction a as [| c a IH]; intros [| d b] H; cbn in H.
  - reflexivity.
  - apply (f_equal String.length) in H. cbn in H. rewrite append_length in H. lia.
  - apply (f_equal String.length) in H. cbn in H. rewrite append_length in H. lia.
  - injection H as -> H. f_equal. exact (IH b H).
Qed.

(** [str(i)] tells integers apart. *)
Lemma of_int_inj (i j : Z) : Str.of_int i = Str.of_int j -> i = j.
Proof.
  unfold Str.of_int. intros H.
  assert (Hnn : forall n, Z.to_int n <> Decimal.Pos Decimal.Nil
                          /\ Z.to_int n <> Decimal.Neg Decimal.Nil).
  { intros [| p | p]; cbn; split; try discriminate;
      intros [= E]; exact (Unsigned.to_uint_nonnil p E). }
  apply (f_equal NilZero.int_of_string) in H.
  rewrite !NilZero.isi in H by apply Hnn.
  injection H as H. exact (DecimalZ.to_int_inj _ _ H).
Qed.

Lemma range_NoDup (a b : Z) : NoDup (range a b).
Proof.
  unfold range. apply Injective_map_NoDup; [| apply seq_NoDup].
  intros x y H. lia.
Qed.

Section Archive.
Context {F : Type}.

(** X18: the batch button shows an archive with one entry for each of
    the [count] tables, [count] taken as at least 1; no two entries have
    the same file name and no two the same link, so no image of the
    archive overwrites another and every table gets a link of its
    own. *)
Theorem batch_archive_distinct (inp : QrInput) (w : World F) :
  qrcode_installed inp = true -> single_clicked inp = false -> batch_clicked inp = true ->
  exists entries : list (string * string),
    page_qr inp w = Ok tt (set_ui w (ui w ++ [qr_archive entries]))
    /\ List.length entries = Z.to_nat (Z.max 1 (count inp))
    /\ (1 <= List.length entries)%nat
    /\ NoDup (map fst entries)
    /\ NoDup (map snd entries).
Proof.
  intros Hq Hs Hb. exists (batch_archive inp). split.
  { unfold page_qr. rewrite Hq, Hs, Hb. simpl.
    unfold bind at 1. simpl. unfold bind at 1.
    pose proof (archive_loop (F := F) (base_url inp) (param_key inp) (prefix inp)
                  (mobile_mode inp)
                  (range (Z.max 1 (start_no inp)) (Z.max 1 (start_no inp) + Z.max 1 (count inp)))
                  [] w) as E.
    simpl in E. rewrite E. reflexivity. }
  unfold batch_archive. rewrite length_map, range_length, !map_map. cbn [fst snd].
  split; [f_equal; lia |]. split; [lia |]. split.
  - apply Injective_map_NoDup; [| apply range_NoDup].
    intros i j H. unfold table_id in H.
    apply append_cancel_l, append_cancel_r, append_cancel_l in H.
    now apply of_int_inj.
  - apply Injective_map_NoDup; [| apply range_NoDup].
    intros i j H. unfold make_url, table_id in H.
    do 4 apply append_cancel_l in H.
    apply append_cancel_r, append_cancel_l in H.
    now apply of_int_inj.
Qed.

End Archive.

(** Five tables from B7 on. *)
Lemma batch_archive_distinct_witness :
  exists entries : list (string * string),
    page_qr (mk_qr_input true "https://x.test/" "table" false "A1" false "B" 7 5 true)
      (fresh_world (F := float) None)
    = Ok tt (set_ui (fresh_world None) [qr_archive entries])
    /\ map fst entries
       = ["qr_B7.png"; "qr_B8.png"; "qr_B9.png"; "qr_B10.png"; "qr_B11.png"]
    /\ NoDup (map snd entries).
Proof.
  destruct (batch_archive_distinct (F := float)
              (mk_qr_input true "https://x.test/" "table" false "A1" false "B" 7 5 true)
              (fresh_world None) eq_refl eq_refl eq_refl)
    as (entries & E & _ & _ & _ & Hnd).
  exists entries. split; [exact E |]. split; [| exact Hnd].
  pose proof E as E'. vm_compute in E'. injection E' as <-. reflexivity.
Defined.

End ArchiveFacts.
